(** * Reporter: the analyze / generate request handlers and the UI gate

    A shallow embedding of the TypeScript sources

      - [src/app/api/analyze/route.ts]   (the analyze [POST] handler),
      - [src/app/api/generate/route.ts]  (the generate [POST] handler),
      - [src/lib/server/python.ts]       ([isEnoent], [spawnPython], [runPython]),
      - [src/app/page.tsx]               ([canAnalyze], [canGenerate],
                                          [validationIssues], [handleAnalyze],
                                          [handleGenerate]),

    into Rocq.  The handlers are effectful: they stage uploads in temporary
    files, start a child process, read its output and remove the temporary
    files again.  They are modelled in a small state-and-exception monad over
    a [World] (the temporary directory, the supply of temporary names and a
    log of the effects performed); everything the Node process cannot decide
    by itself (environment variables, the child process, [JSON.parse], write
    failures of the disk, the error with which the runtime refuses a header)
    is a field of a [Platform] record, so every theorem holds for every
    platform. *)

From Stdlib Require Import String Ascii NArith ZArith List Lia.
From stdpp Require Import base strings gmap list pretty.

Open Scope string_scope.
Open Scope list_scope.
Set Warnings "-register-all".

(** ** JavaScript values used by the handlers *)

Module JS.

(** The double quote character, for header values and JSON text. *)
Definition dq : string := String "034"%char "".

(** *** Strings

    A JavaScript string is a sequence of 16-bit code units.  It is held
    here as the bytes of its UTF-8 encoding (half of a surrogate pair that
    stands alone as the three bytes the same scheme gives it).  So a
    literal of the sources is its own text, the output of the child, which
    [chunk.toString()] decodes from UTF-8, is the text decoded, two strings
    are equal when their bytes are, and joining strings is appending their
    bytes (the handlers join around literals, so the two halves of a pair
    never meet).  What looks at single code units is written on the
    encoding: [trim] here, the conversion of a header value to a byte
    string further down. *)

(** The UTF-8 encoding of a code point. *)
Definition utf8 (cp : N) : string :=
  if (cp <? 0x80)%N then String (ascii_of_N cp) ""
  else if (cp <? 0x800)%N then
    String (ascii_of_N (0xC0 + cp / 64))
      (String (ascii_of_N (0x80 + cp mod 64)) "")
  else if (cp <? 0x10000)%N then
    String (ascii_of_N (0xE0 + cp / 4096))
      (String (ascii_of_N (0x80 + (cp / 64) mod 64))
         (String (ascii_of_N (0x80 + cp mod 64)) ""))
  else
    String (ascii_of_N (0xF0 + cp / 262144))
      (String (ascii_of_N (0x80 + (cp / 4096) mod 64))
         (String (ascii_of_N (0x80 + (cp / 64) mod 64))
            (String (ascii_of_N (0x80 + cp mod 64)) ""))).

(** The string of these code points. *)
Definition encode (chars : list N) : string :=
  fold_right (fun cp s => utf8 cp +:+ s) "" chars.

(** *** [String.prototype.trim]

    The code points [trim] strips, WhiteSpace and LineTerminator of
    ECMAScript: TAB, LF, VT, FF, CR, SP, NBSP, the other space separators
    of Unicode (U+1680, U+2000 to U+200A, U+202F, U+205F, U+3000), the
    line and paragraph separators U+2028 and U+2029, and U+FEFF. *)
Definition white_space : list N :=
  [0x9; 0xA; 0xB; 0xC; 0xD; 0x20; 0xA0; 0x1680;
   0x2000; 0x2001; 0x2002; 0x2003; 0x2004; 0x2005; 0x2006; 0x2007; 0x2008;
   0x2009; 0x200A; 0x2028; 0x2029; 0x202F; 0x205F; 0x3000; 0xFEFF]%N.

(** These bytes are one white space character. *)
Definition white (bytes : string) : bool :=
  existsb (String.eqb bytes) (map utf8 white_space).

(** A white space character takes one, two or three bytes. *)
Fixpoint trimStart (s : string) : string :=
  match s with
  | EmptyString => EmptyString
  | String a r1 =>
      if white (String a "") then trimStart r1
      else match r1 with
           | EmptyString => s
           | String b r2 =>
               if white (String a (String b "")) then trimStart r2
               else match r2 with
                    | EmptyString => s
                    | String c r3 =>
                        if white (String a (String b (String c ""))) then trimStart r3
                        else s
                    end
           end
  end.

(** Nothing but white space. *)
Definition blank (s : string) : bool :=
  match trimStart s with EmptyString => true | _ => false end.

(** What stands before the longest end of [s] that is white space only. *)
Fixpoint trimEnd (s : string) : string :=
  if blank s then EmptyString
  else match s with
       | EmptyString => EmptyString
       | String c rest => String c (trimEnd rest)
       end.

Definition trim (s : string) : string := trimEnd (trimStart s).

(** Truthiness of a string: only the empty string is falsy. *)
Definition truthy (s : string) : bool :=
  match s with EmptyString => false | _ => true end.

(** *** Errors and completions *)

Record JsError := mkError {
  error_name : string;
  error_message : string;
  error_code : option string
}.

(** [String(error)] for an [Error] object ([Error.prototype.toString]). *)
Definition String_of_error (e : JsError) : string :=
  if String.eqb (error_name e) "" then error_message e
  else if String.eqb (error_message e) "" then error_name e
  else error_name e +:+ ": " +:+ error_message e.

Definition TypeError (msg : string) : JsError := mkError "TypeError" msg None.
Definition Error (msg : string) : JsError := mkError "Error" msg None.

(** A statement either completes normally with a value or throws. *)
Inductive Completion (A : Type) : Type :=
| Normal (a : A)
| Throw (e : JsError).
Arguments Normal {A} a.
Arguments Throw {A} e.

(** *** JSON values, as produced by [JSON.parse]

    A number is carried as its canonical decimal text ([Number::toString]);
    the handlers only ever print numbers.  [None] as the result of a
    property lookup stands for [undefined]. *)

Inductive JSON : Type :=
| JNull
| JBool (b : bool)
| JNum (lit : string)
| JStr (s : string)
| JArr (xs : list JSON)
| JObj (fields : list (string * JSON)).

Fixpoint own_property (k : string) (fields : list (string * JSON)) : option JSON :=
  match fields with
  | [] => None
  | (k', v) :: rest => if String.eqb k k' then Some v else own_property k rest
  end.

(** [v.k] for the keys the handlers read ([status], [report],
    [reportMonth]), none of which is inherited from a prototype: reading a
    property of [null] throws, a primitive or an array has no such
    property. *)
Definition get (v : JSON) (k : string) : Completion (option JSON) :=
  match v with
  | JNull =>
      Throw (TypeError ("Cannot read properties of null (reading '" +:+ k +:+ "')"))
  | JObj fields => Normal (own_property k fields)
  | _ => Normal None
  end.

(** [v?.k]: short-circuits to [undefined] on [null] and [undefined]. *)
Definition get_optional (v : option JSON) (k : string) : option JSON :=
  match v with
  | None | Some JNull => None
  | Some (JObj fields) => own_property k fields
  | Some _ => None
  end.

(** [v ?? d] *)
Definition nullish (v : option JSON) (d : JSON) : JSON :=
  match v with
  | None | Some JNull => d
  | Some x => x
  end.

(** [v !== "ok"] and friends: strict inequality with a string literal. *)
Definition strict_neq_string (v : option JSON) (s : string) : bool :=
  match v with
  | Some (JStr s') => negb (String.eqb s' s)
  | _ => true
  end.

(** [ToString] as applied by a template literal.  An object parsed from
    JSON prints as [[object Object]] unless it has an own [toString]
    property, which is then not callable and makes the conversion throw;
    an array prints its elements joined by commas, [null] as nothing. *)
Fixpoint ToString (v : JSON) : option string :=
  match v with
  | JNull => Some "null"
  | JBool true => Some "true"
  | JBool false => Some "false"
  | JNum lit => Some lit
  | JStr s => Some s
  | JArr xs =>
      (fix join (l : list JSON) : option string :=
         match l with
         | [] => Some ""
         | x :: rest =>
             match (match x with JNull => Some "" | _ => ToString x end) with
             | None => None
             | Some e =>
                 match rest with
                 | [] => Some e
                 | _ => match join rest with
                        | None => None
                        | Some r => Some (e +:+ "," +:+ r)
                        end
                 end
             end
         end) xs
  | JObj fields =>
      match own_property "toString" fields with
      | Some _ => None
      | None => Some "[object Object]"
      end
  end.

End JS.

Import JS.

(** ** The world of a request: temporary directory, name supply, effect log *)

Abbreviation Buffer := (list Byte.byte).
Abbreviation Files := (gmap string Buffer).
Abbreviation Env := (gmap string string).

(** What [spawnPython] resolves with. *)
Record PythonResult := mkPythonResult {
  stdout : string;
  stderr : string;
  exitCode : option Z
}.

(** The effects a handler performs, in the order it performs them. *)
Inductive Event : Type :=
| EvCreate (name : string)            (* tmp.fileSync created the file *)
| EvWriteFile (name : string)         (* fs.writeFile succeeded *)
| EvSpawn (command : string) (args : list string) (cwd : option string)
| EvReadFile (name : string)          (* fs.readFile was called *)
| EvRemove (name : string).           (* removeCallback was called *)

Record World := mkWorld {
  files : Files;
  tmp_seq : nat;
  events : list Event
}.

(** How a child process settles the promise of [spawnPython]: the first of
    its [error] and [close] events. *)
Inductive ChildOutcome : Type :=
| ChildError (e : JsError)
| ChildClose (r : PythonResult).

(** Everything outside the handlers' control.  [child_process] is the
    program started by [spawn], run to the event that settles the promise,
    together with what it did to the files; [tmp_tries] is how many
    candidate names [tmp] generates before it gives up; [writeFile_error]
    tells when the disk refuses a write; [Headers_error name value] is the
    error with which the [Headers] of the runtime refuse a value, worded
    as the runtime words it. *)
Record Platform := mkPlatform {
  process_env : Env;
  process_cwd : string;
  os_tmpdir : string;
  child_process :
    string → list string → option string → Env → Files → ChildOutcome * Files;
  tmp_tries : nat;
  JSON_parse : string → JsError + JSON;
  writeFile_error : Files → string → Buffer → option JsError;
  Headers_error : string → string → JsError
}.

(** ** The monad of handler code *)

Definition M (A : Type) : Type := World → Completion A * World.

Definition ret {A} (a : A) : M A := fun w => (Normal a, w).

Definition throw {A} (e : JsError) : M A := fun w => (Throw e, w).

Definition bind {A B} (m : M A) (k : A → M B) : M B :=
  fun w =>
    match m w with
    | (Normal a, w') => k a w'
    | (Throw e, w') => (Throw e, w')
    end.

Notation "x <~ m ;; k" := (bind m (fun x => k))
  (at level 100, m at next level, k at level 200, right associativity).
Notation "m ;; k" := (bind m (fun _ => k))
  (at level 100, k at level 200, right associativity).

Definition emit (ev : Event) : M unit :=
  fun w => (Normal tt, mkWorld (files w) (tmp_seq w) (events w ++ [ev])).

(** [try { body } catch (error) { handler } finally { fin }] *)
Definition try_catch_finally {A} (body : M A) (handler : JsError → M A)
    (fin : M unit) : M A :=
  fun w =>
    let '(c, w1) :=
      match body w with
      | (Normal a, w') => (Normal a, w')
      | (Throw e, w') => handler e w'
      end in
    match fin w1 with
    | (Normal _, w2) => (c, w2)
    | (Throw e, w2) => (Throw e, w2)
    end.

(** [try { body } catch (error) { handler }] *)
Definition try_catch {A} (body : M A) (handler : JsError → M A) : M A :=
  fun w =>
    match body w with
    | (Normal a, w') => (Normal a, w')
    | (Throw e, w') => handler e w'
    end.

(** ** The [tmp] and [fs] capabilities *)

Section Capabilities.
Context (pf : Platform).

Definition tmp_name (seq : nat) (postfix : string) : string :=
  os_tmpdir pf +:+ "/tmp-" +:+ pretty seq +:+ postfix.

(** [tmp.tmpNameSync]: generate candidates until one does not exist. *)
Fixpoint tmpNameSync (fs : Files) (tries seq : nat) (postfix : string)
  : option string * nat :=
  match tries with
  | O => (None, seq)
  | S tries' =>
      let name := tmp_name seq postfix in
      match fs !! name with
      | None => (Some name, S seq)
      | Some _ => tmpNameSync fs tries' (S seq) postfix
      end
  end.

(** [tmp.fileSync({ postfix, discardDescriptor: true })]: creates an empty
    file under a fresh name.  The returned object is represented by its
    [name]; its [removeCallback] is [removeCallback name]. *)
Definition fileSync (postfix : string) : M string :=
  fun w =>
    match tmpNameSync (files w) (tmp_tries pf) (tmp_seq w) postfix with
    | (None, seq') =>
        (Throw (Error "Could not get a unique tmp filename, max tries reached"),
         mkWorld (files w) seq' (events w))
    | (Some name, seq') =>
        (Normal name,
         mkWorld (<[name := []]> (files w)) seq' (events w ++ [EvCreate name]))
    end.

(** [tmpFile.removeCallback()]: unlinks the file; a file that is already
    gone is not an error. *)
Definition removeCallback (name : string) : M unit :=
  fun w =>
    (Normal tt, mkWorld (delete name (files w)) (tmp_seq w) (events w ++ [EvRemove name])).

(** [fs.writeFile(name, buffer)] *)
Definition writeFile (name : string) (buffer : Buffer) : M unit :=
  fun w =>
    match writeFile_error pf (files w) name buffer with
    | Some e => (Throw e, w)
    | None =>
        (Normal tt,
         mkWorld (<[name := buffer]> (files w)) (tmp_seq w) (events w ++ [EvWriteFile name]))
    end.

Definition ENOENT (syscall path : string) : JsError :=
  mkError "Error"
    ("ENOENT: no such file or directory, " +:+ syscall +:+ " '" +:+ path +:+ "'")
    (Some "ENOENT").

(** [fs.readFile(name)] *)
Definition readFile (name : string) : M Buffer :=
  emit (EvReadFile name) ;;
  fun w =>
    match files w !! name with
    | Some buffer => (Normal buffer, w)
    | None => (Throw (ENOENT "open" name), w)
    end.

End Capabilities.

(** ** [src/lib/server/python.ts] *)

Module Python.
Section Python.
Context (pf : Platform).

(** [a || b] on values that are strings or [undefined]. *)
Definition or (a b : option string) : option string :=
  match a with
  | Some s => if truthy s then a else b
  | None => b
  end.

Definition or_default (a : option string) (d : string) : string :=
  match a with
  | Some s => if truthy s then s else d
  | None => d
  end.

Definition isEnoent (error : JsError) : bool :=
  match error_code error with
  | Some code => String.eqb code "ENOENT"
  | None => false
  end.

(** The promise is settled by the first [error] or [close] event of the
    child; [stdout] and [stderr] are the chunks received, in order. *)
Definition spawnPython (command : string) (args : list string)
    (cwd : option string) : M PythonResult :=
  fun w =>
    let env :=
      <["PYTHONUTF8" := "1"]> (<["PYTHONIOENCODING" := "utf-8"]> (process_env pf)) in
    let '(outcome, fs') := child_process pf command args cwd env (files w) in
    let w' := mkWorld fs' (tmp_seq w) (events w ++ [EvSpawn command args cwd]) in
    match outcome with
    | ChildError error => (Throw error, w')
    | ChildClose result => (Normal result, w')
    end.

Definition configured : string :=
  or_default
    (or (or (process_env pf !! "PYTHON_EXECUTABLE") (process_env pf !! "PYTHON"))
        (process_env pf !! "PYTHON_BIN"))
    "python".

(** What is caught is what [spawnPython] rejects with, the [Error] of the
    [error] event: [error instanceof Error] holds and [details] is its
    message. *)
Definition runPython (args : list string) (cwd : option string)
  : M PythonResult :=
  try_catch
    (spawnPython configured args cwd)
    (fun error =>
       if isEnoent error && negb (String.eqb configured "py") then
         spawnPython "py" args cwd
       else
         let details := error_message error in
         throw (Error ("Failed to start Python: " +:+ details))).

(** *** Vocabulary for statements about [runPython] *)

(** The environment [spawnPython] gives the child. *)
Definition child_env : Env :=
  <["PYTHONUTF8" := "1"]> (<["PYTHONIOENCODING" := "utf-8"]> (process_env pf)).

(** The world after one [spawn] that left the files as [fs]. *)
Definition spawned (w : World) (fs : Files) (command : string)
    (args : list string) (cwd : option string) : World :=
  mkWorld fs (tmp_seq w) (events w ++ [EvSpawn command args cwd]).

(** The start of some process with these arguments in this directory. *)
Definition is_spawn_of (args : list string) (cwd : option string) (ev : Event) : Prop :=
  ∃ command, ev = EvSpawn command args cwd.

End Python.

(** The value of the first variable of the list that is set to a non-empty
    string, else the default. *)
Fixpoint first_set (env : Env) (names : list string) (default : string) : string :=
  match names with
  | [] => default
  | name :: rest =>
      match env !! name with
      | Some (String c v) => String c v
      | _ => first_set env rest default
      end
  end.

End Python.

(** ** What the two route files share *)

(** An uploaded [File]: its name and its bytes ([file.arrayBuffer()]). *)
Record File := mkFile {
  file_name : string;
  file_bytes : Buffer
}.

Inductive FormDataEntryValue : Type :=
| FormString (s : string)
| FormFile (f : File).

(** A [FormData] is a list of entries; [get] returns the first value of a
    name, or [null] ([None]). *)
Abbreviation FormData := (list (string * FormDataEntryValue)).

Fixpoint formData_get (formData : FormData) (name : string)
  : option FormDataEntryValue :=
  match formData with
  | [] => None
  | (n, v) :: rest => if String.eqb n name then Some v else formData_get rest name
  end.

(** [formData.get(name) === s] *)
Definition entry_strict_eq (v : option FormDataEntryValue) (s : string) : bool :=
  match v with
  | Some (FormString s') => String.eqb s' s
  | _ => false
  end.

Inductive ResponseBody : Type :=
| JsonBody (value : JSON)        (* the value handed to NextResponse.json *)
| BufferBody (bytes : Buffer).

Record Response := mkResponse {
  status : Z;
  headers : list (string * string);
  body : ResponseBody
}.

Definition NextResponse_json (value : JSON) (st : Z) : Response :=
  mkResponse st [("content-type", "application/json")] (JsonBody value).

Fixpoint string_forallb (p : ascii → bool) (s : string) : bool :=
  match s with
  | EmptyString => true
  | String c rest => p c && string_forallb p rest
  end.

(** *** Header values

    [new Response(body, { headers })] first converts every value to a
    ByteString, which throws on a code unit above 255; then it appends
    each header, which removes HTTP white space at both ends of the value
    and throws when what is left has a NUL, LF or CR in it (Web IDL and
    the Fetch standard). *)

(** Every code unit is below 256: every character takes one byte, or two
    of which the first is C2 or C3. *)
Fixpoint isByteString (v : string) : bool :=
  match v with
  | EmptyString => true
  | String a rest =>
      let n := nat_of_ascii a in
      if (n <? 128)%nat then isByteString rest
      else if ((n =? 194) || (n =? 195))%nat then
        match rest with
        | String b rest' =>
            (128 <=? nat_of_ascii b)%nat && (nat_of_ascii b <? 192)%nat
            && isByteString rest'
        | EmptyString => false
        end
      else false
  end.

(** HTTP white space: TAB, LF, CR, SP. *)
Definition isHTTPWhitespace (c : ascii) : bool :=
  let n := nat_of_ascii c in ((n =? 9) || (n =? 10) || (n =? 13) || (n =? 32))%nat.

Fixpoint dropStart (v : string) : string :=
  match v with
  | EmptyString => EmptyString
  | String c rest => if isHTTPWhitespace c then dropStart rest else v
  end.

Fixpoint dropEnd (v : string) : string :=
  match v with
  | EmptyString => EmptyString
  | String c rest =>
      match dropEnd rest with
      | EmptyString => if isHTTPWhitespace c then EmptyString else String c EmptyString
      | kept => String c kept
      end
  end.

Definition headerValueNormalize (v : string) : string := dropStart (dropEnd v).

(** No NUL, LF or CR. *)
Definition isValidHeaderValue (v : string) : bool :=
  string_forallb
    (fun c => let n := nat_of_ascii c in negb ((n =? 0) || (n =? 10) || (n =? 13))%nat)
    v.

(** A text that can stand inside a header value: a byte string without
    NUL, LF and CR. *)
Definition isHeaderValue (v : string) : bool :=
  isByteString v && isValidHeaderValue v.

(** [path.join] of segments that need no normalisation ([process.cwd()] is
    an absolute, normalised path). *)
Definition path_join (segments : list string) : string :=
  String.concat "/" segments.

Definition lift {A} (c : Completion A) : M A := fun w => (c, w).

(** [new NextResponse(bytes, { status, headers })], for names that are
    header names: the values are converted to byte strings, then
    normalised and appended one by one; the first value refused makes the
    constructor throw. *)
Definition NextResponse_new (pf : Platform) (bytes : Buffer) (st : Z)
    (hs : list (string * string)) : M Response :=
  match find (fun h => negb (isByteString (snd h))) hs with
  | Some h => throw (Headers_error pf (fst h) (snd h))
  | None =>
      let appended := map (fun h => (fst h, headerValueNormalize (snd h))) hs in
      match find (fun h => negb (isValidHeaderValue (snd h))) appended with
      | Some h => throw (Headers_error pf (fst h) (snd h))
      | None => ret (mkResponse st appended (BufferBody bytes))
      end
  end.

Section Route.
Context (pf : Platform).

(** [writeTempFile], the same text in both route files. *)
Definition writeTempFile (file : File) (postfix : string) : M string :=
  tmpFile <~ fileSync pf postfix ;;
  let buffer := file_bytes file in
  writeFile pf tmpFile buffer ;;
  ret tmpFile.

Definition parse (text : string) : M JSON :=
  match JSON_parse pf text with
  | inl e => throw e
  | inr v => ret v
  end.

End Route.

(** *** Vocabulary for statements about the handlers *)

(** [v instanceof File] *)
Definition is_File (v : option FormDataEntryValue) : bool :=
  match v with Some (FormFile _) => true | _ => false end.

(** The constant [skipValidation] of both handlers. *)
Definition skip_of (formData : FormData) : bool :=
  entry_strict_eq (formData_get formData "skipValidation") "true".

(** The answer to a form without one of the files. *)
Definition bad_request : Response :=
  NextResponse_json
    (JObj [("error", JStr "Both word and excel files are required.")]) 400.

(** The answer to a worker that printed nothing. *)
Definition no_output (result : PythonResult) : Response :=
  NextResponse_json
    (JObj [("error", JStr "Python worker did not return output.");
           ("details", JStr (stderr result))]) 500.

(** The flag that makes the pipeline skip its gate. *)
Definition flag : string := "--skip-validation".

(** ** [src/app/api/analyze/route.ts] *)

Module Analyze.
Section Analyze.
Context (pf : Platform).

Definition args (skipValidation : bool) (wordTmp excelTmp : string) : list string :=
  let scriptPath := path_join [process_cwd pf; "processor"; "main.py"] in
  let args := [scriptPath; "analyze"; "--word"; wordTmp; "--excel"; excelTmp] in
  if skipValidation then args ++ ["--skip-validation"] else args.

(** The body of the [try] block. *)
Definition try_block (skipValidation : bool) (wordTmp excelTmp : string)
  : M Response :=
  result <~ Python.runPython pf (args skipValidation wordTmp excelTmp)
              (Some (process_cwd pf)) ;;
  if negb (truthy (trim (stdout result))) then
    ret (NextResponse_json
           (JObj [("error", JStr "Python worker did not return output.");
                  ("details", JStr (stderr result))])
           500)
  else
    payload <~ parse pf (stdout result) ;;
    payload_status <~ lift (get payload "status") ;;
    if strict_neq_string payload_status "ok" then
      ret (NextResponse_json payload 422)
    else
      ret (NextResponse_json payload 200).

Definition catch_block (error : JsError) : M Response :=
  ret (NextResponse_json
         (JObj [("error", JStr "Failed to analyze report.");
                ("details", JStr (String_of_error error))])
         500).

Definition finally_block (wordTmp excelTmp : string) : M unit :=
  removeCallback wordTmp ;;
  removeCallback excelTmp.

(** Lines 29-30: the uploads are staged before the [try] is entered. *)
Definition stage (word excel : File) : M (string * string) :=
  wordTmp <~ writeTempFile pf word ".docx" ;;
  excelTmp <~ writeTempFile pf excel ".xlsx" ;;
  ret (wordTmp, excelTmp).

Definition POST (formData : FormData) : M Response :=
  let word := formData_get formData "word" in
  let excel := formData_get formData "excel" in
  let skipValidation := entry_strict_eq (formData_get formData "skipValidation") "true" in
  match word, excel with
  | Some (FormFile word), Some (FormFile excel) =>
      tmps <~ stage word excel ;;
      let '(wordTmp, excelTmp) := tmps in
      try_catch_finally
        (try_block skipValidation wordTmp excelTmp)
        catch_block
        (finally_block wordTmp excelTmp)
  | _, _ =>
      ret (NextResponse_json
             (JObj [("error", JStr "Both word and excel files are required.")])
             400)
  end.

End Analyze.

(** The answer of the [catch] block. *)
Definition failure (error : JsError) : Response :=
  NextResponse_json
    (JObj [("error", JStr "Failed to analyze report.");
           ("details", JStr (String_of_error error))]) 500.

(** The world after the [finally] block. *)
Definition cleaned (wordTmp excelTmp : string) (w : World) : World :=
  mkWorld (delete excelTmp (delete wordTmp (files w))) (tmp_seq w)
    (events w ++ [EvRemove wordTmp; EvRemove excelTmp]).

End Analyze.

(** ** [src/app/api/generate/route.ts] *)

Module Generate.
Section Generate.
Context (pf : Platform).

Definition args (skipValidation : bool) (wordTmp excelTmp outTmp : string)
  : list string :=
  let scriptPath := path_join [process_cwd pf; "processor"; "main.py"] in
  let args :=
    [scriptPath; "generate"; "--word"; wordTmp; "--excel"; excelTmp;
     "--out"; outTmp] in
  if skipValidation then args ++ ["--skip-validation"] else args.

Definition xlsx_content_type : string :=
  "application/vnd.openxmlformats-officedocument.spreadsheetml.sheet".

(** [`report_updated_${reportMonth}.xlsx`] *)
Definition filename_of (reportMonth : JSON) : M string :=
  match ToString reportMonth with
  | Some text => ret ("report_updated_" +:+ text +:+ ".xlsx")
  | None => throw (TypeError "Cannot convert object to primitive value")
  end.

Definition content_disposition (filename : string) : string :=
  "attachment; filename=" +:+ dq +:+ filename +:+ dq.

(** The body of the [try] block. *)
Definition try_block (skipValidation : bool) (wordTmp excelTmp outTmp : string)
  : M Response :=
  result <~ Python.runPython pf (args skipValidation wordTmp excelTmp outTmp)
              (Some (process_cwd pf)) ;;
  if negb (truthy (trim (stdout result))) then
    ret (NextResponse_json
           (JObj [("error", JStr "Python worker did not return output.");
                  ("details", JStr (stderr result))])
           500)
  else
    payload <~ parse pf (stdout result) ;;
    payload_status <~ lift (get payload "status") ;;
    if strict_neq_string payload_status "ok" then
      ret (NextResponse_json payload 422)
    else
      fileBuffer <~ readFile outTmp ;;
      report <~ lift (get payload "report") ;;
      let reportMonth := nullish (get_optional report "reportMonth") (JStr "report") in
      filename <~ filename_of reportMonth ;;
      NextResponse_new pf fileBuffer 200
        [("Content-Type", xlsx_content_type);
         ("Content-Disposition", content_disposition filename)].

Definition catch_block (error : JsError) : M Response :=
  ret (NextResponse_json
         (JObj [("error", JStr "Failed to generate report.");
                ("details", JStr (String_of_error error))])
         500).

Definition finally_block (wordTmp excelTmp outTmp : string) : M unit :=
  removeCallback wordTmp ;;
  removeCallback excelTmp ;;
  removeCallback outTmp.

(** Lines 29-31: the uploads are staged and the output file is created
    before the [try] is entered. *)
Definition stage (word excel : File) : M (string * string * string) :=
  wordTmp <~ writeTempFile pf word ".docx" ;;
  excelTmp <~ writeTempFile pf excel ".xlsx" ;;
  outTmp <~ fileSync pf ".xlsx" ;;
  ret (wordTmp, excelTmp, outTmp).

Definition POST (formData : FormData) : M Response :=
  let word := formData_get formData "word" in
  let excel := formData_get formData "excel" in
  let skipValidation := entry_strict_eq (formData_get formData "skipValidation") "true" in
  match word, excel with
  | Some (FormFile word), Some (FormFile excel) =>
      tmps <~ stage word excel ;;
      let '(wordTmp, excelTmp, outTmp) := tmps in
      try_catch_finally
        (try_block skipValidation wordTmp excelTmp outTmp)
        catch_block
        (finally_block wordTmp excelTmp outTmp)
  | _, _ =>
      ret (NextResponse_json
             (JObj [("error", JStr "Both word and excel files are required.")])
             400)
  end.

End Generate.

(** The answer of the [catch] block. *)
Definition failure (error : JsError) : Response :=
  NextResponse_json
    (JObj [("error", JStr "Failed to generate report.");
           ("details", JStr (String_of_error error))]) 500.

(** The world after the [finally] block. *)
Definition cleaned (wordTmp excelTmp outTmp : string) (w : World) : World :=
  mkWorld (delete outTmp (delete excelTmp (delete wordTmp (files w)))) (tmp_seq w)
    (events w ++ [EvRemove wordTmp; EvRemove excelTmp; EvRemove outTmp]).

(** The world after [fs.readFile(name)] was called. *)
Definition read (name : string) (w : World) : World :=
  mkWorld (files w) (tmp_seq w) (events w ++ [EvReadFile name]).

(** The success response: the spreadsheet as an attachment. *)
Definition download (filename : string) (bytes : Buffer) : Response :=
  mkResponse 200
    [("Content-Type", xlsx_content_type);
     ("Content-Disposition", content_disposition filename)]
    (BufferBody bytes).

(** [payload.report?.reportMonth ?? "report"] *)
Definition reportMonth_of (report : option JSON) : JSON :=
  nullish (get_optional report "reportMonth") (JStr "report").

End Generate.

(** ** [src/app/page.tsx]: the report types and the two gates of the UI *)

Module Page.

Inductive IssueType : Type := error | warning.

Record Issue := mkIssue {
  type : IssueType;
  message : string;
  source : option string;
  suggestedFix : option string
}.

Record MetricRow := mkMetricRow {
  key : string;
  value : Z;
  sourceSnippet : string;
  sourcePointer : option string
}.

Record ArticleRow := mkArticleRow {
  article : string;
  women_u18 : Z;
  women_ge18 : Z;
  women_total : Z;
  stopped : Z;
  new : Z;
  total_cases : Z
}.

Record CrossCheck := mkCrossCheck {
  check_key : string;
  formula : string;
  expected : Z;
  actual : Z;
  pass : bool
}.

Inductive CellValue : Type :=
| CellString (s : string)
| CellNumber (n : Z)
| CellNull.

Record UpdatePreview := mkUpdatePreview {
  sheet : string;
  cell : string;
  rowLabel : string;
  oldValue : CellValue;
  newValue : CellValue;
  kind : string
}.

Record AnalysisReport := mkAnalysisReport {
  reportMonth : string;
  extractedMetrics : list MetricRow;
  articleBreakdown : list ArticleRow;
  crossChecks : list CrossCheck;
  errors : list Issue;
  warnings : list Issue;
  updatePreview : list UpdatePreview;
  validationSkipped : option bool
}.

Inductive Status : Type := idle | analyzing | generating.

Definition Status_eqb (a b : Status) : bool :=
  match a, b with
  | idle, idle | analyzing, analyzing | generating, generating => true
  | _, _ => false
  end.

(** The state of the [Home] component. *)
Record State := mkState {
  wordFile : option File;
  excelFile : option File;
  analysis : option AnalysisReport;
  status : Status;
  apiError : option string;
  skipValidation : bool
}.

(** Truthiness of a value that is an object or [null]. *)
Definition truthy_object {A} (v : option A) : bool :=
  match v with Some _ => true | None => false end.

(** [canAnalyze] and [canGenerate], as the truthiness the [disabled]
    attribute of the buttons negates. *)
Definition canAnalyze (s : State) : bool :=
  truthy_object (wordFile s) && truthy_object (excelFile s)
  && Status_eqb (status s) idle.

Definition canGenerate (s : State) : bool :=
  truthy_object (wordFile s) && truthy_object (excelFile s)
  && Status_eqb (status s) idle
  && (skipValidation s
      || match analysis s with
         | Some a => (length (errors a) =? 0)%nat
         | None => false
         end).

(** The form both [handleAnalyze] and [handleGenerate] post. *)
Definition formData_of (word excel : File) (skip : bool) : FormData :=
  [("word", FormFile word); ("excel", FormFile excel);
   ("skipValidation", FormString (if skip then "true" else "false"))].

End Page.

(** ** The validation gate of the pipeline *)

Module Pipeline.
Import Page.

(** The payload types follow [AnalysisResponse] of [page.tsx]. *)
Inductive PayloadStatus : Type := ok | validation_error.

Record Payload := mkPayload {
  payload_status : PayloadStatus;
  report : AnalysisReport
}.

(** Modelled from the spec: the pipeline ([processor/main.py]) is not among
    the sources.  Section 4.4: in the override case [validationSkipped =
    true] is recorded in the report, and warnings are still computed and
    returned; nothing else of the report changes. *)
Definition record_skip (r : AnalysisReport) : AnalysisReport :=
  mkAnalysisReport (reportMonth r) (extractedMetrics r) (articleBreakdown r)
    (crossChecks r) (errors r) (warnings r) (updatePreview r) (Some true).

(** Modelled from the spec: the pipeline ([processor/main.py]) is not among
    the sources.  Section 4.4, the generation eligibility rule: generation
    proceeds iff [errors.length == 0] or the caller explicitly set the
    skip-validation override. *)
Definition proceeds (skip : bool) (validated : AnalysisReport) : bool :=
  (length (errors validated) =? 0)%nat || skip.

(** Modelled from the spec: the pipeline ([processor/main.py]) is not among
    the sources.  Sections 4.7 and 6, the gate of the generate operation: a
    blocked gate returns the report with status [validation_error] and
    writes no file; otherwise the payload has status [ok] and the updated
    spreadsheet is the artifact.  [validated] is the report as the
    Validating state leaves it, [updated] the spreadsheet that Applying
    produces. *)
Definition generate (skip : bool) (validated : AnalysisReport) (updated : Buffer)
  : Payload * option Buffer :=
  let report := if skip then record_skip validated else validated in
  if proceeds skip validated
  then (mkPayload ok report, Some updated)
  else (mkPayload validation_error report, None).

End Pipeline.

(** ** Vocabulary of the statements *)

(** The last character of a string, if it has one. *)
Fixpoint last_char (s : string) : option ascii :=
  match s with
  | EmptyString => None
  | String c EmptyString => Some c
  | String _ rest => last_char rest
  end.

(** The four situations the status code tells apart. *)
Inductive Class : Type := Success | GateBlocked | BadRequest | Fatal.


(** Nothing but white space characters (or nothing at all). *)
Definition white_space_only (s : string) : Prop :=
  ∃ chars, Forall (fun cp => cp ∈ white_space) chars ∧ s = encode chars.

(** How [runPython] settled, read as the claim reads it: a thrown error,
    empty output and unparseable output are fatal; a payload is a success
    when its status is [ok] and a blocked gate otherwise.  A payload
    [null], whose status cannot be read, is a thrown error. *)
Definition class_of_run (pf : Platform) (c : Completion PythonResult) : Class :=
  match c with
  | Throw _ => Fatal
  | Normal result =>
      if truthy (trim (stdout result)) then
        match JSON_parse pf (stdout result) with
        | inl _ => Fatal
        | inr payload =>
            match get payload "status" with
            | Throw _ => Fatal
            | Normal (Some (JStr s)) =>
                if String.eqb s "ok" then Success else GateBlocked
            | Normal _ => GateBlocked
            end
        end
      else Fatal
  end.

Definition is_staging_event (ev : Event) : Prop :=
  match ev with
  | EvCreate _ | EvWriteFile _ => True
  | _ => False
  end.

(** The platform whose child processes resolve with [g result] where those
    of [pf] resolve with [result]; everything else is as in [pf]. *)
Definition map_result (g : PythonResult → PythonResult) (pf : Platform) : Platform :=
  mkPlatform (process_env pf) (process_cwd pf) (os_tmpdir pf)
    (fun command args cwd env fs =>
       let '(outcome, fs') := child_process pf command args cwd env fs in
       (match outcome with
        | ChildError e => ChildError e
        | ChildClose r => ChildClose (g r)
        end, fs'))
    (tmp_tries pf) (JSON_parse pf) (writeFile_error pf) (Headers_error pf).

(** The reading of the claim as it stands: whatever else of the result
    changes, equal stdout gives equal responses. *)
Definition responses_depend_only_on_stdout : Prop :=
  ∀ (pf : Platform) (g : PythonResult → PythonResult) (formData : FormData) (w : World),
    (∀ r, stdout (g r) = stdout r) →
    fst (Analyze.POST (map_result g pf) formData w) = fst (Analyze.POST pf formData w)
    ∧ fst (Generate.POST (map_result g pf) formData w) = fst (Generate.POST pf formData w).

(** ** A concrete platform, for running the handlers on samples

    [Samples.read_value] reads the JSON subset the samples are written in:
    objects, arrays, strings without escapes, integers in canonical form
    and the three literals.  No theorem below depends on it: they are
    proved for every [JSON_parse]. *)

Module Samples.

Definition json_ws (c : ascii) : bool :=
  let n := nat_of_ascii c in
  ((n =? 9) || (n =? 10) || (n =? 13) || (n =? 32))%nat.

Fixpoint skip_ws (s : string) : string :=
  match s with
  | String c r => if json_ws c then skip_ws r else s
  | EmptyString => s
  end.

(** The characters of a string up to its closing quote; a control
    character may not stand in it. *)
Fixpoint read_string (s : string) : option (string * string) :=
  match s with
  | EmptyString => None
  | String c r =>
      if Ascii.eqb c "034" then Some (EmptyString, r)
      else if Ascii.eqb c "\" then None
      else if (nat_of_ascii c <? 32)%nat then None
      else match read_string r with
           | Some (t, r') => Some (String c t, r')
           | None => None
           end
  end.

Definition is_digit (c : ascii) : bool :=
  let n := nat_of_ascii c in ((48 <=? n) && (n <=? 57))%nat.

Fixpoint read_digits (s : string) : string * string :=
  match s with
  | String c r =>
      if is_digit c then let '(d, r') := read_digits r in (String c d, r')
      else (EmptyString, s)
  | EmptyString => (EmptyString, s)
  end.

(** An integer without sign of plus, leading zero, fraction or exponent. *)
Definition read_number (s : string) : option (string * string) :=
  let '(sign, s1) :=
    match s with
    | String "-" r => ("-", r)
    | _ => ("", s)
    end in
  match read_digits s1 with
  | (EmptyString, _) => None
  | (String "0" (String _ _), _) => None
  | ("0", r) => if String.eqb sign "-" then None else Some ("0", r)
  | (d, r) =>
      match r with
      | String "." _ | String "e" _ | String "E" _ => None
      | _ => Some (sign +:+ d, r)
      end
  end.

Definition read_literal (word : string) (v : JSON) (s : string)
  : option (JSON * string) :=
  if String.prefix word s
  then Some (v, String.substring (String.length word)
                  (String.length s - String.length word) s)
  else None.

(** A later member replaces an earlier one of the same key. *)
Fixpoint define (k : string) (v : JSON) (fields : list (string * JSON))
  : list (string * JSON) :=
  match fields with
  | [] => [(k, v)]
  | (k', v') :: rest =>
      if String.eqb k k' then (k, v) :: rest else (k', v') :: define k v rest
  end.

Fixpoint read_value (fuel : nat) (s : string) {struct fuel}
  : option (JSON * string) :=
  match fuel with
  | O => None
  | S n =>
      let elements :=
        fix elements (k : nat) (s : string) (acc : list JSON) {struct k}
          : option (list JSON * string) :=
          match k with
          | O => None
          | S k' =>
              match read_value n s with
              | Some (v, r) =>
                  match skip_ws r with
                  | String "," r' => elements k' r' (acc ++ [v])
                  | String "]" r' => Some ((acc ++ [v]), r')
                  | _ => None
                  end
              | None => None
              end
          end in
      let members :=
        fix members (k : nat) (s : string) (acc : list (string * JSON)) {struct k}
          : option (list (string * JSON) * string) :=
          match k with
          | O => None
          | S k' =>
              match skip_ws s with
              | String "034" r =>
                  match read_string r with
                  | Some (key, r1) =>
                      match skip_ws r1 with
                      | String ":" r2 =>
                          match read_value n r2 with
                          | Some (v, r3) =>
                              match skip_ws r3 with
                              | String "," r4 => members k' r4 (define key v acc)
                              | String "}" r4 => Some (define key v acc, r4)
                              | _ => None
                              end
                          | None => None
                          end
                      | _ => None
                      end
                  | None => None
                  end
              | _ => None
              end
          end in
      match skip_ws s with
      | String "{" r =>
          match skip_ws r with
          | String "}" r' => Some (JObj [], r')
          | _ => match members (String.length r) r [] with
                 | Some (fields, r') => Some (JObj fields, r')
                 | None => None
                 end
          end
      | String "[" r =>
          match skip_ws r with
          | String "]" r' => Some (JArr [], r')
          | _ => match elements (String.length r) r [] with
                 | Some (xs, r') => Some (JArr xs, r')
                 | None => None
                 end
          end
      | String "034" r =>
          match read_string r with
          | Some (t, r') => Some (JStr t, r')
          | None => None
          end
      | String "t" _ as s' => read_literal "true" (JBool true) s'
      | String "f" _ as s' => read_literal "false" (JBool false) s'
      | String "n" _ as s' => read_literal "null" JNull s'
      | s' =>
          match read_number s' with
          | Some (lit, r) => Some (JNum lit, r)
          | None => None
          end
      end
  end.

Definition SyntaxError (text : string) : JsError :=
  mkError "SyntaxError" ("Unexpected token in JSON: " +:+ text) None.

Definition read_json (text : string) : JsError + JSON :=
  match read_value (S (String.length text)) text with
  | Some (v, r) =>
      match skip_ws r with
      | EmptyString => inr v
      | _ => inl (SyntaxError text)
      end
  | None => inl (SyntaxError text)
  end.

(** [quoted s] is [s] between double quotes. *)
Definition quoted (s : string) : string := dq +:+ s +:+ dq.

(** The argument that follows [flag] on a command line. *)
Fixpoint arg_after (flag : string) (args : list string) : option string :=
  match args with
  | a :: ((b :: _) as rest) =>
      if String.eqb a flag then Some b else arg_after flag rest
  | _ => None
  end.

(** The first code unit above 255 of a string, with its index; of a
    surrogate pair it is the first half. *)
Fixpoint first_wide (index : nat) (s : string) : option (nat * N) :=
  match s with
  | EmptyString => None
  | String a rest =>
      let x := N_of_ascii a in
      if (x <? 0x80)%N then first_wide (S index) rest
      else match rest with
           | EmptyString => None
           | String b rest' =>
               let y := (N_of_ascii b - 0x80)%N in
               if (x <? 0xC4)%N then first_wide (S index) rest'
               else if (x <? 0xE0)%N then Some (index, ((x - 0xC0) * 64 + y)%N)
               else match rest' with
                    | EmptyString => None
                    | String c _ =>
                        let z := (N_of_ascii c - 0x80)%N in
                        if (x <? 0xF0)%N
                        then Some (index, ((x - 0xE0) * 4096 + y * 64 + z)%N)
                        else Some (index,
                                   (0xD800 + ((x - 0xF0) * 262144 + y * 4096 + z * 64
                                              - 0x10000) / 1024)%N)
                    end
           end
  end.

(** The errors of [Headers] as Node words them: the one of the conversion
    to a byte string, and the one of a value with NUL, LF or CR in it. *)
Definition headers_error (name value : string) : JsError :=
  match first_wide 0 value with
  | Some (index, unit) =>
      TypeError ("Cannot convert argument to a ByteString because the character at index "
                 +:+ pretty index +:+ " has a value of " +:+ pretty unit
                 +:+ " which is greater than 255.")
  | None =>
      TypeError ("Headers.append: " +:+ dq +:+ value +:+ dq
                 +:+ " is an invalid header value.")
  end.

(** A platform with no interpreter variable set, five candidate names for
    a temporary file and a disk that accepts every write. *)
Definition platform
    (child : string → list string → option string → Env → Files → ChildOutcome * Files)
  : Platform :=
  mkPlatform ∅ "/srv/reporter" "/tmp" child 5 read_json (fun _ _ _ => None)
    headers_error.

Definition docx : File := mkFile "may.docx" [Byte.x50; Byte.x4b; Byte.x03].
Definition xlsx : File := mkFile "april.xlsx" [Byte.x50; Byte.x4b; Byte.x04; Byte.x05].
Definition updated_xlsx : Buffer := [Byte.x50; Byte.x4b; Byte.x07].

Definition form (skipValidation : string) : FormData :=
  [("word", FormFile docx); ("excel", FormFile xlsx);
   ("skipValidation", FormString skipValidation)].

Definition world0 : World := mkWorld ∅ 0 [].

(** A world in which the first candidate name for a document is taken. *)
Definition world1 : World :=
  mkWorld {[ "/tmp/tmp-0.docx" := [Byte.x00] ]} 0 [].

(** [{"status":"ok","report":{"reportMonth":"2024-05"}}] *)
Definition ok_text : string :=
  "{" +:+ quoted "status" +:+ ":" +:+ quoted "ok" +:+ "," +:+ quoted "report"
  +:+ ":{" +:+ quoted "reportMonth" +:+ ":" +:+ quoted "2024-05" +:+ "}}".

Definition ok_payload : JSON :=
  JObj [("status", JStr "ok"); ("report", JObj [("reportMonth", JStr "2024-05")])].



(** White space only: a byte order mark and a line feed. *)
Definition bom_text : string := encode [0xFEFF; 0xA]%N.

(** [{"status":"ok","report":{"errors":[]}}]: a report without a month. *)
Definition ok_no_month_text : string :=
  "{" +:+ quoted "status" +:+ ":" +:+ quoted "ok" +:+ "," +:+ quoted "report"
  +:+ ":{" +:+ quoted "errors" +:+ ":[]}}".

(** [{"status":"validation_error","report":{"reportMonth":"2024-05"}}] *)
Definition blocked_text : string :=
  "{" +:+ quoted "status" +:+ ":" +:+ quoted "validation_error" +:+ ","
  +:+ quoted "report" +:+ ":{" +:+ quoted "reportMonth" +:+ ":"
  +:+ quoted "2024-05" +:+ "}}".

Definition blocked_payload : JSON :=
  JObj [("status", JStr "validation_error");
        ("report", JObj [("reportMonth", JStr "2024-05")])].

(** A worker that writes the updated spreadsheet to its [--out] path (when
    it is given one) and prints [text], leaving with [code]. *)
Definition writing_worker (text : string) (code : Z)
  : string → list string → option string → Env → Files → ChildOutcome * Files :=
  fun _ args _ _ fs =>
    (ChildClose (mkPythonResult text "" (Some code)),
     match arg_after "--out" args with
     | Some out => <[out := updated_xlsx]> fs
     | None => fs
     end).

(** A worker that only prints: [text] on stdout, [err] on stderr. *)
Definition printing_worker (text err : string) (code : Z)
  : string → list string → option string → Env → Files → ChildOutcome * Files :=
  fun _ _ _ _ fs => (ChildClose (mkPythonResult text err (Some code)), fs).

(** No interpreter of any name can be started. *)
Definition no_interpreter
  : string → list string → option string → Env → Files → ChildOutcome * Files :=
  fun command _ _ _ fs =>
    (ChildError (mkError "Error" ("spawn " +:+ command +:+ " ENOENT") (Some "ENOENT")), fs).

(** Only the Windows launcher [py] exists. *)
Definition only_py (text : string)
  : string → list string → option string → Env → Files → ChildOutcome * Files :=
  fun command args cwd env fs =>
    if String.eqb command "py" then printing_worker text "" 0 command args cwd env fs
    else no_interpreter command args cwd env fs.

(** The interpreter exists but may not be executed. *)
Definition not_executable
  : string → list string → option string → Env → Files → ChildOutcome * Files :=
  fun command _ _ _ fs =>
    (ChildError (mkError "Error" ("spawn " +:+ command +:+ " EACCES") (Some "EACCES")), fs).

(** A disk that refuses every write of more than three bytes. *)
Definition small_disk (p : Platform) : Platform :=
  mkPlatform (process_env p) (process_cwd p) (os_tmpdir p) (child_process p)
    (tmp_tries p) (JSON_parse p)
    (fun _ name buffer =>
       if (3 <? length buffer)%nat
       then Some (mkError "Error" ("ENOSPC: no space left on device, write '" +:+ name +:+ "'")
                    (Some "ENOSPC"))
       else None)
    (Headers_error p).

(** A host with that disk; the worker is never reached. *)
Definition full_host : Platform :=
  small_disk (platform (printing_worker "" "" 0)).

End Samples.

(** ** [src/app/page.tsx]: [validationIssues], [handleAnalyze], [handleGenerate]

    At run time the [analysis] state holds whatever [data.report] was: a
    JSON value the type annotation does not check.  The handlers are
    modelled on that state.  What a handler does is the sequence of its
    calls: the state setters, [fetch], and the click on the download
    anchor. *)

Module Client.

(** [validationIssues]: the errors, each with [type] overwritten by
    [error], then the warnings, each with [type] overwritten by
    [warning]; empty without an analysis. *)
Definition retype (t : Page.IssueType) (issue : Page.Issue) : Page.Issue :=
  Page.mkIssue t (Page.message issue) (Page.source issue) (Page.suggestedFix issue).

Definition validationIssues (analysis : option Page.AnalysisReport) : list Page.Issue :=
  match analysis with
  | None => []
  | Some a =>
      map (retype Page.error) (Page.errors a)
      ++ map (retype Page.warning) (Page.warnings a)
  end.

#[global] Instance IssueType_eq_dec : EqDecision Page.IssueType :=
  ltac:(solve_decision).

(** The text of an issue type, as a template literal prints it. *)
Definition IssueType_text (t : Page.IssueType) : string :=
  match t with Page.error => "error" | Page.warning => "warning" end.

(** The React key of the row of [issue] at [index]:
    [`${issue.type}-${index}`]. *)
Definition issue_key (issue : Page.Issue) (index : nat) : string :=
  IssueType_text (Page.type issue) +:+ "-" +:+ pretty index.

(** A text without a hyphen, as the decimal numeral of an index is. *)
Definition no_hyphen (s : string) : bool :=
  string_forallb (fun c => negb (Ascii.eqb c "-")) s.

(** The React key of a row of the update preview at [index]:
    [`${row.sheet}-${row.cell}-${index}`]. *)
Definition preview_key (row : Page.UpdatePreview) (index : nat) : string :=
  Page.sheet row +:+ "-" +:+ Page.cell row +:+ "-" +:+ pretty index.

(** The keys of [rows.map((row, index) => key(row, index))]. *)
Definition keys {A} (key : A → nat → string) (rows : list A) : list string :=
  imap (fun index row => key row index) rows.

Inductive Effect : Type :=
| SetStatus (s : Page.Status)
| SetApiError (e : option string)
| SetAnalysis (a : option JSON)
| Fetch (url : string) (formData : FormData)
| Download (filename : string) (blob : Buffer).

Record State := mkState {
  wordFile : option File;
  excelFile : option File;
  analysis : option JSON;
  status : Page.Status;
  apiError : option string;
  skipValidation : bool
}.

(** What [fetch] resolves with, as far as the handlers look at it. *)
Record FetchResponse := mkFetchResponse {
  ok : bool;
  response_headers : list (string * string);
  json : Completion JSON;
  blob : Completion Buffer
}.

(** The state after a setter was called; the other calls leave it. *)
Definition apply (s : State) (e : Effect) : State :=
  match e with
  | SetStatus x =>
      mkState (wordFile s) (excelFile s) (analysis s) x (apiError s) (skipValidation s)
  | SetApiError x =>
      mkState (wordFile s) (excelFile s) (analysis s) (status s) x (skipValidation s)
  | SetAnalysis x =>
      mkState (wordFile s) (excelFile s) x (status s) (apiError s) (skipValidation s)
  | Fetch _ _ | Download _ _ => s
  end.

Definition after (effects : list Effect) (s : State) : State :=
  fold_left apply effects s.

(** *** Handler code: calls made so far, and a completion *)

Definition UI (A : Type) : Type := list Effect * Completion A.

Definition ret {A} (a : A) : UI A := ([], Normal a).

Definition bind {A B} (m : UI A) (k : A → UI B) : UI B :=
  match m with
  | (log, Normal a) => let '(log', c) := k a in (log ++ log', c)
  | (log, Throw e) => (log, Throw e)
  end.

Definition call (e : Effect) : UI unit := ([e], Normal tt).

Definition lift {A} (c : Completion A) : UI A := ([], c).

Definition try_catch {A} (body : UI A) (handler : JsError → UI A) : UI A :=
  match body with
  | (log, Normal a) => (log, Normal a)
  | (log, Throw e) => let '(log', c) := handler e in (log ++ log', c)
  end.

Definition try_catch_finally {A} (body : UI A) (handler : JsError → UI A)
    (fin : UI unit) : UI A :=
  let '(log, c) := try_catch body handler in
  match fin with
  | (log', Normal _) => (log ++ log', c)
  | (log', Throw e) => (log ++ log', Throw e)
  end.

Declare Scope ui_scope.
Notation "x <~ m ;; k" := (bind m (fun x => k))
  (at level 100, m at next level, k at level 200, right associativity) : ui_scope.
Notation "m ;; k" := (bind m (fun _ => k))
  (at level 100, k at level 200, right associativity) : ui_scope.
Local Open Scope ui_scope.

(** *** JavaScript operators the handlers use *)

(** Truthiness of a JSON value; the number zero prints as [0]. *)
Definition truthy_json (v : JSON) : bool :=
  match v with
  | JNull => false
  | JBool b => b
  | JNum lit => negb (String.eqb lit "0")
  | JStr s => truthy s
  | JArr _ | JObj _ => true
  end.

(** The chain [data && k in data && data[k]], as what it is when truthy:
    a falsy [data] ends it, [in] applied to a truthy primitive throws, an
    array has no such property. *)
Definition truthy_field (data : JSON) (k : string) : Completion (option JSON) :=
  if truthy_json data then
    match data with
    | JObj fields =>
        match own_property k fields with
        | Some v => Normal (if truthy_json v then Some v else None)
        | None => Normal None
        end
    | JArr _ => Normal None
    | _ => Throw (TypeError ("Cannot use 'in' operator to search for '" +:+ k +:+ "'"))
    end
  else Normal None.

(** [`${v}`] *)
Definition template (v : JSON) : UI string :=
  match ToString v with
  | Some text => ret text
  | None => lift (Throw (TypeError "Cannot convert object to primitive value"))
  end.

Definition lower (c : ascii) : ascii :=
  let n := nat_of_ascii c in
  if ((65 <=? n) && (n <=? 90))%nat then ascii_of_nat (n + 32) else c.

Fixpoint lowercase (s : string) : string :=
  match s with
  | EmptyString => EmptyString
  | String c rest => String (lower c) (lowercase rest)
  end.

(** [headers.get(name)]: names are compared without regard to case; the
    values of a repeated name are joined. *)
Definition headers_get (hs : list (string * string)) (name : string) : option string :=
  match filter (fun h => lowercase (fst h) = lowercase name) hs with
  | [] => None
  | found => Some (String.concat ", " (map snd found))
  end.

(** *** The regular expression [/filename="(.+?)"/]

    The expression is applied to what [headers.get] returns: a header
    value, all of whose code units are below 256.  In such a text LF and
    CR are the only line terminators, and a character of two bytes has no
    byte that is a double quote, LF or CR: matching byte by byte is
    matching code unit by code unit. *)

Definition isLineTerminator (c : ascii) : bool :=
  let n := nat_of_ascii c in ((n =? 10) || (n =? 13))%nat.

Fixpoint strip_prefix (p s : string) : option string :=
  match p, s with
  | EmptyString, _ => Some s
  | String a p', String b s' => if Ascii.eqb a b then strip_prefix p' s' else None
  | String _ _, EmptyString => None
  end.

(** A character that is neither a double quote nor a line terminator. *)
Definition plain (c : ascii) : bool :=
  negb (Ascii.eqb c "034") && negb (isLineTerminator c).

(** The rest of the group once its first character is taken: as few
    characters as possible up to a double quote, none a line terminator. *)
Fixpoint lazy_to_quote (s : string) : option string :=
  match s with
  | EmptyString => None
  | String c rest =>
      if Ascii.eqb c "034" then Some EmptyString
      else if isLineTerminator c then None
      else match lazy_to_quote rest with
           | Some g => Some (String c g)
           | None => None
           end
  end.

(** The group [(.+?)] followed by the closing quote. *)
Definition group (s : string) : option string :=
  match s with
  | EmptyString => None
  | String c rest =>
      if isLineTerminator c then None
      else match lazy_to_quote rest with
           | Some g => Some (String c g)
           | None => None
           end
  end.

(** [text.match(/filename="(.+?)"/)?.[1]]: the group of the leftmost
    match. *)
Fixpoint match_filename (text : string) : option string :=
  let here :=
    match strip_prefix ("filename=" +:+ dq) text with
    | Some rest => group rest
    | None => None
    end in
  match here with
  | Some g => Some g
  | None =>
      match text with
      | EmptyString => None
      | String _ rest => match_filename rest
      end
  end.

(** *** The two handlers *)

Section Handlers.
Context (fetch : string → FormData → Completion FetchResponse).

Definition do_fetch (url : string) (formData : FormData) : UI FetchResponse :=
  call (Fetch url formData) ;; lift (fetch url formData).

(** [response.json()] inside its own [try], [null] when it throws. *)
Definition read_data (response : FetchResponse) : UI JSON :=
  try_catch (lift (json response)) (fun _ => ret JNull).

(** [hasReport], with [setAnalysis(data.report)] when it holds. *)
Definition take_report (data : JSON) : UI bool :=
  report <~ lift (truthy_field data "report") ;;
  match report with
  | Some r => call (SetAnalysis (Some r)) ;; ret true
  | None => ret false
  end.

(** The message of a response that is not ok. *)
Definition error_message_of (data : JSON) (hasReport : bool)
    (blocked failed : string) : UI string :=
  error <~ lift (truthy_field data "error") ;;
  let baseMessage :=
    match error with
    | Some e => e
    | None => JStr (if hasReport then blocked else failed)
    end in
  details <~ (d <~ lift (truthy_field data "details") ;;
              match d with
              | Some v => text <~ template v ;; ret (" Details: " +:+ text)
              | None => ret ""
              end) ;;
  base <~ template baseMessage ;;
  ret (base +:+ details).

Definition handleAnalyze (s : State) : list Effect :=
  match wordFile s, excelFile s with
  | Some wordFile, Some excelFile =>
      fst (call (SetStatus Page.analyzing) ;;
           call (SetApiError None) ;;
           call (SetAnalysis None) ;;
           let formData := Page.formData_of wordFile excelFile (skipValidation s) in
           try_catch_finally
             (response <~ do_fetch "/api/analyze" formData ;;
              data <~ read_data response ;;
              hasReport <~ take_report data ;;
              if negb (ok response) then
                message <~ error_message_of data hasReport
                             "Validation issues detected. Review the report below."
                             "Analyze failed. Please check the server logs." ;;
                call (SetApiError (Some message))
              else ret tt)
             (fun _ => call (SetApiError (Some "Analyze failed. Please check the server logs.")))
             (call (SetStatus Page.idle)))
  | _, _ => []
  end.

Definition handleGenerate (s : State) : list Effect :=
  match wordFile s, excelFile s with
  | Some wordFile, Some excelFile =>
      fst (call (SetStatus Page.generating) ;;
           call (SetApiError None) ;;
           let formData := Page.formData_of wordFile excelFile (skipValidation s) in
           try_catch_finally
             (response <~ do_fetch "/api/generate" formData ;;
              if negb (ok response) then
                data <~ read_data response ;;
                hasReport <~ take_report data ;;
                message <~ error_message_of data hasReport
                             "Generation blocked. Review the validation report."
                             "Generate failed. Please check the server logs." ;;
                call (SetApiError (Some message))
              else
                blob <~ lift (blob response) ;;
                let disposition := headers_get (response_headers response) "Content-Disposition" in
                let filenameMatch :=
                  match disposition with
                  | Some text => match_filename text
                  | None => None
                  end in
                let filename :=
                  match filenameMatch with
                  | Some name => name
                  | None => "report_updated.xlsx"
                  end in
                call (Download filename blob))
             (fun _ => call (SetApiError (Some "Generate failed. Please check the server logs.")))
             (call (SetStatus Page.idle)))
  | _, _ => []
  end.

End Handlers.

End Client.

(** A response of a route handler, as [fetch] hands it to the page: [ok]
    is a status from 200 to 299; [json()] parses the text
    [NextResponse.json] made of the value, which gives the value back;
    [blob()] gives the bytes of a binary body. *)
Definition received (r : Response) (c : Client.FetchResponse) : Prop :=
  Client.ok c = ((200 <=? status r) && (status r <=? 299))%Z
  ∧ (∀ name, Client.headers_get (Client.response_headers c) name
             = Client.headers_get (headers r) name)
  ∧ (∀ v, body r = JsonBody v → Client.json c = Normal v)
  ∧ (∀ b, body r = BufferBody b → Client.blob c = Normal b).


(** ** A page in front of the sample hosts *)

Module PageSamples.

(** What the page receives of a response of the samples: their binary
    bodies are no JSON text, and the bytes of their JSON bodies are not
    looked at. *)
Definition view (r : Response) : Client.FetchResponse :=
  Client.mkFetchResponse ((200 <=? status r) && (status r <=? 299))%Z (headers r)
    (match body r with
     | JsonBody v => Normal v
     | BufferBody _ => Throw (Samples.SyntaxError "PK")
     end)
    (match body r with
     | BufferBody b => Normal b
     | JsonBody _ => Normal []
     end).

(** [fetch] against the two routes of a host whose directory is [w].  What
    the framework answers when a handler throws is not in the sources: it
    is shown here as a response that is not ok and has no JSON body. *)
Definition server (pf : Platform) (w : World)
  : string → FormData → Completion Client.FetchResponse :=
  fun url formData =>
    match fst (if String.eqb url "/api/analyze" then Analyze.POST pf formData w
               else Generate.POST pf formData w) with
    | Normal r => Normal (view r)
    | Throw e =>
        Normal (Client.mkFetchResponse false []
                  (Throw (Samples.SyntaxError "Internal Server Error")) (Normal []))
    end.

(** Both files selected, nothing analysed yet, the skip box unchecked. *)
Definition page : Client.State :=
  Client.mkState (Some Samples.docx) (Some Samples.xlsx) None Page.idle None false.

(** The same page with an analysis and a banner left from before. *)
Definition page_after_analysis : Client.State :=
  Client.mkState (Some Samples.docx) (Some Samples.xlsx)
    (Some (JObj [("reportMonth", JStr "2024-04")])) Page.idle (Some "old") false.

End PageSamples.

(** * Properties *)

Ltac split_or H :=
  repeat match type of H with _ ∨ _ => destruct H as [H|H] end.

(** ** Running computations *)

Lemma bind_Normal {A B} (m : M A) (k : A → M B) w a w' :
  m w = (Normal a, w') → bind m k w = k a w'.
Proof. intros H. unfold bind. now rewrite H. Qed.

Lemma bind_Throw {A B} (m : M A) (k : A → M B) w e w' :
  m w = (Throw e, w') → bind m k w = (Throw e, w').
Proof. intros H. unfold bind. now rewrite H. Qed.

(** When neither the handler nor the finaliser can throw, a
    [try]/[catch]/[finally] statement always completes normally. *)
Lemma try_catch_finally_Normal {A} (body : M A) (h : JsError → A) (fin : M unit)
    w c w1 w2 :
  body w = (c, w1) →
  fin w1 = (Normal tt, w2) →
  try_catch_finally body (fun e => ret (h e)) fin w =
    (Normal (match c with Normal a => a | Throw e => h e end), w2).
Proof.
  intros Hb Hf. unfold try_catch_finally, ret. rewrite Hb.
  destruct c; now rewrite Hf.
Qed.

Lemma prefix_append (p s : string) : String.prefix p (p +:+ s) = true.
Proof.
  induction p as [|c p IH]; simpl.
  - now destruct s.
  - destruct (ascii_dec c c); [exact IH | congruence].
Qed.

(** ** [runPython] *)

Module PythonFacts.
Import Python.

Section Facts.
Context (pf : Platform).

Lemma configured_first_set :
  configured pf =
  first_set (process_env pf) ["PYTHON_EXECUTABLE"; "PYTHON"; "PYTHON_BIN"] "python".
Proof.
  unfold configured, first_set, or, or_default.
  destruct (process_env pf !! "PYTHON_EXECUTABLE") as [[|? ?]|];
    destruct (process_env pf !! "PYTHON") as [[|? ?]|];
    destruct (process_env pf !! "PYTHON_BIN") as [[|? ?]|]; reflexivity.
Qed.

Lemma spawnPython_eq command args cwd w :
  spawnPython pf command args cwd w =
  let '(outcome, fs) := child_process pf command args cwd (child_env pf) (files w) in
  (match outcome with ChildError e => Throw e | ChildClose r => Normal r end,
   spawned w fs command args cwd).
Proof.
  unfold spawnPython, child_env, spawned.
  destruct (child_process pf command args cwd _ (files w)) as [[e|r] fs]; reflexivity.
Qed.

Lemma runPython_close args cwd w r fs :
  child_process pf (configured pf) args cwd (child_env pf) (files w) = (ChildClose r, fs) →
  runPython pf args cwd w = (Normal r, spawned w fs (configured pf) args cwd).
Proof.
  intros H. unfold runPython, try_catch. rewrite spawnPython_eq, H. reflexivity.
Qed.

Lemma runPython_retry args cwd w e fs :
  child_process pf (configured pf) args cwd (child_env pf) (files w) = (ChildError e, fs) →
  isEnoent e && negb (String.eqb (configured pf) "py") = true →
  runPython pf args cwd w =
  spawnPython pf "py" args cwd (spawned w fs (configured pf) args cwd).
Proof.
  intros H Hc. unfold runPython, try_catch. rewrite spawnPython_eq, H. cbn.
  now rewrite Hc.
Qed.

Lemma runPython_wrap args cwd w e fs :
  child_process pf (configured pf) args cwd (child_env pf) (files w) = (ChildError e, fs) →
  isEnoent e && negb (String.eqb (configured pf) "py") = false →
  runPython pf args cwd w =
  (Throw (Error ("Failed to start Python: " +:+ error_message e)),
   spawned w fs (configured pf) args cwd).
Proof.
  intros H Hc. unfold runPython, try_catch. rewrite spawnPython_eq, H. cbn.
  now rewrite Hc.
Qed.

Lemma runPython_events args cwd w c w' :
  runPython pf args cwd w = (c, w') →
  tmp_seq w' = tmp_seq w ∧
  ∃ evs, events w' = events w ++ evs ∧ evs ≠ [] ∧ Forall (is_spawn_of args cwd) evs.
Proof.
  intros H.
  destruct (child_process pf (configured pf) args cwd (child_env pf) (files w))
    as [[e|r] fs] eqn:Hc.
  - destruct (isEnoent e && negb (String.eqb (configured pf) "py")) eqn:Hr.
    + rewrite (runPython_retry _ _ _ _ _ Hc Hr), spawnPython_eq in H.
      destruct (child_process pf "py" args cwd (child_env pf) _) as [o fs2].
      injection H as _ <-. split; [reflexivity|].
      exists [EvSpawn (configured pf) args cwd; EvSpawn "py" args cwd].
      cbn. rewrite <- app_assoc. repeat split; [discriminate|].
      repeat constructor; eexists; reflexivity.
    + rewrite (runPython_wrap _ _ _ _ _ Hc Hr) in H. injection H as _ <-.
      split; [reflexivity|].
      exists [EvSpawn (configured pf) args cwd]. repeat split; [discriminate|].
      repeat constructor; eexists; reflexivity.
  - rewrite (runPython_close _ _ _ _ _ Hc) in H. injection H as _ <-.
    split; [reflexivity|].
    exists [EvSpawn (configured pf) args cwd]. repeat split; [discriminate|].
    repeat constructor; eexists; reflexivity.
Qed.

End Facts.
End PythonFacts.

Section RunPython.
Import Python PythonFacts.
Context (pf : Platform).

Lemma isEnoent_true (e : JsError) :
  isEnoent e = true ↔ error_code e = Some "ENOENT".
Proof.
  unfold isEnoent. destruct (error_code e) as [code|]; [|split; discriminate].
  rewrite String.eqb_eq. split; congruence.
Qed.

Lemma retry_condition (e : JsError) :
  isEnoent e && negb (String.eqb (configured pf) "py") = true ↔
  error_code e = Some "ENOENT" ∧ configured pf ≠ "py".
Proof.
  rewrite andb_true_iff, negb_true_iff, isEnoent_true.
  now rewrite <- String.eqb_neq.
Qed.

(** C10.  [runPython] launches the interpreter named by the first of
    PYTHON_EXECUTABLE, PYTHON, PYTHON_BIN that is set (to a non-empty
    value), else [python]: that command is the first process started.  If
    starting it fails with ENOENT and the command is not [py], [runPython]
    does what one further start with [py] does, and exactly these two
    processes are started; any other failure to start is thrown as an error
    whose message begins with [Failed to start Python: ] after the one
    start. *)
Theorem runPython_interpreter_and_retry (args : list string) (cwd : option string)
    (w : World) :
  configured pf =
    first_set (process_env pf) ["PYTHON_EXECUTABLE"; "PYTHON"; "PYTHON_BIN"] "python"
  ∧ (∃ rest, events (snd (runPython pf args cwd w)) =
             events w ++ EvSpawn (configured pf) args cwd :: rest)
  ∧ (∀ e fs,
       child_process pf (configured pf) args cwd (child_env pf) (files w)
         = (ChildError e, fs) →
       error_code e = Some "ENOENT" → configured pf ≠ "py" →
       runPython pf args cwd w =
         spawnPython pf "py" args cwd (spawned w fs (configured pf) args cwd)
       ∧ events (snd (runPython pf args cwd w)) =
         events w ++ [EvSpawn (configured pf) args cwd; EvSpawn "py" args cwd])
  ∧ (∀ e fs,
       child_process pf (configured pf) args cwd (child_env pf) (files w)
         = (ChildError e, fs) →
       ¬ (error_code e = Some "ENOENT" ∧ configured pf ≠ "py") →
       ∃ e', runPython pf args cwd w =
               (Throw e', spawned w fs (configured pf) args cwd)
             ∧ String.prefix "Failed to start Python: " (error_message e') = true
             ∧ events (spawned w fs (configured pf) args cwd) =
               events w ++ [EvSpawn (configured pf) args cwd]).
Proof.
  split; [apply configured_first_set|]. split; [|split].
  - destruct (child_process pf (configured pf) args cwd (child_env pf) (files w))
      as [[e|r] fs] eqn:Hc.
    + destruct (isEnoent e && negb (String.eqb (configured pf) "py")) eqn:Hr.
      * rewrite (runPython_retry _ _ _ _ _ _ Hc Hr), spawnPython_eq.
        destruct (child_process pf "py" args cwd _ _) as [o fs2]. cbn.
        rewrite <- app_assoc. eexists; reflexivity.
      * rewrite (runPython_wrap _ _ _ _ _ _ Hc Hr). cbn. eexists; reflexivity.
    + rewrite (runPython_close _ _ _ _ _ _ Hc). cbn. eexists; reflexivity.
  - intros e fs Hc Hcode Hpy.
    assert (Hr : isEnoent e && negb (String.eqb (configured pf) "py") = true)
      by now apply retry_condition.
    rewrite (runPython_retry _ _ _ _ _ _ Hc Hr). split; [reflexivity|].
    rewrite spawnPython_eq.
    destruct (child_process pf "py" args cwd _ _) as [o fs2]. cbn.
    now rewrite <- app_assoc.
  - intros e fs Hc Hno.
    assert (Hr : isEnoent e && negb (String.eqb (configured pf) "py") = false).
    { destruct (isEnoent e && negb (String.eqb (configured pf) "py")) eqn:Hr;
        [|reflexivity].
      apply retry_condition in Hr. contradiction. }
    rewrite (runPython_wrap _ _ _ _ _ _ Hc Hr).
    eexists. split; [reflexivity|]. split; [apply prefix_append | reflexivity].
Qed.

End RunPython.

(** On a host where only [py] exists the start of [python] fails with
    ENOENT and [py] is started; where [python] may not be executed the
    error is wrapped. *)
Lemma runPython_interpreter_and_retry_witness :
  events (snd (Python.runPython (Samples.platform (Samples.only_py Samples.ok_text))
                 ["main.py"; "analyze"] None Samples.world0)) =
    [EvSpawn "python" ["main.py"; "analyze"] None;
     EvSpawn "py" ["main.py"; "analyze"] None]
  ∧ ∃ e', fst (Python.runPython (Samples.platform Samples.not_executable)
                 ["main.py"; "analyze"] None Samples.world0) = Throw e'
          ∧ String.prefix "Failed to start Python: " (error_message e') = true.
Proof.
  split.
  - destruct (runPython_interpreter_and_retry
                (Samples.platform (Samples.only_py Samples.ok_text))
                ["main.py"; "analyze"] None Samples.world0)
      as (_ & _ & Hretry & _).
    apply (Hretry (mkError "Error" "spawn python ENOENT" (Some "ENOENT")) ∅);
      [reflexivity | reflexivity | discriminate].
  - destruct (runPython_interpreter_and_retry
                (Samples.platform Samples.not_executable)
                ["main.py"; "analyze"] None Samples.world0)
      as (_ & _ & _ & Hwrap).
    destruct (Hwrap (mkError "Error" "spawn python EACCES" (Some "EACCES")) ∅)
      as (e' & Hrun & Hprefix & _);
      [reflexivity | intros [Hcode _]; discriminate |].
    exists e'. rewrite Hrun. split; [reflexivity | exact Hprefix].
Defined.

(** ** Staging: [fileSync], [writeTempFile], [removeCallback] *)

Section Staging.
Context (pf : Platform).

Lemma tmpNameSync_Some (fs : Files) tries seq postfix name seq' :
  tmpNameSync pf fs tries seq postfix = (Some name, seq') →
  (∃ n, name = tmp_name pf n postfix) ∧ fs !! name = None.
Proof.
  revert seq. induction tries as [|tries IH]; intros seq; simpl; [discriminate|].
  destruct (fs !! tmp_name pf seq postfix) eqn:Hl.
  - apply IH.
  - intros [= <- <-]. split; [now exists seq | exact Hl].
Qed.

Lemma fileSync_Normal postfix w name w' :
  fileSync pf postfix w = (Normal name, w') →
  (∃ n, name = tmp_name pf n postfix)
  ∧ files w !! name = None
  ∧ files w' = <[name := []]> (files w)
  ∧ events w' = events w ++ [EvCreate name].
Proof.
  unfold fileSync.
  destruct (tmpNameSync pf (files w) (tmp_tries pf) (tmp_seq w) postfix)
    as [[name0|] seq'] eqn:Hn; [|discriminate].
  intros [= <- <-]. apply tmpNameSync_Some in Hn as [Hform Hfresh].
  repeat split; assumption.
Qed.

Lemma fileSync_Throw postfix w e w' :
  fileSync pf postfix w = (Throw e, w') →
  files w' = files w ∧ events w' = events w.
Proof.
  unfold fileSync.
  destruct (tmpNameSync pf (files w) (tmp_tries pf) (tmp_seq w) postfix)
    as [[name0|] seq']; [discriminate|].
  intros [= _ <-]. split; reflexivity.
Qed.

Lemma writeTempFile_Normal file postfix w name w' :
  writeTempFile pf file postfix w = (Normal name, w') →
  (∃ n, name = tmp_name pf n postfix)
  ∧ files w !! name = None
  ∧ files w' = <[name := file_bytes file]> (files w)
  ∧ events w' = events w ++ [EvCreate name; EvWriteFile name].
Proof.
  unfold writeTempFile, bind.
  destruct (fileSync pf postfix w) as [[tmpFile|e] w1] eqn:Hf; [|discriminate].
  apply fileSync_Normal in Hf as (Hform & Hfresh & Hfiles & Hev).
  unfold writeFile.
  destruct (writeFile_error pf (files w1) tmpFile (file_bytes file)); [discriminate|].
  unfold ret. intros [= <- <-]. cbn.
  rewrite Hfiles, Hev, insert_insert_eq, <- app_assoc.
  repeat split; assumption.
Qed.

(** A refused write leaves the empty file that [fileSync] created. *)
Lemma writeTempFile_refused file postfix w name w1 e :
  fileSync pf postfix w = (Normal name, w1) →
  writeFile_error pf (files w1) name (file_bytes file) = Some e →
  writeTempFile pf file postfix w = (Throw e, w1) ∧ files w1 !! name = Some [].
Proof.
  intros Hf He. unfold writeTempFile.
  rewrite (bind_Normal _ _ _ _ _ Hf). unfold bind, writeFile. rewrite He.
  split; [reflexivity|].
  apply fileSync_Normal in Hf as (_ & _ & -> & _). apply lookup_insert_eq.
Qed.

Lemma removeCallback_eq name w :
  removeCallback name w =
  (Normal tt, mkWorld (delete name (files w)) (tmp_seq w) (events w ++ [EvRemove name])).
Proof. reflexivity. Qed.

End Staging.

(** The temporary names and the script path are never the flag. *)

Lemma last_char_append (a : string) (c : ascii) (b : string) :
  last_char (a +:+ String c b) = last_char (String c b).
Proof.
  induction a as [|x a IH]; [reflexivity|].
  change (String x a +:+ String c b) with (String x (a +:+ String c b)).
  cbn [last_char]. rewrite IH.
  destruct (a +:+ String c b) eqn:E; [|reflexivity].
  destruct a; discriminate.
Qed.

Lemma append_assoc (a b c : string) : (a +:+ b) +:+ c = a +:+ (b +:+ c).
Proof.
  induction a as [|x a IH]; [reflexivity|].
  change (String x ((a +:+ b) +:+ c) = String x (a +:+ (b +:+ c))).
  now rewrite IH.
Qed.

Lemma tmp_name_not_flag pf n (postfix : string) c rest :
  postfix = String c rest →
  last_char postfix ≠ Some "n"%char →
  tmp_name pf n postfix ≠ "--skip-validation".
Proof.
  intros -> Hlast Heq. apply Hlast.
  assert (H : last_char (tmp_name pf n (String c rest)) = Some "n"%char)
    by now rewrite Heq.
  unfold tmp_name in H. rewrite <- !append_assoc in H.
  now rewrite last_char_append in H.
Qed.

Lemma scriptPath_not_flag (cwd : string) :
  path_join [cwd; "processor"; "main.py"] ≠ "--skip-validation".
Proof.
  intros Heq.
  assert (H : last_char (path_join [cwd; "processor"; "main.py"]) = Some "n"%char)
    by now rewrite Heq.
  change (path_join [cwd; "processor"; "main.py"])
    with (cwd +:+ "/processor/main.py") in H.
  rewrite last_char_append in H. discriminate.
Qed.

(** ** The analyze handler, case by case *)

Module AnalyzeFacts.
Import Python PythonFacts Analyze.

Section Facts.
Context (pf : Platform).

Lemma analyze_finally_block_eq wordTmp excelTmp w :
  finally_block wordTmp excelTmp w = (Normal tt, cleaned wordTmp excelTmp w).
Proof.
  unfold finally_block, bind, cleaned. rewrite !removeCallback_eq. cbn.
  now rewrite <- app_assoc.
Qed.

Lemma analyze_POST_missing formData w :
  is_File (formData_get formData "word") && is_File (formData_get formData "excel") = false →
  POST pf formData w = (Normal bad_request, w).
Proof.
  unfold POST.
  destruct (formData_get formData "word") as [[?|?]|];
    destruct (formData_get formData "excel") as [[?|?]|]; cbn; try reflexivity.
  discriminate.
Qed.

Lemma analyze_POST_stage_Throw formData word excel w e w1 :
  formData_get formData "word" = Some (FormFile word) →
  formData_get formData "excel" = Some (FormFile excel) →
  stage pf word excel w = (Throw e, w1) →
  POST pf formData w = (Throw e, w1).
Proof.
  intros Hw He Hs. unfold POST. rewrite Hw, He.
  now rewrite (bind_Throw _ _ _ _ _ Hs).
Qed.

Lemma analyze_POST_staged formData word excel w wordTmp excelTmp w1 c w2 :
  formData_get formData "word" = Some (FormFile word) →
  formData_get formData "excel" = Some (FormFile excel) →
  stage pf word excel w = (Normal (wordTmp, excelTmp), w1) →
  try_block pf (skip_of formData) wordTmp excelTmp w1 = (c, w2) →
  POST pf formData w =
    (Normal (match c with Normal r => r | Throw e => failure e end),
     cleaned wordTmp excelTmp w2).
Proof.
  intros Hw He Hs Ht. unfold POST. rewrite Hw, He.
  rewrite (bind_Normal _ _ _ _ _ Hs).
  apply (try_catch_finally_Normal _ failure _ _ _ _ _ Ht), analyze_finally_block_eq.
Qed.

Lemma analyze_stage_Normal word excel w wordTmp excelTmp w1 :
  stage pf word excel w = (Normal (wordTmp, excelTmp), w1) →
  (∃ n, wordTmp = tmp_name pf n ".docx")
  ∧ (∃ n, excelTmp = tmp_name pf n ".xlsx")
  ∧ files w1 = <[excelTmp := file_bytes excel]> (<[wordTmp := file_bytes word]> (files w))
  ∧ events w1 = events w ++ [EvCreate wordTmp; EvWriteFile wordTmp;
                             EvCreate excelTmp; EvWriteFile excelTmp].
Proof.
  unfold stage, bind.
  destruct (writeTempFile pf word ".docx" w) as [[a|e] wa] eqn:Ha; [|discriminate].
  destruct (writeTempFile pf excel ".xlsx" wa) as [[b|e] wb] eqn:Hb; [|discriminate].
  unfold ret. intros [= <- <- <-].
  apply writeTempFile_Normal in Ha as (Hna & _ & Hfa & Hea).
  apply writeTempFile_Normal in Hb as (Hnb & _ & Hfb & Heb).
  rewrite Hfb, Heb, Hfa, Hea, <- app_assoc. repeat split; assumption.
Qed.

(** The [try] block after [runPython] has settled. *)

Lemma analyze_try_block_Throw skip wordTmp excelTmp w e w2 :
  runPython pf (args pf skip wordTmp excelTmp) (Some (process_cwd pf)) w = (Throw e, w2) →
  try_block pf skip wordTmp excelTmp w = (Throw e, w2).
Proof. intros H. unfold try_block. now rewrite (bind_Throw _ _ _ _ _ H). Qed.

Lemma analyze_try_block_blank skip wordTmp excelTmp w result w2 :
  runPython pf (args pf skip wordTmp excelTmp) (Some (process_cwd pf)) w = (Normal result, w2) →
  truthy (trim (stdout result)) = false →
  try_block pf skip wordTmp excelTmp w = (Normal (no_output result), w2).
Proof.
  intros H Hb. unfold try_block. rewrite (bind_Normal _ _ _ _ _ H), Hb. reflexivity.
Qed.

Lemma analyze_try_block_unparseable skip wordTmp excelTmp w result w2 e :
  runPython pf (args pf skip wordTmp excelTmp) (Some (process_cwd pf)) w = (Normal result, w2) →
  truthy (trim (stdout result)) = true →
  JSON_parse pf (stdout result) = inl e →
  try_block pf skip wordTmp excelTmp w = (Throw e, w2).
Proof.
  intros H Hb Hp. unfold try_block. rewrite (bind_Normal _ _ _ _ _ H), Hb.
  cbn [negb]. unfold parse, bind. rewrite Hp. reflexivity.
Qed.

Lemma analyze_try_block_status_Throw skip wordTmp excelTmp w result w2 payload e :
  runPython pf (args pf skip wordTmp excelTmp) (Some (process_cwd pf)) w = (Normal result, w2) →
  truthy (trim (stdout result)) = true →
  JSON_parse pf (stdout result) = inr payload →
  get payload "status" = Throw e →
  try_block pf skip wordTmp excelTmp w = (Throw e, w2).
Proof.
  intros H Hb Hp Hg. unfold try_block. rewrite (bind_Normal _ _ _ _ _ H), Hb.
  cbn [negb]. unfold parse, bind, lift. rewrite Hp. cbn. rewrite Hg. reflexivity.
Qed.

Lemma analyze_try_block_payload skip wordTmp excelTmp w result w2 payload st :
  runPython pf (args pf skip wordTmp excelTmp) (Some (process_cwd pf)) w = (Normal result, w2) →
  truthy (trim (stdout result)) = true →
  JSON_parse pf (stdout result) = inr payload →
  get payload "status" = Normal st →
  try_block pf skip wordTmp excelTmp w =
    (Normal (NextResponse_json payload (if strict_neq_string st "ok" then 422 else 200)), w2).
Proof.
  intros H Hb Hp Hg. unfold try_block. rewrite (bind_Normal _ _ _ _ _ H), Hb.
  cbn [negb]. unfold parse, bind, lift. rewrite Hp. cbn. rewrite Hg.
  now destruct (strict_neq_string st "ok").
Qed.

End Facts.
End AnalyzeFacts.

(** ** Header values *)

Lemma string_forallb_append p (a b : string) :
  string_forallb p (a +:+ b) = string_forallb p a && string_forallb p b.
Proof.
  induction a as [|c a IH]; [reflexivity|].
  change (String c a +:+ b) with (String c (a +:+ b)). cbn [string_forallb].
  now rewrite IH, andb_assoc.
Qed.

(** A text of ASCII characters in front changes nothing. *)
Lemma isByteString_after_ascii (p s : string) :
  string_forallb (fun c => (nat_of_ascii c <? 128)%nat) p = true →
  isByteString (p +:+ s) = isByteString s.
Proof.
  induction p as [|c p IH]; [reflexivity|].
  cbn [string_forallb]. intros [Hc Hp]%andb_true_iff.
  change (String c p +:+ s) with (String c (p +:+ s)).
  cbn [isByteString]. rewrite Hc. now apply IH.
Qed.

(** Nor does a text behind that begins with an ASCII character. *)
Lemma isByteString_before_ascii (s : string) (c : ascii) (rest : string) :
  (nat_of_ascii c <? 128)%nat = true →
  isByteString (s +:+ String c rest) = isByteString s && isByteString (String c rest).
Proof.
  intros Hc.
  assert (Hcont : (128 <=? nat_of_ascii c)%nat = false).
  { apply Nat.ltb_lt in Hc. apply Nat.leb_gt. exact Hc. }
  enough (H : (isByteString (s +:+ String c rest)
               = isByteString s && isByteString (String c rest))
              ∧ ∀ a, isByteString (String a s +:+ String c rest)
                     = isByteString (String a s) && isByteString (String c rest))
    by apply H.
  induction s as [|b s [IH1 IH2]].
  - split; [reflexivity|]. intros a.
    change (String a "" +:+ String c rest) with (String a (String c rest)).
    cbn [isByteString]. rewrite Hc, Hcont.
    destruct (nat_of_ascii a <? 128)%nat; [reflexivity|].
    destruct ((nat_of_ascii a =? 194) || (nat_of_ascii a =? 195))%nat; reflexivity.
  - split; [apply IH2|]. intros a.
    change (String a (String b s) +:+ String c rest)
      with (String a (String b (s +:+ String c rest))).
    cbn [isByteString].
    destruct (nat_of_ascii a <? 128)%nat.
    + specialize (IH2 b).
      change (String b s +:+ String c rest) with (String b (s +:+ String c rest)) in IH2.
      cbn [isByteString] in IH2. exact IH2.
    + destruct ((nat_of_ascii a =? 194) || (nat_of_ascii a =? 195))%nat; [|reflexivity].
      rewrite IH1. cbn [isByteString]. rewrite Hc. now rewrite !andb_assoc.
Qed.

Lemma isHeaderValue_between (p s : string) (c : ascii) (rest : string) :
  isHeaderValue p = true →
  string_forallb (fun c => (nat_of_ascii c <? 128)%nat) p = true →
  isHeaderValue (String c rest) = true →
  (nat_of_ascii c <? 128)%nat = true →
  isHeaderValue (p +:+ s +:+ String c rest) = isHeaderValue s.
Proof.
  unfold isHeaderValue, isValidHeaderValue.
  intros [_ Hp]%andb_true_iff Hascii [Hb Hr]%andb_true_iff Hc.
  rewrite (isByteString_after_ascii _ _ Hascii), (isByteString_before_ascii _ _ _ Hc), Hb.
  rewrite !string_forallb_append, Hp, Hr. cbn [andb]. now rewrite !andb_true_r.
Qed.

(** What ends with a character that is no white space keeps its end. *)
Lemma dropEnd_keep (s : string) (c : ascii) :
  isHTTPWhitespace c = false →
  dropEnd (s +:+ String c "") = s +:+ String c "".
Proof.
  intros Hc. induction s as [|a s IH].
  - change ("" +:+ String c "") with (String c ""). cbn [dropEnd]. now rewrite Hc.
  - change (String a s +:+ String c "") with (String a (s +:+ String c "")).
    cbn [dropEnd]. rewrite IH.
    destruct s; reflexivity.
Qed.

(** ** The generate handler, case by case *)

Module GenerateFacts.
Import Python PythonFacts Generate.

Section Facts.
Context (pf : Platform).

Lemma generate_finally_block_eq wordTmp excelTmp outTmp w :
  finally_block wordTmp excelTmp outTmp w =
  (Normal tt, cleaned wordTmp excelTmp outTmp w).
Proof.
  unfold finally_block, bind, cleaned. rewrite !removeCallback_eq. cbn.
  now rewrite <- !app_assoc.
Qed.

Lemma generate_POST_missing formData w :
  is_File (formData_get formData "word") && is_File (formData_get formData "excel") = false →
  POST pf formData w = (Normal bad_request, w).
Proof.
  unfold POST.
  destruct (formData_get formData "word") as [[?|?]|];
    destruct (formData_get formData "excel") as [[?|?]|]; cbn; try reflexivity.
  discriminate.
Qed.

Lemma generate_POST_stage_Throw formData word excel w e w1 :
  formData_get formData "word" = Some (FormFile word) →
  formData_get formData "excel" = Some (FormFile excel) →
  stage pf word excel w = (Throw e, w1) →
  POST pf formData w = (Throw e, w1).
Proof.
  intros Hw He Hs. unfold POST. rewrite Hw, He.
  now rewrite (bind_Throw _ _ _ _ _ Hs).
Qed.

Lemma generate_POST_staged formData word excel w wordTmp excelTmp outTmp w1 c w2 :
  formData_get formData "word" = Some (FormFile word) →
  formData_get formData "excel" = Some (FormFile excel) →
  stage pf word excel w = (Normal (wordTmp, excelTmp, outTmp), w1) →
  try_block pf (skip_of formData) wordTmp excelTmp outTmp w1 = (c, w2) →
  POST pf formData w =
    (Normal (match c with Normal r => r | Throw e => failure e end),
     cleaned wordTmp excelTmp outTmp w2).
Proof.
  intros Hw He Hs Ht. unfold POST. rewrite Hw, He.
  rewrite (bind_Normal _ _ _ _ _ Hs).
  apply (try_catch_finally_Normal _ failure _ _ _ _ _ Ht), generate_finally_block_eq.
Qed.

Lemma generate_stage_Normal word excel w wordTmp excelTmp outTmp w1 :
  stage pf word excel w = (Normal (wordTmp, excelTmp, outTmp), w1) →
  (∃ n, wordTmp = tmp_name pf n ".docx")
  ∧ (∃ n, excelTmp = tmp_name pf n ".xlsx")
  ∧ (∃ n, outTmp = tmp_name pf n ".xlsx")
  ∧ files w1 = <[outTmp := []]> (<[excelTmp := file_bytes excel]>
                 (<[wordTmp := file_bytes word]> (files w)))
  ∧ events w1 = events w ++ [EvCreate wordTmp; EvWriteFile wordTmp;
                             EvCreate excelTmp; EvWriteFile excelTmp;
                             EvCreate outTmp].
Proof.
  unfold stage, bind.
  destruct (writeTempFile pf word ".docx" w) as [[a|e] wa] eqn:Ha; [|discriminate].
  destruct (writeTempFile pf excel ".xlsx" wa) as [[b|e] wb] eqn:Hb; [|discriminate].
  destruct (fileSync pf ".xlsx" wb) as [[o|e] wo] eqn:Ho; [|discriminate].
  unfold ret. intros [= <- <- <- <-].
  apply writeTempFile_Normal in Ha as (Hna & _ & Hfa & Hea).
  apply writeTempFile_Normal in Hb as (Hnb & _ & Hfb & Heb).
  apply fileSync_Normal in Ho as (Hno & _ & Hfo & Heo).
  rewrite Hfo, Heo, Hfb, Heb, Hfa, Hea, <- !app_assoc. repeat split; assumption.
Qed.

Lemma generate_try_block_Throw skip wordTmp excelTmp outTmp w e w2 :
  runPython pf (args pf skip wordTmp excelTmp outTmp) (Some (process_cwd pf)) w
    = (Throw e, w2) →
  try_block pf skip wordTmp excelTmp outTmp w = (Throw e, w2).
Proof. intros H. unfold try_block. now rewrite (bind_Throw _ _ _ _ _ H). Qed.

Lemma generate_try_block_blank skip wordTmp excelTmp outTmp w result w2 :
  runPython pf (args pf skip wordTmp excelTmp outTmp) (Some (process_cwd pf)) w
    = (Normal result, w2) →
  truthy (trim (stdout result)) = false →
  try_block pf skip wordTmp excelTmp outTmp w = (Normal (no_output result), w2).
Proof.
  intros H Hb. unfold try_block. rewrite (bind_Normal _ _ _ _ _ H), Hb. reflexivity.
Qed.

Lemma generate_try_block_unparseable skip wordTmp excelTmp outTmp w result w2 e :
  runPython pf (args pf skip wordTmp excelTmp outTmp) (Some (process_cwd pf)) w
    = (Normal result, w2) →
  truthy (trim (stdout result)) = true →
  JSON_parse pf (stdout result) = inl e →
  try_block pf skip wordTmp excelTmp outTmp w = (Throw e, w2).
Proof.
  intros H Hb Hp. unfold try_block. rewrite (bind_Normal _ _ _ _ _ H), Hb.
  cbn [negb]. unfold parse, bind. rewrite Hp. reflexivity.
Qed.

Lemma generate_try_block_status_Throw skip wordTmp excelTmp outTmp w result w2 payload e :
  runPython pf (args pf skip wordTmp excelTmp outTmp) (Some (process_cwd pf)) w
    = (Normal result, w2) →
  truthy (trim (stdout result)) = true →
  JSON_parse pf (stdout result) = inr payload →
  get payload "status" = Throw e →
  try_block pf skip wordTmp excelTmp outTmp w = (Throw e, w2).
Proof.
  intros H Hb Hp Hg. unfold try_block. rewrite (bind_Normal _ _ _ _ _ H), Hb.
  cbn [negb]. unfold parse, bind, lift. rewrite Hp. cbn. rewrite Hg. reflexivity.
Qed.

Lemma generate_try_block_blocked skip wordTmp excelTmp outTmp w result w2 payload st :
  runPython pf (args pf skip wordTmp excelTmp outTmp) (Some (process_cwd pf)) w
    = (Normal result, w2) →
  truthy (trim (stdout result)) = true →
  JSON_parse pf (stdout result) = inr payload →
  get payload "status" = Normal st →
  strict_neq_string st "ok" = true →
  try_block pf skip wordTmp excelTmp outTmp w =
    (Normal (NextResponse_json payload 422), w2).
Proof.
  intros H Hb Hp Hg Hs. unfold try_block. rewrite (bind_Normal _ _ _ _ _ H), Hb.
  cbn [negb]. unfold parse, bind, lift. rewrite Hp. cbn. rewrite Hg, Hs. reflexivity.
Qed.

Lemma xlsx_content_type_valid : isHeaderValue xlsx_content_type = true.
Proof. vm_compute. reflexivity. Qed.

(** The header is a header value exactly when the name is. *)
Lemma content_disposition_valid (filename : string) :
  isHeaderValue (content_disposition filename) = isHeaderValue filename.
Proof.
  unfold content_disposition.
  rewrite <- (append_assoc "attachment; filename=" dq).
  apply isHeaderValue_between; vm_compute; reflexivity.
Qed.

(** Nothing is removed at its ends. *)
Lemma content_disposition_normal (filename : string) :
  headerValueNormalize (content_disposition filename) = content_disposition filename.
Proof.
  unfold headerValueNormalize, content_disposition.
  rewrite <- (append_assoc "attachment; filename=" dq).
  rewrite <- (append_assoc _ filename dq).
  unfold dq at 2 4. rewrite dropEnd_keep by reflexivity.
  rewrite !append_assoc. reflexivity.
Qed.

(** The constructor, on the two headers of the handler: it throws exactly
    when the name cannot stand in a header value. *)
Lemma NextResponse_new_download filename bytes w :
  NextResponse_new pf bytes 200
    [("Content-Type", xlsx_content_type);
     ("Content-Disposition", content_disposition filename)] w =
  (if isHeaderValue filename
   then Normal (download filename bytes)
   else Throw (Headers_error pf "Content-Disposition" (content_disposition filename)),
   w).
Proof.
  rewrite <- content_disposition_valid.
  unfold NextResponse_new, isHeaderValue. cbn [find map snd fst].
  change (isByteString xlsx_content_type) with true. cbn [negb].
  destruct (isByteString (content_disposition filename)); cbn [negb andb];
    [|reflexivity].
  change (headerValueNormalize xlsx_content_type) with xlsx_content_type.
  change (isValidHeaderValue xlsx_content_type) with true. cbn [negb].
  rewrite content_disposition_normal.
  destruct (isValidHeaderValue (content_disposition filename)); reflexivity.
Qed.

(** Status [ok]: the artifact is read, then named. *)
Lemma generate_try_block_ok skip wordTmp excelTmp outTmp w result w2 payload st report :
  runPython pf (args pf skip wordTmp excelTmp outTmp) (Some (process_cwd pf)) w
    = (Normal result, w2) →
  truthy (trim (stdout result)) = true →
  JSON_parse pf (stdout result) = inr payload →
  get payload "status" = Normal st →
  strict_neq_string st "ok" = false →
  get payload "report" = Normal report →
  try_block pf skip wordTmp excelTmp outTmp w =
    (match files w2 !! outTmp with
     | None => Throw (ENOENT "open" outTmp)
     | Some bytes =>
         match ToString (reportMonth_of report) with
         | None => Throw (TypeError "Cannot convert object to primitive value")
         | Some text =>
             let filename := "report_updated_" +:+ text +:+ ".xlsx" in
             if isHeaderValue filename
             then Normal (download filename bytes)
             else Throw (Headers_error pf "Content-Disposition"
                           (content_disposition filename))
         end
     end, read outTmp w2).
Proof.
  intros H Hb Hp Hg Hs Hr. unfold try_block. rewrite (bind_Normal _ _ _ _ _ H), Hb.
  cbn [negb]. unfold parse, bind, lift. rewrite Hp. cbn. rewrite Hg, Hs.
  unfold readFile, bind, emit. cbn.
  destruct (files w2 !! outTmp) as [bytes|]; [|reflexivity].
  rewrite Hr. unfold filename_of, reportMonth_of.
  destruct (ToString _) as [text|]; [|reflexivity].
  cbn [ret]. apply NextResponse_new_download.
Qed.

(** A payload whose status could be read is not [null]: reading its report
    does not throw either. *)
Lemma generate_get_report_total payload st :
  get payload "status" = Normal st → ∃ report, get payload "report" = Normal report.
Proof. destruct payload; cbn; intros H; try discriminate; eauto. Qed.

End Facts.
End GenerateFacts.

(** ** The gate-blocked path of generate *)

Section GenerateBlocked.
Import Python PythonFacts Generate GenerateFacts.
Context (pf : Platform).

(** C1.  A POST to the generate endpoint whose pipeline payload has a
    status other than [ok] is answered with that payload and HTTP status
    422, and the handler never reads the output spreadsheet: the response
    body is the payload, and no [fs.readFile] is among the effects of the
    invocation. *)
Theorem generate_blocked_returns_payload_422
    (formData : FormData) (word excel : File) (w w1 w2 : World)
    (wordTmp excelTmp outTmp : string) (result : PythonResult)
    (payload : JSON) (st : option JSON) :
  formData_get formData "word" = Some (FormFile word) →
  formData_get formData "excel" = Some (FormFile excel) →
  Generate.stage pf word excel w = (Normal (wordTmp, excelTmp, outTmp), w1) →
  runPython pf (Generate.args pf (skip_of formData) wordTmp excelTmp outTmp)
    (Some (process_cwd pf)) w1 = (Normal result, w2) →
  truthy (trim (stdout result)) = true →
  JSON_parse pf (stdout result) = inr payload →
  get payload "status" = Normal st →
  strict_neq_string st "ok" = true →
  ∃ w', Generate.POST pf formData w = (Normal (NextResponse_json payload 422), w')
        ∧ ∀ name, EvReadFile name ∈ events w' → EvReadFile name ∈ events w.
Proof.
  intros Hw He Hs Hrun Hb Hp Hg Hst.
  pose proof (generate_try_block_blocked pf _ _ _ _ _ _ _ _ _ Hrun Hb Hp Hg Hst) as Ht.
  eexists. split; [exact (generate_POST_staged pf _ _ _ _ _ _ _ _ _ _ Hw He Hs Ht)|].
  intros name. cbn.
  apply generate_stage_Normal in Hs as (_ & _ & _ & _ & Hev1).
  apply runPython_events in Hrun as (_ & evs & Hev2 & _ & Hspawn).
  rewrite Hev2, Hev1, !elem_of_app, !elem_of_cons, elem_of_nil.
  intros [[[H|H]|H]|H]; [exact H | | | ].
  - destruct H as [H|[H|[H|[H|[H|[]]]]]]; discriminate.
  - rewrite Forall_forall in Hspawn. destruct (Hspawn _ H) as [c Hc]. discriminate.
  - destruct H as [H|[H|[H|[]]]]; discriminate.
Qed.

End GenerateBlocked.

(** The worker blocks the gate and leaves with code 1. *)
Lemma generate_blocked_returns_payload_422_witness :
  ∃ w', Generate.POST (Samples.platform (Samples.writing_worker Samples.blocked_text 1))
          (Samples.form "false") Samples.world0
        = (Normal (NextResponse_json Samples.blocked_payload 422), w')
        ∧ ∀ name, EvReadFile name ∈ events w' → EvReadFile name ∈ events Samples.world0.
Proof.
  set (pf := Samples.platform (Samples.writing_worker Samples.blocked_text 1)).
  set (w1 := snd (Generate.stage pf Samples.docx Samples.xlsx Samples.world0)).
  set (run := Python.runPython pf
                (Generate.args pf false "/tmp/tmp-0.docx" "/tmp/tmp-1.xlsx" "/tmp/tmp-2.xlsx")
                (Some (process_cwd pf)) w1).
  apply (generate_blocked_returns_payload_422 pf (Samples.form "false")
           Samples.docx Samples.xlsx Samples.world0 w1 (snd run)
           "/tmp/tmp-0.docx" "/tmp/tmp-1.xlsx" "/tmp/tmp-2.xlsx"
           (mkPythonResult Samples.blocked_text "" (Some 1%Z))
           Samples.blocked_payload (Some (JStr "validation_error")));
    vm_compute; reflexivity.
Defined.

(** ** HTTP status: content problems and system problems *)

Section HttpStatus.
Import Python PythonFacts.
Context (pf : Platform).


(** [v !== "ok"] is false for the string [ok] and for nothing else. *)
Lemma strict_neq_ok (st : option JSON) :
  strict_neq_string st "ok" = false ↔ st = Some (JStr "ok").
Proof.
  split; [|now intros ->].
  destruct st as [[| | |s| |]|]; try discriminate.
  cbn. intros H. apply negb_false_iff, String.eqb_eq in H. now subst.
Qed.


(** The name of the download can stand in a header exactly when the
    printed month can. *)
Lemma filename_valid (text : string) :
  isHeaderValue ("report_updated_" +:+ text +:+ ".xlsx") = isHeaderValue text.
Proof. apply isHeaderValue_between; vm_compute; reflexivity. Qed.

End HttpStatus.

Section HttpStatusClaim.
Import Python PythonFacts.
Context (pf : Platform).


End HttpStatusClaim.


(** ** What the handlers do to the world *)

Section Effects.
Import Python PythonFacts.
Context (pf : Platform).

Lemma fileSync_events postfix w c w' :
  fileSync pf postfix w = (c, w') →
  ∃ evs, events w' = events w ++ evs ∧ Forall is_staging_event evs.
Proof.
  destruct c as [name|e]; intros H.
  - apply fileSync_Normal in H as (_ & _ & _ & ->).
    eexists. split; [reflexivity|]. repeat constructor.
  - apply fileSync_Throw in H as (_ & ->). exists []. rewrite app_nil_r. now split.
Qed.

Lemma writeTempFile_events file postfix w c w' :
  writeTempFile pf file postfix w = (c, w') →
  ∃ evs, events w' = events w ++ evs ∧ Forall is_staging_event evs.
Proof.
  unfold writeTempFile, bind.
  destruct (fileSync pf postfix w) as [[name|e] w1] eqn:Hf.
  - destruct (fileSync_events _ _ _ _ Hf) as (evs & Hev & Hall).
    unfold writeFile.
    destruct (writeFile_error pf (files w1) name (file_bytes file)).
    + intros [= <- <-]. now exists evs.
    + unfold ret. intros [= <- <-]. exists (evs ++ [EvWriteFile name]). cbn.
      rewrite Hev, <- app_assoc. split; [reflexivity|].
      apply Forall_app. split; [assumption | repeat constructor].
  - intros [= <- <-]. exact (fileSync_events _ _ _ _ Hf).
Qed.

Lemma analyze_stage_events word excel w c w1 :
  Analyze.stage pf word excel w = (c, w1) →
  ∃ evs, events w1 = events w ++ evs ∧ Forall is_staging_event evs.
Proof.
  unfold Analyze.stage, bind.
  destruct (writeTempFile pf word ".docx" w) as [[a|e] wa] eqn:Ha.
  - destruct (writeTempFile_events _ _ _ _ _ Ha) as (ea & Hea & Haa).
    destruct (writeTempFile pf excel ".xlsx" wa) as [[b|e] wb] eqn:Hb;
      destruct (writeTempFile_events _ _ _ _ _ Hb) as (eb & Heb & Hab);
      unfold ret; intros [= <- <-]; exists (ea ++ eb);
      (split; [now rewrite Heb, Hea, <- app_assoc | now apply Forall_app]).
  - intros [= <- <-]. exact (writeTempFile_events _ _ _ _ _ Ha).
Qed.

Lemma generate_stage_events word excel w c w1 :
  Generate.stage pf word excel w = (c, w1) →
  ∃ evs, events w1 = events w ++ evs ∧ Forall is_staging_event evs.
Proof.
  unfold Generate.stage, bind.
  destruct (writeTempFile pf word ".docx" w) as [[a|e] wa] eqn:Ha.
  - destruct (writeTempFile_events _ _ _ _ _ Ha) as (ea & Hea & Haa).
    destruct (writeTempFile pf excel ".xlsx" wa) as [[b|e] wb] eqn:Hb;
      destruct (writeTempFile_events _ _ _ _ _ Hb) as (eb & Heb & Hab).
    + destruct (fileSync pf ".xlsx" wb) as [[o|e] wo] eqn:Ho;
        destruct (fileSync_events _ _ _ _ Ho) as (eo & Heo & Hao);
        unfold ret; intros [= <- <-]; exists (ea ++ eb ++ eo);
        (split; [now rewrite Heo, Heb, Hea, <- !app_assoc
                | now repeat (apply Forall_app; split)]).
    + intros [= <- <-]. exists (ea ++ eb).
      split; [now rewrite Heb, Hea, <- app_assoc | now apply Forall_app].
  - intros [= <- <-]. exact (writeTempFile_events _ _ _ _ _ Ha).
Qed.

(** The [try] block of analyze performs the effects of [runPython] and no
    other. *)
Lemma analyze_try_block_world skip wordTmp excelTmp w c w2 :
  runPython pf (Analyze.args pf skip wordTmp excelTmp) (Some (process_cwd pf)) w = (c, w2) →
  snd (Analyze.try_block pf skip wordTmp excelTmp w) = w2.
Proof.
  intros Hrun. destruct c as [result|e].
  - destruct (truthy (trim (stdout result))) eqn:Hb.
    + destruct (JSON_parse pf (stdout result)) as [e|payload] eqn:Hp.
      * now rewrite (AnalyzeFacts.analyze_try_block_unparseable pf _ _ _ _ _ _ _ Hrun Hb Hp).
      * destruct (get payload "status") as [st|e] eqn:Hg.
        -- now rewrite (AnalyzeFacts.analyze_try_block_payload pf _ _ _ _ _ _ _ _ Hrun Hb Hp Hg).
        -- now rewrite (AnalyzeFacts.analyze_try_block_status_Throw pf _ _ _ _ _ _ _ _ Hrun Hb Hp Hg).
    + now rewrite (AnalyzeFacts.analyze_try_block_blank pf _ _ _ _ _ _ Hrun Hb).
  - now rewrite (AnalyzeFacts.analyze_try_block_Throw pf _ _ _ _ _ _ Hrun).
Qed.

Lemma analyze_try_block_runs skip wordTmp excelTmp w c w2 :
  runPython pf (Analyze.args pf skip wordTmp excelTmp) (Some (process_cwd pf)) w = (c, w2) →
  ∃ c', Analyze.try_block pf skip wordTmp excelTmp w = (c', w2).
Proof.
  intros Hrun. apply analyze_try_block_world in Hrun.
  destruct (Analyze.try_block pf skip wordTmp excelTmp w) as [c' w3].
  cbn in Hrun. subst. now exists c'.
Qed.

(** The [try] block of generate may also read the output file. *)
Lemma generate_try_block_world skip wordTmp excelTmp outTmp w c w2 :
  runPython pf (Generate.args pf skip wordTmp excelTmp outTmp) (Some (process_cwd pf)) w
    = (c, w2) →
  let w3 := snd (Generate.try_block pf skip wordTmp excelTmp outTmp w) in
  w3 = w2 ∨ w3 = Generate.read outTmp w2.
Proof.
  intros Hrun. destruct c as [result|e].
  - destruct (truthy (trim (stdout result))) eqn:Hb.
    + destruct (JSON_parse pf (stdout result)) as [e|payload] eqn:Hp.
      * left. now rewrite (GenerateFacts.generate_try_block_unparseable pf _ _ _ _ _ _ _ _ Hrun Hb Hp).
      * destruct (get payload "status") as [st|e] eqn:Hg.
        -- destruct (strict_neq_string st "ok") eqn:Hst.
           ++ left. now rewrite (GenerateFacts.generate_try_block_blocked pf _ _ _ _ _ _ _ _ _ Hrun Hb Hp Hg Hst).
           ++ destruct (GenerateFacts.generate_get_report_total _ _ Hg) as [report Hr]. right.
              now rewrite (GenerateFacts.generate_try_block_ok pf _ _ _ _ _ _ _ _ _ _ Hrun Hb Hp Hg Hst Hr).
        -- left. now rewrite (GenerateFacts.generate_try_block_status_Throw pf _ _ _ _ _ _ _ _ _ Hrun Hb Hp Hg).
    + left. now rewrite (GenerateFacts.generate_try_block_blank pf _ _ _ _ _ _ _ Hrun Hb).
  - left. now rewrite (GenerateFacts.generate_try_block_Throw pf _ _ _ _ _ _ _ Hrun).
Qed.

End Effects.

(** ** The skip-validation flag *)

Section SkipFlag.
Import Python PythonFacts.
Context (pf : Platform).

Lemma skip_of_true formData :
  skip_of formData = true ↔
  formData_get formData "skipValidation" = Some (FormString "true").
Proof.
  unfold skip_of, entry_strict_eq.
  destruct (formData_get formData "skipValidation") as [[s|f]|];
    [|split; discriminate..].
  rewrite String.eqb_eq. split; congruence.
Qed.

Lemma flag_in_analyze_args skip wordTmp excelTmp :
  (∃ n, wordTmp = tmp_name pf n ".docx") →
  (∃ n, excelTmp = tmp_name pf n ".xlsx") →
  flag ∈ Analyze.args pf skip wordTmp excelTmp ↔ skip = true.
Proof.
  intros [n ->] [m ->].
  assert (Hw : tmp_name pf n ".docx" ≠ flag)
    by (eapply tmp_name_not_flag; [reflexivity | discriminate]).
  assert (He : tmp_name pf m ".xlsx" ≠ flag)
    by (eapply tmp_name_not_flag; [reflexivity | discriminate]).
  pose proof (scriptPath_not_flag (process_cwd pf)) as Hs.
  unfold Analyze.args.
  destruct skip; rewrite ?elem_of_app, !elem_of_cons, elem_of_nil.
  - split; [reflexivity | intros _; right; now left].
  - split; [|discriminate].
    intros [H|[H|[H|[H|[H|[H|[]]]]]]]; try discriminate; symmetry in H; contradiction.
Qed.

Lemma flag_in_generate_args skip wordTmp excelTmp outTmp :
  (∃ n, wordTmp = tmp_name pf n ".docx") →
  (∃ n, excelTmp = tmp_name pf n ".xlsx") →
  (∃ n, outTmp = tmp_name pf n ".xlsx") →
  flag ∈ Generate.args pf skip wordTmp excelTmp outTmp ↔ skip = true.
Proof.
  intros [n ->] [m ->] [k ->].
  assert (Hw : tmp_name pf n ".docx" ≠ flag)
    by (eapply tmp_name_not_flag; [reflexivity | discriminate]).
  assert (He : ∀ i, tmp_name pf i ".xlsx" ≠ flag)
    by (intros i; eapply tmp_name_not_flag; [reflexivity | discriminate]).
  pose proof (scriptPath_not_flag (process_cwd pf)) as Hs.
  unfold Generate.args.
  destruct skip; rewrite ?elem_of_app, !elem_of_cons, elem_of_nil.
  - split; [reflexivity | intros _; right; now left].
  - split; [|discriminate].
    intros [H|[H|[H|[H|[H|[H|[H|[H|[]]]]]]]]]; try discriminate;
      symmetry in H; try contradiction; now apply He in H.
Qed.

Lemma present formData :
  is_File (formData_get formData "word") && is_File (formData_get formData "excel") = true →
  ∃ word excel, formData_get formData "word" = Some (FormFile word)
                ∧ formData_get formData "excel" = Some (FormFile excel).
Proof.
  destruct (formData_get formData "word") as [[?|word]|];
    destruct (formData_get formData "excel") as [[?|excel]|]; try discriminate.
  intros _. now exists word, excel.
Qed.

Lemma not_staging_spawn evs command args cwd :
  Forall is_staging_event evs → EvSpawn command args cwd ∉ evs.
Proof.
  rewrite Forall_forall. intros Hall Hin. exact (Hall _ Hin).
Qed.

(** Every process the analyze handler starts is given the arguments built
    from the staged names and the flag of the form. *)
Lemma analyze_POST_spawns formData w evs command args cwd :
  events (snd (Analyze.POST pf formData w)) = events w ++ evs →
  EvSpawn command args cwd ∈ evs →
  ∃ wordTmp excelTmp,
    (∃ n, wordTmp = tmp_name pf n ".docx") ∧ (∃ n, excelTmp = tmp_name pf n ".xlsx")
    ∧ args = Analyze.args pf (skip_of formData) wordTmp excelTmp.
Proof.
  intros Hev Hin.
  destruct (is_File (formData_get formData "word")
            && is_File (formData_get formData "excel")) eqn:Hfiles.
  - destruct (present _ Hfiles) as (word & excel & Hw & He).
    destruct (Analyze.stage pf word excel w) as [[[wordTmp excelTmp]|e] w1] eqn:Hs.
    + destruct (runPython pf (Analyze.args pf (skip_of formData) wordTmp excelTmp)
                  (Some (process_cwd pf)) w1) as [c w2] eqn:Hrun.
      destruct (analyze_try_block_runs pf _ _ _ _ _ _ Hrun) as (c' & Ht).
      rewrite (AnalyzeFacts.analyze_POST_staged pf _ _ _ _ _ _ _ _ _ Hw He Hs Ht) in Hev.
      cbn in Hev.
      pose proof (AnalyzeFacts.analyze_stage_Normal pf _ _ _ _ _ _ Hs) as (Hnw & Hne & _ & Hev1).
      apply runPython_events in Hrun as (_ & evr & Hev2 & _ & Hspawn).
      rewrite Hev2, Hev1, <- !app_assoc in Hev. apply app_inv_head in Hev. subst evs.
      exists wordTmp, excelTmp. split; [assumption|]. split; [assumption|].
      rewrite Forall_forall in Hspawn.
      rewrite !elem_of_app, !elem_of_cons, elem_of_nil in Hin.
      split_or Hin; try discriminate; try contradiction.
      destruct (Hspawn _ Hin) as [c0 [= _ -> _]]. reflexivity.
    + rewrite (AnalyzeFacts.analyze_POST_stage_Throw pf _ _ _ _ _ _ Hw He Hs) in Hev. cbn in Hev.
      destruct (analyze_stage_events pf _ _ _ _ _ Hs) as (evs' & Hev' & Hall).
      rewrite Hev' in Hev. apply app_inv_head in Hev. subst evs'.
      now apply not_staging_spawn in Hin.
  - rewrite (AnalyzeFacts.analyze_POST_missing pf _ _ Hfiles) in Hev. cbn in Hev.
    rewrite <- (app_nil_r (events w)) in Hev at 1. apply app_inv_head in Hev.
    subst evs. now apply elem_of_nil in Hin.
Qed.

Lemma generate_POST_spawns formData w evs command args cwd :
  events (snd (Generate.POST pf formData w)) = events w ++ evs →
  EvSpawn command args cwd ∈ evs →
  ∃ wordTmp excelTmp outTmp,
    (∃ n, wordTmp = tmp_name pf n ".docx") ∧ (∃ n, excelTmp = tmp_name pf n ".xlsx")
    ∧ (∃ n, outTmp = tmp_name pf n ".xlsx")
    ∧ args = Generate.args pf (skip_of formData) wordTmp excelTmp outTmp.
Proof.
  intros Hev Hin.
  destruct (is_File (formData_get formData "word")
            && is_File (formData_get formData "excel")) eqn:Hfiles.
  - destruct (present _ Hfiles) as (word & excel & Hw & He).
    destruct (Generate.stage pf word excel w) as [[[[wordTmp excelTmp] outTmp]|e] w1] eqn:Hs.
    + destruct (runPython pf (Generate.args pf (skip_of formData) wordTmp excelTmp outTmp)
                  (Some (process_cwd pf)) w1) as [c w2] eqn:Hrun.
      pose proof (generate_try_block_world pf _ _ _ _ _ _ _ Hrun) as Hworld.
      destruct (Generate.try_block pf (skip_of formData) wordTmp excelTmp outTmp w1)
        as [c' w3] eqn:Ht.
      rewrite (GenerateFacts.generate_POST_staged pf _ _ _ _ _ _ _ _ _ _ Hw He Hs Ht) in Hev.
      cbn in Hev, Hworld.
      pose proof (GenerateFacts.generate_stage_Normal pf _ _ _ _ _ _ _ Hs)
        as (Hnw & Hne & Hno & _ & Hev1).
      apply runPython_events in Hrun as (_ & evr & Hev2 & _ & Hspawn).
      exists wordTmp, excelTmp, outTmp. do 3 (split; [assumption|]).
      rewrite Forall_forall in Hspawn.
      destruct Hworld as [-> | ->]; cbn in Hev;
        rewrite Hev2, Hev1, <- !app_assoc in Hev; apply app_inv_head in Hev; subst evs;
        rewrite !elem_of_app, !elem_of_cons, elem_of_nil in Hin;
        split_or Hin; try discriminate; try contradiction;
        destruct (Hspawn _ Hin) as [c0 [= _ -> _]]; reflexivity.
    + rewrite (GenerateFacts.generate_POST_stage_Throw pf _ _ _ _ _ _ Hw He Hs) in Hev. cbn in Hev.
      destruct (generate_stage_events pf _ _ _ _ _ Hs) as (evs' & Hev' & Hall).
      rewrite Hev' in Hev. apply app_inv_head in Hev. subst evs'.
      now apply not_staging_spawn in Hin.
  - rewrite (GenerateFacts.generate_POST_missing pf _ _ Hfiles) in Hev. cbn in Hev.
    rewrite <- (app_nil_r (events w)) in Hev at 1. apply app_inv_head in Hev.
    subst evs. now apply elem_of_nil in Hin.
Qed.

End SkipFlag.

Section SkipFlagClaim.
Import Python PythonFacts.
Context (pf : Platform).

Lemma some_spawn args cwd (evs : list Event) :
  evs ≠ [] → Forall (is_spawn_of args cwd) evs →
  ∃ command, EvSpawn command args cwd ∈ evs.
Proof.
  destruct evs as [|ev evs]; [congruence|].
  intros _ Hall. apply Forall_cons in Hall as [[command ->] _].
  exists command. now left.
Qed.

(** Once the uploads are staged, a process is started. *)
Lemma analyze_POST_starts formData word excel w tmps w1 :
  formData_get formData "word" = Some (FormFile word) →
  formData_get formData "excel" = Some (FormFile excel) →
  Analyze.stage pf word excel w = (Normal tmps, w1) →
  ∃ evs command args cwd,
    events (snd (Analyze.POST pf formData w)) = events w ++ evs
    ∧ EvSpawn command args cwd ∈ evs.
Proof.
  intros Hw He Hs. destruct tmps as [wordTmp excelTmp].
  destruct (runPython pf (Analyze.args pf (skip_of formData) wordTmp excelTmp)
              (Some (process_cwd pf)) w1) as [c w2] eqn:Hrun.
  destruct (analyze_try_block_runs pf _ _ _ _ _ _ Hrun) as (c' & Ht).
  rewrite (AnalyzeFacts.analyze_POST_staged pf _ _ _ _ _ _ _ _ _ Hw He Hs Ht). cbn.
  destruct (analyze_stage_events pf _ _ _ _ _ Hs) as (evs1 & Hev1 & _).
  apply runPython_events in Hrun as (_ & evr & Hev2 & Hne & Hspawn).
  destruct (some_spawn _ _ _ Hne Hspawn) as [command Hin].
  eexists _, command, _, _. rewrite Hev2, Hev1, <- !app_assoc.
  split; [reflexivity|]. rewrite !elem_of_app. right. left. exact Hin.
Qed.

Lemma generate_POST_starts formData word excel w tmps w1 :
  formData_get formData "word" = Some (FormFile word) →
  formData_get formData "excel" = Some (FormFile excel) →
  Generate.stage pf word excel w = (Normal tmps, w1) →
  ∃ evs command args cwd,
    events (snd (Generate.POST pf formData w)) = events w ++ evs
    ∧ EvSpawn command args cwd ∈ evs.
Proof.
  intros Hw He Hs. destruct tmps as [[wordTmp excelTmp] outTmp].
  destruct (runPython pf (Generate.args pf (skip_of formData) wordTmp excelTmp outTmp)
              (Some (process_cwd pf)) w1) as [c w2] eqn:Hrun.
  pose proof (generate_try_block_world pf _ _ _ _ _ _ _ Hrun) as Hworld.
  destruct (Generate.try_block pf (skip_of formData) wordTmp excelTmp outTmp w1)
    as [c' w3] eqn:Ht.
  rewrite (GenerateFacts.generate_POST_staged pf _ _ _ _ _ _ _ _ _ _ Hw He Hs Ht). cbn.
  destruct (generate_stage_events pf _ _ _ _ _ Hs) as (evs1 & Hev1 & _).
  apply runPython_events in Hrun as (_ & evr & Hev2 & Hne & Hspawn).
  destruct (some_spawn _ _ _ Hne Hspawn) as [command Hin].
  cbn in Hworld.
  destruct Hworld as [-> | ->]; cbn; eexists _, command, _, _;
    rewrite Hev2, Hev1, <- !app_assoc;
    (split; [reflexivity|]); rewrite !elem_of_app; right; left; exact Hin.
Qed.

(** C3.  In both endpoints every process the handler starts is given
    [--skip-validation] if and only if the [skipValidation] field of the
    form is the string [true]; with any other value, or none, the flag is
    not passed.  (And once the uploads are staged a process is started.) *)
Theorem skip_flag_forwarded_iff_field_is_true (formData : FormData) (w : World) :
  (∀ evs command args cwd,
     events (snd (Analyze.POST pf formData w)) = events w ++ evs →
     EvSpawn command args cwd ∈ evs →
     flag ∈ args ↔ formData_get formData "skipValidation" = Some (FormString "true"))
  ∧ (∀ evs command args cwd,
       events (snd (Generate.POST pf formData w)) = events w ++ evs →
       EvSpawn command args cwd ∈ evs →
       flag ∈ args ↔ formData_get formData "skipValidation" = Some (FormString "true"))
  ∧ (∀ word excel,
       formData_get formData "word" = Some (FormFile word) →
       formData_get formData "excel" = Some (FormFile excel) →
       (∀ tmps w1, Analyze.stage pf word excel w = (Normal tmps, w1) →
          ∃ evs command args cwd,
            events (snd (Analyze.POST pf formData w)) = events w ++ evs
            ∧ EvSpawn command args cwd ∈ evs)
       ∧ (∀ tmps w1, Generate.stage pf word excel w = (Normal tmps, w1) →
            ∃ evs command args cwd,
              events (snd (Generate.POST pf formData w)) = events w ++ evs
              ∧ EvSpawn command args cwd ∈ evs)).
Proof.
  split; [|split].
  - intros evs command args cwd Hev Hin.
    destruct (analyze_POST_spawns pf _ _ _ _ _ _ Hev Hin)
      as (wordTmp & excelTmp & Hnw & Hne & ->).
    now rewrite (flag_in_analyze_args pf _ _ _ Hnw Hne), skip_of_true.
  - intros evs command args cwd Hev Hin.
    destruct (generate_POST_spawns pf _ _ _ _ _ _ Hev Hin)
      as (wordTmp & excelTmp & outTmp & Hnw & Hne & Hno & ->).
    now rewrite (flag_in_generate_args pf _ _ _ _ Hnw Hne Hno), skip_of_true.
  - intros word excel Hw He. split; intros tmps w1 Hs.
    + exact (analyze_POST_starts _ _ _ _ _ _ Hw He Hs).
    + exact (generate_POST_starts _ _ _ _ _ _ Hw He Hs).
Qed.

End SkipFlagClaim.

(** With the field [TRUE] the one process analyze starts is not given the
    flag; with the field [true] the process generate starts is. *)
Lemma skip_flag_forwarded_iff_field_is_true_witness :
  (flag ∉ ["/srv/reporter/processor/main.py"; "analyze";
           "--word"; "/tmp/tmp-0.docx"; "--excel"; "/tmp/tmp-1.xlsx"])
  ∧ (flag ∈ ["/srv/reporter/processor/main.py"; "generate";
             "--word"; "/tmp/tmp-0.docx"; "--excel"; "/tmp/tmp-1.xlsx";
             "--out"; "/tmp/tmp-2.xlsx"; flag])
  ∧ (∃ evs command args cwd,
       events (snd (Analyze.POST (Samples.platform (Samples.writing_worker Samples.ok_text 0))
                      (Samples.form "TRUE") Samples.world0))
       = events Samples.world0 ++ evs
       ∧ EvSpawn command args cwd ∈ evs)
  ∧ (∃ evs command args cwd,
       events (snd (Generate.POST (Samples.platform (Samples.writing_worker Samples.ok_text 0))
                      (Samples.form "true") Samples.world0))
       = events Samples.world0 ++ evs
       ∧ EvSpawn command args cwd ∈ evs).
Proof.
  set (pf := Samples.platform (Samples.writing_worker Samples.ok_text 0)).
  split; [|split; [|split]]; cycle 2.
  - destruct (skip_flag_forwarded_iff_field_is_true pf (Samples.form "TRUE")
                Samples.world0) as (_ & _ & Hstart).
    destruct (Hstart Samples.docx Samples.xlsx eq_refl eq_refl) as [Ha _].
    apply (Ha ("/tmp/tmp-0.docx", "/tmp/tmp-1.xlsx")
             (snd (Analyze.stage pf Samples.docx Samples.xlsx Samples.world0))).
    vm_compute. reflexivity.
  - destruct (skip_flag_forwarded_iff_field_is_true pf (Samples.form "true")
                Samples.world0) as (_ & _ & Hstart).
    destruct (Hstart Samples.docx Samples.xlsx eq_refl eq_refl) as [_ Hg].
    apply (Hg ("/tmp/tmp-0.docx", "/tmp/tmp-1.xlsx", "/tmp/tmp-2.xlsx")
             (snd (Generate.stage pf Samples.docx Samples.xlsx Samples.world0))).
    vm_compute. reflexivity.
  - destruct (skip_flag_forwarded_iff_field_is_true pf (Samples.form "TRUE")
                Samples.world0) as (Hanalyze & _ & _).
    intros Hin.
    apply (Hanalyze
             [EvCreate "/tmp/tmp-0.docx"; EvWriteFile "/tmp/tmp-0.docx";
              EvCreate "/tmp/tmp-1.xlsx"; EvWriteFile "/tmp/tmp-1.xlsx";
              EvSpawn "python"
                ["/srv/reporter/processor/main.py"; "analyze";
                 "--word"; "/tmp/tmp-0.docx"; "--excel"; "/tmp/tmp-1.xlsx"]
                (Some "/srv/reporter");
              EvRemove "/tmp/tmp-0.docx"; EvRemove "/tmp/tmp-1.xlsx"]
             "python" _ (Some "/srv/reporter")) in Hin;
      [discriminate | vm_compute; reflexivity | ].
    rewrite !elem_of_cons. right. right. right. right. now left.
  - destruct (skip_flag_forwarded_iff_field_is_true pf (Samples.form "true")
                Samples.world0) as (_ & Hgenerate & _).
    apply (Hgenerate
             [EvCreate "/tmp/tmp-0.docx"; EvWriteFile "/tmp/tmp-0.docx";
              EvCreate "/tmp/tmp-1.xlsx"; EvWriteFile "/tmp/tmp-1.xlsx";
              EvCreate "/tmp/tmp-2.xlsx";
              EvSpawn "python"
                ["/srv/reporter/processor/main.py"; "generate";
                 "--word"; "/tmp/tmp-0.docx"; "--excel"; "/tmp/tmp-1.xlsx";
                 "--out"; "/tmp/tmp-2.xlsx"; flag]
                (Some "/srv/reporter");
              EvReadFile "/tmp/tmp-2.xlsx";
              EvRemove "/tmp/tmp-0.docx"; EvRemove "/tmp/tmp-1.xlsx";
              EvRemove "/tmp/tmp-2.xlsx"]
             "python" _ (Some "/srv/reporter"));
      [vm_compute; reflexivity | | reflexivity].
    rewrite !elem_of_cons. do 5 right. now left.
Defined.

(** ** The success path of generate *)

Section GenerateSuccess.
Import Python PythonFacts Generate GenerateFacts.
Context (pf : Platform).

Lemma generate_success
    (formData : FormData) (word excel : File) (w w1 w2 : World)
    (wordTmp excelTmp outTmp : string) (result : PythonResult)
    (payload : JSON) (report : option JSON) (bytes : Buffer) (text : string) :
  formData_get formData "word" = Some (FormFile word) →
  formData_get formData "excel" = Some (FormFile excel) →
  Generate.stage pf word excel w = (Normal (wordTmp, excelTmp, outTmp), w1) →
  runPython pf (Generate.args pf (skip_of formData) wordTmp excelTmp outTmp)
    (Some (process_cwd pf)) w1 = (Normal result, w2) →
  truthy (trim (stdout result)) = true →
  JSON_parse pf (stdout result) = inr payload →
  get payload "status" = Normal (Some (JStr "ok")) →
  files w2 !! outTmp = Some bytes →
  get payload "report" = Normal report →
  ToString (reportMonth_of report) = Some text →
  isHeaderValue text = true →
  Generate.POST pf formData w =
    (Normal (download ("report_updated_" +:+ text +:+ ".xlsx") bytes),
     cleaned wordTmp excelTmp outTmp (read outTmp w2)).
Proof.
  intros Hw He Hs Hrun Hb Hp Hg Hf Hr Ht Hv.
  pose proof (generate_try_block_ok pf _ _ _ _ _ _ _ _ _ _ Hrun Hb Hp Hg eq_refl Hr) as Htry.
  rewrite Hf, Ht in Htry. cbv zeta in Htry.
  rewrite filename_valid, Hv in Htry.
  exact (generate_POST_staged pf _ _ _ _ _ _ _ _ _ _ Hw He Hs Htry).
Qed.


(** C9.  When the success payload of generate has no report (absent or
    [null]), or its report has no [reportMonth] (absent or [null]), the
    response is still the download, named [report_updated_report.xlsx]. *)
Theorem generate_success_download_fallback_name
    (formData : FormData) (word excel : File) (w w1 w2 : World)
    (wordTmp excelTmp outTmp : string) (result : PythonResult)
    (payload : JSON) (report : option JSON) (bytes : Buffer) :
  formData_get formData "word" = Some (FormFile word) →
  formData_get formData "excel" = Some (FormFile excel) →
  Generate.stage pf word excel w = (Normal (wordTmp, excelTmp, outTmp), w1) →
  runPython pf (Generate.args pf (skip_of formData) wordTmp excelTmp outTmp)
    (Some (process_cwd pf)) w1 = (Normal result, w2) →
  truthy (trim (stdout result)) = true →
  JSON_parse pf (stdout result) = inr payload →
  get payload "status" = Normal (Some (JStr "ok")) →
  files w2 !! outTmp = Some bytes →
  get payload "report" = Normal report →
  (report = None ∨ report = Some JNull
   ∨ ∃ fields, report = Some (JObj fields)
               ∧ (own_property "reportMonth" fields = None
                  ∨ own_property "reportMonth" fields = Some JNull)) →
  ∃ w', Generate.POST pf formData w =
          (Normal
             (mkResponse 200
                [("Content-Type",
                  "application/vnd.openxmlformats-officedocument.spreadsheetml.sheet");
                 ("Content-Disposition",
                  "attachment; filename=" +:+ dq +:+ "report_updated_report.xlsx" +:+ dq)]
                (BufferBody bytes)), w').
Proof.
  intros Hw He Hs Hrun Hb Hp Hg Hf Hr Hlacks.
  eexists. eapply generate_success with (text := "report"); try eassumption;
    [|reflexivity].
  unfold reportMonth_of.
  destruct Hlacks as [-> | [-> | (fields & -> & [Hm | Hm])]]; cbn; try reflexivity;
    now rewrite Hm.
Qed.

End GenerateSuccess.


(** The worker writes the spreadsheet but its report has no month. *)
Lemma generate_success_download_fallback_name_witness :
  ∃ w', Generate.POST (Samples.platform (Samples.writing_worker Samples.ok_no_month_text 0))
          (Samples.form "false") Samples.world0 =
        (Normal
           (mkResponse 200
              [("Content-Type",
                "application/vnd.openxmlformats-officedocument.spreadsheetml.sheet");
               ("Content-Disposition",
                "attachment; filename=" +:+ dq +:+ "report_updated_report.xlsx" +:+ dq)]
              (BufferBody Samples.updated_xlsx)), w').
Proof.
  set (pf := Samples.platform (Samples.writing_worker Samples.ok_no_month_text 0)).
  set (w1 := snd (Generate.stage pf Samples.docx Samples.xlsx Samples.world0)).
  set (run := Python.runPython pf
                (Generate.args pf false "/tmp/tmp-0.docx" "/tmp/tmp-1.xlsx" "/tmp/tmp-2.xlsx")
                (Some (process_cwd pf)) w1).
  apply (generate_success_download_fallback_name pf (Samples.form "false")
           Samples.docx Samples.xlsx Samples.world0 w1 (snd run)
           "/tmp/tmp-0.docx" "/tmp/tmp-1.xlsx" "/tmp/tmp-2.xlsx"
           (mkPythonResult Samples.ok_no_month_text "" (Some 0%Z))
           (JObj [("status", JStr "ok"); ("report", JObj [("errors", JArr [])])])
           (Some (JObj [("errors", JArr [])])) Samples.updated_xlsx);
    try (vm_compute; reflexivity).
  right. right. exists [("errors", JArr [])]. split; [reflexivity | now left].
Defined.

(** ** Release of the temporary files *)

Section Release.
Import Python PythonFacts.
Context (pf : Platform).

(** Once the [try] statement is entered, every temporary file is removed
    again, however the [try] block ends. *)
Lemma analyze_releases_when_staged formData word excel w wordTmp excelTmp w1 :
  formData_get formData "word" = Some (FormFile word) →
  formData_get formData "excel" = Some (FormFile excel) →
  Analyze.stage pf word excel w = (Normal (wordTmp, excelTmp), w1) →
  ∃ r w', Analyze.POST pf formData w = (Normal r, w')
          ∧ files w' !! wordTmp = None ∧ files w' !! excelTmp = None.
Proof.
  intros Hw He Hs.
  destruct (Analyze.try_block pf (skip_of formData) wordTmp excelTmp w1) as [c w2] eqn:Ht.
  do 2 eexists.
  split; [exact (AnalyzeFacts.analyze_POST_staged pf _ _ _ _ _ _ _ _ _ Hw He Hs Ht)|].
  cbn. split.
  - destruct (decide (excelTmp = wordTmp)) as [->|Hne].
    + apply lookup_delete_eq.
    + rewrite lookup_delete_ne by exact Hne. apply lookup_delete_eq.
  - apply lookup_delete_eq.
Qed.

Lemma generate_releases_when_staged formData word excel w wordTmp excelTmp outTmp w1 :
  formData_get formData "word" = Some (FormFile word) →
  formData_get formData "excel" = Some (FormFile excel) →
  Generate.stage pf word excel w = (Normal (wordTmp, excelTmp, outTmp), w1) →
  ∃ r w', Generate.POST pf formData w = (Normal r, w')
          ∧ files w' !! wordTmp = None ∧ files w' !! excelTmp = None
          ∧ files w' !! outTmp = None.
Proof.
  intros Hw He Hs.
  destruct (Generate.try_block pf (skip_of formData) wordTmp excelTmp outTmp w1)
    as [c w2] eqn:Ht.
  do 2 eexists.
  split; [exact (GenerateFacts.generate_POST_staged pf _ _ _ _ _ _ _ _ _ _ Hw He Hs Ht)|].
  cbn. repeat split; rewrite !lookup_delete; repeat case_decide;
    reflexivity || congruence.
Qed.

(** But the uploads are staged before the [try] statement: when staging
    the spreadsheet throws, the handler throws, and the document staged
    before it, and the empty file created for the spreadsheet, stay. *)
Lemma analyze_leaks_when_second_write_refused formData word excel w
    wordTmp w1 excelTmp w2 e :
  formData_get formData "word" = Some (FormFile word) →
  formData_get formData "excel" = Some (FormFile excel) →
  writeTempFile pf word ".docx" w = (Normal wordTmp, w1) →
  fileSync pf ".xlsx" w1 = (Normal excelTmp, w2) →
  writeFile_error pf (files w2) excelTmp (file_bytes excel) = Some e →
  Analyze.POST pf formData w = (Throw e, w2)
  ∧ files w2 !! wordTmp = Some (file_bytes word)
  ∧ files w2 !! excelTmp = Some [].
Proof.
  intros Hw He Hword Hsync Hrefused.
  destruct (writeTempFile_refused pf excel _ _ _ _ _ Hsync Hrefused) as [Hexcel Hempty].
  assert (Hs : Analyze.stage pf word excel w = (Throw e, w2)).
  { unfold Analyze.stage. rewrite (bind_Normal _ _ _ _ _ Hword).
    now rewrite (bind_Throw _ _ _ _ _ Hexcel). }
  split; [exact (AnalyzeFacts.analyze_POST_stage_Throw pf _ _ _ _ _ _ Hw He Hs)|].
  split; [|exact Hempty].
  apply writeTempFile_Normal in Hword as (_ & _ & Hf1 & _).
  apply fileSync_Normal in Hsync as (_ & Hfresh & Hf2 & _).
  rewrite Hf2. rewrite Hf1 in Hfresh.
  destruct (decide (excelTmp = wordTmp)) as [->|Hne].
  - rewrite lookup_insert_eq in Hfresh. discriminate.
  - rewrite lookup_insert_ne by exact Hne. rewrite Hf1. apply lookup_insert_eq.
Qed.

End Release.

(** C6, at an input where it fails.  On a disk that refuses the write of
    the uploaded spreadsheet both handlers throw out of the staging code,
    which precedes the [try] statement: no [removeCallback] runs, and the
    staged document and the empty file created for the spreadsheet are
    still there when the handler is left. *)
Theorem staging_failure_leaves_temporary_files :
  (∃ e, fst (Analyze.POST Samples.full_host (Samples.form "false") Samples.world0)
          = Throw e
        ∧ error_code e = Some "ENOSPC")
  ∧ files (snd (Analyze.POST Samples.full_host (Samples.form "false") Samples.world0))
      !! "/tmp/tmp-0.docx" = Some (file_bytes Samples.docx)
  ∧ files (snd (Analyze.POST Samples.full_host (Samples.form "false") Samples.world0))
      !! "/tmp/tmp-1.xlsx" = Some []
  ∧ events (snd (Analyze.POST Samples.full_host (Samples.form "false") Samples.world0)) =
      [EvCreate "/tmp/tmp-0.docx"; EvWriteFile "/tmp/tmp-0.docx";
       EvCreate "/tmp/tmp-1.xlsx"]
  ∧ (∃ e, fst (Generate.POST Samples.full_host (Samples.form "false") Samples.world0)
            = Throw e
          ∧ error_code e = Some "ENOSPC")
  ∧ files (snd (Generate.POST Samples.full_host (Samples.form "false") Samples.world0))
      !! "/tmp/tmp-0.docx" = Some (file_bytes Samples.docx)
  ∧ files (snd (Generate.POST Samples.full_host (Samples.form "false") Samples.world0))
      !! "/tmp/tmp-1.xlsx" = Some []
  ∧ events (snd (Generate.POST Samples.full_host (Samples.form "false") Samples.world0)) =
      [EvCreate "/tmp/tmp-0.docx"; EvWriteFile "/tmp/tmp-0.docx";
       EvCreate "/tmp/tmp-1.xlsx"].
Proof.
  repeat split; try (eexists; split); vm_compute; reflexivity.
Qed.

(** ** The exit code of the subprocess *)

Section ExitCode.
Import Python PythonFacts.
Context (pf : Platform) (g : PythonResult → PythonResult).
Hypothesis g_stdout : ∀ r, stdout (g r) = stdout r.
Hypothesis g_stderr : ∀ r, stderr (g r) = stderr r.

Lemma analyze_try_block_map_result skip wordTmp excelTmp w :
  Analyze.try_block (map_result g pf) skip wordTmp excelTmp w =
  Analyze.try_block pf skip wordTmp excelTmp w.
Proof.
  unfold Analyze.try_block, runPython, try_catch, spawnPython, bind.
  change (configured (map_result g pf)) with (configured pf).
  change (Analyze.args (map_result g pf)) with (Analyze.args pf).
  change (process_cwd (map_result g pf)) with (process_cwd pf).
  change (process_env (map_result g pf)) with (process_env pf).
  cbn [child_process map_result].
  destruct (child_process pf (configured pf) _ _ _ (files w)) as [[e|r] fs].
  - destruct (isEnoent e && negb (String.eqb (configured pf) "py")); [|reflexivity].
    cbn [files].
    destruct (child_process pf "py" _ _ _ fs) as [[e2|r2] fs2]; [reflexivity|].
    unfold no_output, parse. cbn [JSON_parse map_result].
    now rewrite g_stdout, g_stderr.
  - unfold no_output, parse. cbn [JSON_parse map_result].
    now rewrite g_stdout, g_stderr.
Qed.

Lemma generate_try_block_map_result skip wordTmp excelTmp outTmp w :
  Generate.try_block (map_result g pf) skip wordTmp excelTmp outTmp w =
  Generate.try_block pf skip wordTmp excelTmp outTmp w.
Proof.
  unfold Generate.try_block, runPython, try_catch, spawnPython, bind.
  change (configured (map_result g pf)) with (configured pf).
  change (Generate.args (map_result g pf)) with (Generate.args pf).
  change (process_cwd (map_result g pf)) with (process_cwd pf).
  change (process_env (map_result g pf)) with (process_env pf).
  cbn [child_process map_result].
  destruct (child_process pf (configured pf) _ _ _ (files w)) as [[e|r] fs].
  - destruct (isEnoent e && negb (String.eqb (configured pf) "py")); [|reflexivity].
    cbn [files].
    destruct (child_process pf "py" _ _ _ fs) as [[e2|r2] fs2]; [reflexivity|].
    unfold no_output, parse. cbn [JSON_parse map_result].
    now rewrite g_stdout, g_stderr.
  - unfold no_output, parse. cbn [JSON_parse map_result].
    now rewrite g_stdout, g_stderr.
Qed.

Lemma analyze_POST_map_result formData w :
  Analyze.POST (map_result g pf) formData w = Analyze.POST pf formData w.
Proof.
  unfold Analyze.POST.
  destruct (formData_get formData "word") as [[?|word]|]; try reflexivity.
  destruct (formData_get formData "excel") as [[?|excel]|]; try reflexivity.
  change (Analyze.stage (map_result g pf)) with (Analyze.stage pf).
  unfold bind. destruct (Analyze.stage pf word excel w) as [[[wordTmp excelTmp]|e] w1];
    [|reflexivity].
  unfold try_catch_finally. now rewrite analyze_try_block_map_result.
Qed.

Lemma generate_POST_map_result formData w :
  Generate.POST (map_result g pf) formData w = Generate.POST pf formData w.
Proof.
  unfold Generate.POST.
  destruct (formData_get formData "word") as [[?|word]|]; try reflexivity.
  destruct (formData_get formData "excel") as [[?|excel]|]; try reflexivity.
  change (Generate.stage (map_result g pf)) with (Generate.stage pf).
  unfold bind.
  destruct (Generate.stage pf word excel w) as [[[[wordTmp excelTmp] outTmp]|e] w1];
    [|reflexivity].
  unfold try_catch_finally. now rewrite generate_try_block_map_result.
Qed.

End ExitCode.

(** The claim as it stands fails: with the same (blank) stdout and the
    same exit code, another stderr gives another response body, because
    the 500 answer to empty output carries stderr as its details. *)
Lemma responses_depend_on_stderr : ¬ responses_depend_only_on_stdout.
Proof.
  intros H.
  destruct (H (Samples.platform (Samples.printing_worker "" "Traceback" 1))
              (fun r => mkPythonResult (stdout r) "Killed" (exitCode r))
              (Samples.form "false") Samples.world0 (fun r => eq_refl)) as [Ha _].
  vm_compute in Ha. discriminate Ha.
Qed.

Section ExitCodeClaim.
Import Python PythonFacts.
Context (pf : Platform).

(** C8, amended.  The responses of both endpoints never depend on the exit
    code of the subprocess: of what the subprocess resolves with they use
    stdout, and stderr (as the details of the answer to empty output).
    Replacing the results by others with the same stdout and stderr leaves
    both handlers unchanged, response and effects.  In particular a run
    that leaves with a non-zero code but prints a payload with status [ok]
    is a full success: analyze answers 200 with the payload and generate
    answers 200 with the artifact, when the output file can be read and
    the month prints as a text that can stand in a header. *)
Theorem responses_ignore_exit_code (g : PythonResult → PythonResult)
    (formData : FormData) (w : World) :
  (∀ r, stdout (g r) = stdout r) →
  (∀ r, stderr (g r) = stderr r) →
  Analyze.POST (map_result g pf) formData w = Analyze.POST pf formData w
  ∧ Generate.POST (map_result g pf) formData w = Generate.POST pf formData w
  ∧ (∀ word excel wordTmp excelTmp w1 result w2 payload code,
       formData_get formData "word" = Some (FormFile word) →
       formData_get formData "excel" = Some (FormFile excel) →
       Analyze.stage pf word excel w = (Normal (wordTmp, excelTmp), w1) →
       runPython pf (Analyze.args pf (skip_of formData) wordTmp excelTmp)
         (Some (process_cwd pf)) w1 = (Normal result, w2) →
       exitCode result = Some code → code ≠ 0%Z →
       truthy (trim (stdout result)) = true →
       JSON_parse pf (stdout result) = inr payload →
       get payload "status" = Normal (Some (JStr "ok")) →
       fst (Analyze.POST pf formData w) = Normal (NextResponse_json payload 200))
  ∧ (∀ word excel wordTmp excelTmp outTmp w1 result w2 payload code report bytes text,
       formData_get formData "word" = Some (FormFile word) →
       formData_get formData "excel" = Some (FormFile excel) →
       Generate.stage pf word excel w = (Normal (wordTmp, excelTmp, outTmp), w1) →
       runPython pf (Generate.args pf (skip_of formData) wordTmp excelTmp outTmp)
         (Some (process_cwd pf)) w1 = (Normal result, w2) →
       exitCode result = Some code → code ≠ 0%Z →
       truthy (trim (stdout result)) = true →
       JSON_parse pf (stdout result) = inr payload →
       get payload "status" = Normal (Some (JStr "ok")) →
       files w2 !! outTmp = Some bytes →
       get payload "report" = Normal report →
       ToString (Generate.reportMonth_of report) = Some text →
       isHeaderValue text = true →
       fst (Generate.POST pf formData w) =
         Normal (Generate.download ("report_updated_" +:+ text +:+ ".xlsx") bytes)).
Proof.
  intros Hout Herr.
  split; [now apply analyze_POST_map_result|].
  split; [now apply generate_POST_map_result|].
  split.
  - intros word excel wordTmp excelTmp w1 result w2 payload code
      Hw He Hs Hrun _ _ Hb Hp Hg.
    pose proof (AnalyzeFacts.analyze_try_block_payload pf _ _ _ _ _ _ _ _ Hrun Hb Hp Hg) as Ht.
    now rewrite (AnalyzeFacts.analyze_POST_staged pf _ _ _ _ _ _ _ _ _ Hw He Hs Ht).
  - intros word excel wordTmp excelTmp outTmp w1 result w2 payload code report bytes text
      Hw He Hs Hrun _ _ Hb Hp Hg Hf Hr Ht Hv.
    now rewrite (generate_success pf _ _ _ _ _ _ _ _ _ _ _ _ _ _ Hw He Hs Hrun Hb Hp Hg Hf Hr Ht Hv).
Qed.

End ExitCodeClaim.

(** The worker leaves with code 1 after printing a payload with status
    [ok]: both endpoints answer as they do when it leaves with code 0. *)
Lemma responses_ignore_exit_code_witness :
  Analyze.POST (Samples.platform (Samples.writing_worker Samples.ok_text 1))
    (Samples.form "false") Samples.world0
  = Analyze.POST (Samples.platform (Samples.writing_worker Samples.ok_text 0))
      (Samples.form "false") Samples.world0
  ∧ fst (Generate.POST (Samples.platform (Samples.writing_worker Samples.ok_text 1))
           (Samples.form "false") Samples.world0)
    = Normal (Generate.download "report_updated_2024-05.xlsx" Samples.updated_xlsx)
  ∧ fst (Analyze.POST (Samples.platform (Samples.writing_worker Samples.ok_text 1))
           (Samples.form "false") Samples.world0)
    = Normal (NextResponse_json Samples.ok_payload 200).
Proof.
  split; [|split]; cycle 2.
  - set (pf := Samples.platform (Samples.writing_worker Samples.ok_text 1)).
    destruct (responses_ignore_exit_code pf (fun r => r) (Samples.form "false")
                Samples.world0 (fun r => eq_refl) (fun r => eq_refl))
      as (_ & _ & Ha & _).
    set (w1 := snd (Analyze.stage pf Samples.docx Samples.xlsx Samples.world0)).
    set (run := Python.runPython pf
                  (Analyze.args pf false "/tmp/tmp-0.docx" "/tmp/tmp-1.xlsx")
                  (Some (process_cwd pf)) w1).
    apply (Ha Samples.docx Samples.xlsx "/tmp/tmp-0.docx" "/tmp/tmp-1.xlsx" w1
             (mkPythonResult Samples.ok_text "" (Some 1%Z)) (snd run)
             Samples.ok_payload 1%Z);
      try discriminate; vm_compute; reflexivity.
  - destruct (responses_ignore_exit_code
                (Samples.platform (Samples.writing_worker Samples.ok_text 0))
                (fun r => mkPythonResult (stdout r) (stderr r) (Some 1%Z))
                (Samples.form "false") Samples.world0
                (fun r => eq_refl) (fun r => eq_refl)) as (Ha & _).
    exact Ha.
  - set (pf := Samples.platform (Samples.writing_worker Samples.ok_text 1)).
    destruct (responses_ignore_exit_code pf (fun r => r) (Samples.form "false")
                Samples.world0 (fun r => eq_refl) (fun r => eq_refl))
      as (_ & _ & _ & Hg).
    set (w1 := snd (Generate.stage pf Samples.docx Samples.xlsx Samples.world0)).
    set (run := Python.runPython pf
                  (Generate.args pf false "/tmp/tmp-0.docx" "/tmp/tmp-1.xlsx" "/tmp/tmp-2.xlsx")
                  (Some (process_cwd pf)) w1).
    apply (Hg Samples.docx Samples.xlsx "/tmp/tmp-0.docx" "/tmp/tmp-1.xlsx"
             "/tmp/tmp-2.xlsx" w1 (mkPythonResult Samples.ok_text "" (Some 1%Z))
             (snd run) Samples.ok_payload 1%Z
             (Some (JObj [("reportMonth", JStr "2024-05")])) Samples.updated_xlsx
             "2024-05");
      try discriminate; vm_compute; reflexivity.
Defined.

(** ** The generation gate *)

Lemma canGenerate_iff (s : Page.State) :
  Page.canGenerate s = true ↔
  Page.wordFile s ≠ None ∧ Page.excelFile s ≠ None ∧ Page.status s = Page.idle
  ∧ (Page.skipValidation s = true
     ∨ ∃ a, Page.analysis s = Some a ∧ Page.errors a = []).
Proof.
  unfold Page.canGenerate.
  rewrite !andb_true_iff, orb_true_iff.
  destruct (Page.wordFile s), (Page.excelFile s), (Page.status s); cbn;
    try (split; [intros [[[? ?] ?] ?] | intros (? & ? & ? & ?)];
         congruence).
  split.
  - intros [_ [H|H]]; repeat (split; [congruence|]); [now left | right].
    destruct (Page.analysis s) as [a|]; [|discriminate].
    exists a. split; [reflexivity|]. apply Nat.eqb_eq in H.
    now destruct (Page.errors a).
  - intros (_ & _ & _ & [H | (a & -> & ->)]); (split; [easy|]); [now left | now right].
Qed.

Lemma gate_proceeds_iff skip validated :
  Pipeline.proceeds skip validated = true ↔
  Page.errors validated = [] ∨ skip = true.
Proof.
  unfold Pipeline.proceeds. rewrite orb_true_iff, Nat.eqb_eq.
  destruct (Page.errors validated); cbn; intuition congruence.
Qed.

(** C4.  The UI enables Generate exactly when both files are selected, the
    status is idle, and either the skip box is checked or the analysis at
    hand has no errors.  In the pipeline gate (modelled from the spec)
    generation writes the artifact if and only if the errors of the report
    are empty or the override is set; with the override set it writes the
    artifact, and the report in the payload keeps all errors and warnings
    and records [validationSkipped = true].  The form the UI posts carries
    the override as the field value the handlers test for. *)
Theorem generation_gate :
  (∀ s, Page.canGenerate s = true ↔
        Page.wordFile s ≠ None ∧ Page.excelFile s ≠ None ∧ Page.status s = Page.idle
        ∧ (Page.skipValidation s = true
           ∨ ∃ a, Page.analysis s = Some a ∧ Page.errors a = []))
  ∧ (∀ skip validated updated,
       snd (Pipeline.generate skip validated updated) = Some updated
       ↔ Page.errors validated = [] ∨ skip = true)
  ∧ (∀ skip validated updated,
       snd (Pipeline.generate skip validated updated) = None
       ↔ ¬ (Page.errors validated = [] ∨ skip = true))
  ∧ (∀ validated updated,
       let payload := fst (Pipeline.generate true validated updated) in
       snd (Pipeline.generate true validated updated) = Some updated
       ∧ Pipeline.payload_status payload = Pipeline.ok
       ∧ Page.errors (Pipeline.report payload) = Page.errors validated
       ∧ Page.warnings (Pipeline.report payload) = Page.warnings validated
       ∧ Page.validationSkipped (Pipeline.report payload) = Some true)
  ∧ (∀ word excel skip, skip_of (Page.formData_of word excel skip) = skip).
Proof.
  split; [exact canGenerate_iff|].
  split; [|split; [|split]].
  - intros skip validated updated. rewrite <- gate_proceeds_iff.
    unfold Pipeline.generate.
    destruct (Pipeline.proceeds skip validated); cbn; split; congruence.
  - intros skip validated updated. rewrite <- gate_proceeds_iff.
    unfold Pipeline.generate.
    destruct (Pipeline.proceeds skip validated); cbn; split; congruence.
  - intros validated updated. unfold Pipeline.generate, Pipeline.proceeds.
    rewrite orb_true_r. cbn. repeat split.
  - intros word excel [|]; reflexivity.
Qed.

(** * Further properties of the route handlers *)

(** ** Staging *)

Section StagedUploads.
Import Python PythonFacts.
Context (pf : Platform).

(** X1.  [writeTempFile] stores the bytes of the upload under a name that
    did not exist before: reading that name afterwards gives the bytes
    back, and every other file is as it was. *)
Theorem writeTempFile_then_readFile (file : File) (postfix : string)
    (w w' : World) (name : string) :
  writeTempFile pf file postfix w = (Normal name, w') →
  files w !! name = None
  ∧ fst (readFile name w') = Normal (file_bytes file)
  ∧ ∀ other, other ≠ name → files w' !! other = files w !! other.
Proof.
  intros H. apply writeTempFile_Normal in H as (_ & Hfresh & Hfiles & _).
  split; [exact Hfresh|]. split.
  - unfold readFile, bind, emit. cbn. now rewrite Hfiles, lookup_insert_eq.
  - intros other Hne. rewrite Hfiles. now apply lookup_insert_ne.
Qed.

Lemma analyze_stage_files word excel w wordTmp excelTmp w1 :
  Analyze.stage pf word excel w = (Normal (wordTmp, excelTmp), w1) →
  files w !! wordTmp = None ∧ files w !! excelTmp = None ∧ wordTmp ≠ excelTmp
  ∧ files w1 = <[excelTmp := file_bytes excel]> (<[wordTmp := file_bytes word]> (files w)).
Proof.
  unfold Analyze.stage, bind.
  destruct (writeTempFile pf word ".docx" w) as [[a|e] wa] eqn:Ha; [|discriminate].
  destruct (writeTempFile pf excel ".xlsx" wa) as [[b|e] wb] eqn:Hb; [|discriminate].
  unfold ret. intros [= <- <- <-].
  apply writeTempFile_Normal in Ha as (_ & Hfa & Hwa & _).
  apply writeTempFile_Normal in Hb as (_ & Hfb & Hwb & _).
  rewrite Hwa in Hfb.
  assert (Hne : a ≠ b) by (intros ->; now rewrite lookup_insert_eq in Hfb).
  rewrite lookup_insert_ne in Hfb by exact Hne.
  rewrite Hwb, Hwa. repeat split; assumption.
Qed.

Lemma generate_stage_files word excel w wordTmp excelTmp outTmp w1 :
  Generate.stage pf word excel w = (Normal (wordTmp, excelTmp, outTmp), w1) →
  files w !! wordTmp = None ∧ files w !! excelTmp = None ∧ files w !! outTmp = None
  ∧ wordTmp ≠ excelTmp ∧ wordTmp ≠ outTmp ∧ excelTmp ≠ outTmp
  ∧ files w1 = <[outTmp := []]> (<[excelTmp := file_bytes excel]>
                 (<[wordTmp := file_bytes word]> (files w))).
Proof.
  unfold Generate.stage, bind.
  destruct (writeTempFile pf word ".docx" w) as [[a|e] wa] eqn:Ha; [|discriminate].
  destruct (writeTempFile pf excel ".xlsx" wa) as [[b|e] wb] eqn:Hb; [|discriminate].
  destruct (fileSync pf ".xlsx" wb) as [[o|e] wo] eqn:Ho; [|discriminate].
  unfold ret. intros [= <- <- <- <-].
  apply writeTempFile_Normal in Ha as (_ & Hfa & Hwa & _).
  apply writeTempFile_Normal in Hb as (_ & Hfb & Hwb & _).
  apply fileSync_Normal in Ho as (_ & Hfo & Hwo & _).
  rewrite Hwa in Hfb. rewrite Hwb, Hwa in Hfo.
  assert (Hab : a ≠ b) by (intros ->; now rewrite lookup_insert_eq in Hfb).
  assert (Hbo : b ≠ o) by (intros ->; now rewrite lookup_insert_eq in Hfo).
  rewrite lookup_insert_ne in Hfb by exact Hab.
  rewrite lookup_insert_ne in Hfo by exact Hbo.
  assert (Hao : a ≠ o) by (intros ->; now rewrite lookup_insert_eq in Hfo).
  rewrite lookup_insert_ne in Hfo by exact Hao.
  rewrite Hwo, Hwb, Hwa. repeat split; assumption.
Qed.

(** X2.  When the process is started it finds the uploads where its
    arguments say: the names after [--word] and [--excel] are distinct
    names that did not exist before the request and hold the bytes of the
    two uploads; for generate the name after [--out] is a third such name
    and holds an empty file. *)
Theorem worker_finds_uploads_at_its_arguments (skip : bool) (word excel : File)
    (w : World) :
  (∀ wordTmp excelTmp w1,
     Analyze.stage pf word excel w = (Normal (wordTmp, excelTmp), w1) →
     (∃ script rest, Analyze.args pf skip wordTmp excelTmp =
        script :: "analyze" :: "--word" :: wordTmp :: "--excel" :: excelTmp :: rest)
     ∧ files w1 !! wordTmp = Some (file_bytes word)
     ∧ files w1 !! excelTmp = Some (file_bytes excel)
     ∧ wordTmp ≠ excelTmp
     ∧ files w !! wordTmp = None ∧ files w !! excelTmp = None)
  ∧ (∀ wordTmp excelTmp outTmp w1,
       Generate.stage pf word excel w = (Normal (wordTmp, excelTmp, outTmp), w1) →
       (∃ script rest, Generate.args pf skip wordTmp excelTmp outTmp =
          script :: "generate" :: "--word" :: wordTmp :: "--excel" :: excelTmp
          :: "--out" :: outTmp :: rest)
       ∧ files w1 !! wordTmp = Some (file_bytes word)
       ∧ files w1 !! excelTmp = Some (file_bytes excel)
       ∧ files w1 !! outTmp = Some []
       ∧ wordTmp ≠ excelTmp ∧ wordTmp ≠ outTmp ∧ excelTmp ≠ outTmp
       ∧ files w !! wordTmp = None ∧ files w !! excelTmp = None
       ∧ files w !! outTmp = None).
Proof.
  split.
  - intros wordTmp excelTmp w1 Hs.
    apply analyze_stage_files in Hs as (Hfw & Hfe & Hne & ->).
    split; [unfold Analyze.args; destruct skip; eauto|].
    rewrite lookup_insert_ne by (intros E; now apply Hne).
    rewrite !lookup_insert_eq. repeat split; assumption.
  - intros wordTmp excelTmp outTmp w1 Hs.
    apply generate_stage_files in Hs as (Hfw & Hfe & Hfo & Hwe & Hwo & Heo & ->).
    split; [unfold Generate.args; destruct skip; eauto|].
    rewrite !lookup_insert_eq.
    rewrite (lookup_insert_ne _ outTmp excelTmp) by (intros E; now apply Heo).
    rewrite (lookup_insert_ne _ outTmp wordTmp) by (intros E; now apply Hwo).
    rewrite (lookup_insert_ne _ excelTmp wordTmp) by (intros E; now apply Hwe).
    rewrite !lookup_insert_eq. repeat split; assumption.
Qed.

(** X3.  What a staged request does to the directory of temporary files:
    it removes its own names from what the process left.  When the process
    left the directory as it found it, the directory after the request is
    the directory before it. *)
Theorem staged_request_restores_directory (formData : FormData) (word excel : File)
    (w : World) :
  formData_get formData "word" = Some (FormFile word) →
  formData_get formData "excel" = Some (FormFile excel) →
  (∀ wordTmp excelTmp w1 c w2,
     Analyze.stage pf word excel w = (Normal (wordTmp, excelTmp), w1) →
     runPython pf (Analyze.args pf (skip_of formData) wordTmp excelTmp)
       (Some (process_cwd pf)) w1 = (c, w2) →
     files (snd (Analyze.POST pf formData w)) = delete excelTmp (delete wordTmp (files w2))
     ∧ (files w2 = files w1 → files (snd (Analyze.POST pf formData w)) = files w))
  ∧ (∀ wordTmp excelTmp outTmp w1 c w2,
       Generate.stage pf word excel w = (Normal (wordTmp, excelTmp, outTmp), w1) →
       runPython pf (Generate.args pf (skip_of formData) wordTmp excelTmp outTmp)
         (Some (process_cwd pf)) w1 = (c, w2) →
       files (snd (Generate.POST pf formData w))
         = delete outTmp (delete excelTmp (delete wordTmp (files w2)))
       ∧ (files w2 = files w1 → files (snd (Generate.POST pf formData w)) = files w)).
Proof.
  intros Hw He. split.
  - intros wordTmp excelTmp w1 c w2 Hs Hrun.
    destruct (analyze_try_block_runs pf _ _ _ _ _ _ Hrun) as (c' & Ht).
    rewrite (AnalyzeFacts.analyze_POST_staged pf _ _ _ _ _ _ _ _ _ Hw He Hs Ht). cbn.
    split; [reflexivity|]. intros ->.
    apply analyze_stage_files in Hs as (Hfw & Hfe & Hne & ->).
    apply map_eq. intros k.
    destruct (decide (k = wordTmp)) as [E1|]; destruct (decide (k = excelTmp)) as [E2|];
      subst; simplify_map_eq; congruence.
  - intros wordTmp excelTmp outTmp w1 c w2 Hs Hrun.
    pose proof (generate_try_block_world pf _ _ _ _ _ _ _ Hrun) as Hworld.
    destruct (Generate.try_block pf (skip_of formData) wordTmp excelTmp outTmp w1)
      as [c' w3] eqn:Ht.
    rewrite (GenerateFacts.generate_POST_staged pf _ _ _ _ _ _ _ _ _ _ Hw He Hs Ht).
    cbn in *.
    assert (Hf3 : files w3 = files w2) by (destruct Hworld as [-> | ->]; reflexivity).
    rewrite Hf3. split; [reflexivity|]. intros ->.
    apply generate_stage_files in Hs as (Hfw & Hfe & Hfo & Hwe & Hwo & Heo & ->).
    apply map_eq. intros k.
    destruct (decide (k = wordTmp)) as [E1|]; destruct (decide (k = excelTmp)) as [E2|];
      destruct (decide (k = outTmp)) as [E3|]; subst; simplify_map_eq; congruence.
Qed.

End StagedUploads.

(** The first candidate name is taken: the upload goes to the second. *)
Lemma writeTempFile_then_readFile_witness :
  files Samples.world1 !! "/tmp/tmp-1.docx" = None
  ∧ fst (readFile "/tmp/tmp-1.docx"
           (snd (writeTempFile (Samples.platform Samples.no_interpreter)
                   Samples.docx ".docx" Samples.world1)))
    = Normal (file_bytes Samples.docx)
  ∧ ∀ other, other ≠ "/tmp/tmp-1.docx" →
      files (snd (writeTempFile (Samples.platform Samples.no_interpreter)
                    Samples.docx ".docx" Samples.world1)) !! other
      = files Samples.world1 !! other.
Proof.
  apply (writeTempFile_then_readFile (Samples.platform Samples.no_interpreter)
           Samples.docx ".docx" Samples.world1).
  vm_compute. reflexivity.
Defined.

Lemma worker_finds_uploads_at_its_arguments_witness :
  files (snd (Analyze.stage (Samples.platform Samples.no_interpreter)
                Samples.docx Samples.xlsx Samples.world1)) !! "/tmp/tmp-1.docx"
    = Some (file_bytes Samples.docx)
  ∧ files (snd (Generate.stage (Samples.platform Samples.no_interpreter)
                  Samples.docx Samples.xlsx Samples.world1)) !! "/tmp/tmp-3.xlsx"
    = Some [].
Proof.
  set (pf := Samples.platform Samples.no_interpreter).
  destruct (worker_finds_uploads_at_its_arguments pf false Samples.docx Samples.xlsx
              Samples.world1) as [Ha Hg].
  split.
  - destruct (Ha "/tmp/tmp-1.docx" "/tmp/tmp-2.xlsx"
                (snd (Analyze.stage pf Samples.docx Samples.xlsx Samples.world1)))
      as (_ & H & _); [vm_compute; reflexivity | exact H].
  - destruct (Hg "/tmp/tmp-1.docx" "/tmp/tmp-2.xlsx" "/tmp/tmp-3.xlsx"
                (snd (Generate.stage pf Samples.docx Samples.xlsx Samples.world1)))
      as (_ & _ & _ & H & _); [vm_compute; reflexivity | exact H].
Defined.

(** A worker that only prints leaves the directory alone: after either
    request the one file that was there before is all there is. *)
Lemma staged_request_restores_directory_witness :
  files (snd (Analyze.POST (Samples.platform (Samples.printing_worker Samples.ok_text "" 0))
                (Samples.form "false") Samples.world1)) = files Samples.world1
  ∧ files (snd (Generate.POST (Samples.platform (Samples.printing_worker Samples.ok_text "" 0))
                  (Samples.form "false") Samples.world1)) = files Samples.world1.
Proof.
  set (pf := Samples.platform (Samples.printing_worker Samples.ok_text "" 0)).
  destruct (staged_request_restores_directory pf (Samples.form "false")
              Samples.docx Samples.xlsx Samples.world1 eq_refl eq_refl) as [Ha Hg].
  split.
  - set (w1 := snd (Analyze.stage pf Samples.docx Samples.xlsx Samples.world1)).
    set (run := Python.runPython pf
                  (Analyze.args pf false "/tmp/tmp-1.docx" "/tmp/tmp-2.xlsx")
                  (Some (process_cwd pf)) w1).
    destruct (Ha "/tmp/tmp-1.docx" "/tmp/tmp-2.xlsx" w1 (fst run) (snd run))
      as [_ H]; [vm_compute; reflexivity | vm_compute; reflexivity |].
    apply H. vm_compute. reflexivity.
  - set (w1 := snd (Generate.stage pf Samples.docx Samples.xlsx Samples.world1)).
    set (run := Python.runPython pf
                  (Generate.args pf false "/tmp/tmp-1.docx" "/tmp/tmp-2.xlsx" "/tmp/tmp-3.xlsx")
                  (Some (process_cwd pf)) w1).
    destruct (Hg "/tmp/tmp-1.docx" "/tmp/tmp-2.xlsx" "/tmp/tmp-3.xlsx" w1
                (fst run) (snd run))
      as [_ H]; [vm_compute; reflexivity | vm_compute; reflexivity |].
    apply H. vm_compute. reflexivity.
Defined.

(** ** The order of effects *)

Section EffectOrder.
Import Python PythonFacts.
Context (pf : Platform).

Lemma runPython_spawns args cwd w c w' :
  runPython pf args cwd w = (c, w') →
  ∃ spawns, events w' = events w ++ spawns
            ∧ (spawns = [EvSpawn (configured pf) args cwd]
               ∨ spawns = [EvSpawn (configured pf) args cwd; EvSpawn "py" args cwd]).
Proof.
  intros H.
  destruct (child_process pf (configured pf) args cwd (child_env pf) (files w))
    as [[e|r] fs] eqn:Hc.
  - destruct (isEnoent e && negb (String.eqb (configured pf) "py")) eqn:Hr.
    + rewrite (runPython_retry _ _ _ _ _ _ Hc Hr), spawnPython_eq in H.
      destruct (child_process pf "py" args cwd (child_env pf) _) as [o fs2].
      injection H as _ <-. eexists. cbn. rewrite <- app_assoc.
      split; [reflexivity | now right].
    + rewrite (runPython_wrap _ _ _ _ _ _ Hc Hr) in H. injection H as _ <-.
      eexists. split; [reflexivity | now left].
  - rewrite (runPython_close _ _ _ _ _ _ Hc) in H. injection H as _ <-.
    eexists. split; [reflexivity | now left].
Qed.

(** The [try] block of generate reads the output file exactly when the
    payload has status [ok]. *)
Lemma generate_try_block_reads skip wordTmp excelTmp outTmp w c w2 :
  runPython pf (Generate.args pf skip wordTmp excelTmp outTmp) (Some (process_cwd pf)) w
    = (c, w2) →
  snd (Generate.try_block pf skip wordTmp excelTmp outTmp w) =
  match class_of_run pf c with
  | Success => Generate.read outTmp w2
  | _ => w2
  end.
Proof.
  intros Hrun. unfold class_of_run. destruct c as [result|e].
  - destruct (truthy (trim (stdout result))) eqn:Hb.
    + destruct (JSON_parse pf (stdout result)) as [e|payload] eqn:Hp.
      * now rewrite (GenerateFacts.generate_try_block_unparseable pf _ _ _ _ _ _ _ _ Hrun Hb Hp).
      * destruct (get payload "status") as [st|e] eqn:Hg.
        -- destruct (strict_neq_string st "ok") eqn:Hst.
           ++ rewrite (GenerateFacts.generate_try_block_blocked pf _ _ _ _ _ _ _ _ _ Hrun Hb Hp Hg Hst).
              destruct st as [[| | |s| |]|]; try reflexivity.
              cbn in Hst. apply negb_true_iff in Hst. now rewrite Hst.
           ++ destruct (GenerateFacts.generate_get_report_total _ _ Hg) as [report Hr].
              rewrite (GenerateFacts.generate_try_block_ok pf _ _ _ _ _ _ _ _ _ _ Hrun Hb Hp Hg Hst Hr).
              apply strict_neq_ok in Hst. subst st. reflexivity.
        -- now rewrite (GenerateFacts.generate_try_block_status_Throw pf _ _ _ _ _ _ _ _ _ Hrun Hb Hp Hg).
    + now rewrite (GenerateFacts.generate_try_block_blank pf _ _ _ _ _ _ _ Hrun Hb).
  - now rewrite (GenerateFacts.generate_try_block_Throw pf _ _ _ _ _ _ _ Hrun).
Qed.

(** X4.  The effects of a staged request, in order: both uploads are
    created and written (and for generate the output file created), then
    one process is started, or two when the first start is retried with
    [py], always with the arguments of the handler; generate then reads
    the output file, once, exactly when the payload has status [ok]; last
    every temporary file is removed, once each. *)
Theorem staged_request_effects_in_order (formData : FormData) (word excel : File)
    (w : World) :
  formData_get formData "word" = Some (FormFile word) →
  formData_get formData "excel" = Some (FormFile excel) →
  (∀ wordTmp excelTmp w1 c w2,
     Analyze.stage pf word excel w = (Normal (wordTmp, excelTmp), w1) →
     runPython pf (Analyze.args pf (skip_of formData) wordTmp excelTmp)
       (Some (process_cwd pf)) w1 = (c, w2) →
     ∃ spawns,
       events (snd (Analyze.POST pf formData w)) =
         events w
         ++ [EvCreate wordTmp; EvWriteFile wordTmp; EvCreate excelTmp; EvWriteFile excelTmp]
         ++ spawns ++ [EvRemove wordTmp; EvRemove excelTmp]
       ∧ (spawns = [EvSpawn (configured pf)
                      (Analyze.args pf (skip_of formData) wordTmp excelTmp)
                      (Some (process_cwd pf))]
          ∨ spawns = [EvSpawn (configured pf)
                        (Analyze.args pf (skip_of formData) wordTmp excelTmp)
                        (Some (process_cwd pf));
                      EvSpawn "py"
                        (Analyze.args pf (skip_of formData) wordTmp excelTmp)
                        (Some (process_cwd pf))]))
  ∧ (∀ wordTmp excelTmp outTmp w1 c w2,
       Generate.stage pf word excel w = (Normal (wordTmp, excelTmp, outTmp), w1) →
       runPython pf (Generate.args pf (skip_of formData) wordTmp excelTmp outTmp)
         (Some (process_cwd pf)) w1 = (c, w2) →
       ∃ spawns,
         events (snd (Generate.POST pf formData w)) =
           events w
           ++ [EvCreate wordTmp; EvWriteFile wordTmp; EvCreate excelTmp;
               EvWriteFile excelTmp; EvCreate outTmp]
           ++ spawns
           ++ match class_of_run pf c with Success => [EvReadFile outTmp] | _ => [] end
           ++ [EvRemove wordTmp; EvRemove excelTmp; EvRemove outTmp]
         ∧ (spawns = [EvSpawn (configured pf)
                        (Generate.args pf (skip_of formData) wordTmp excelTmp outTmp)
                        (Some (process_cwd pf))]
            ∨ spawns = [EvSpawn (configured pf)
                          (Generate.args pf (skip_of formData) wordTmp excelTmp outTmp)
                          (Some (process_cwd pf));
                        EvSpawn "py"
                          (Generate.args pf (skip_of formData) wordTmp excelTmp outTmp)
                          (Some (process_cwd pf))])).
Proof.
  intros Hw He. split.
  - intros wordTmp excelTmp w1 c w2 Hs Hrun.
    destruct (analyze_try_block_runs pf _ _ _ _ _ _ Hrun) as (c' & Ht).
    rewrite (AnalyzeFacts.analyze_POST_staged pf _ _ _ _ _ _ _ _ _ Hw He Hs Ht). cbn.
    apply AnalyzeFacts.analyze_stage_Normal in Hs as (_ & _ & _ & Hev1).
    destruct (runPython_spawns _ _ _ _ _ Hrun) as (spawns & Hev2 & Hshape).
    exists spawns. split; [|exact Hshape].
    now rewrite Hev2, Hev1, <- !app_assoc.
  - intros wordTmp excelTmp outTmp w1 c w2 Hs Hrun.
    pose proof (generate_try_block_reads _ _ _ _ _ _ _ Hrun) as Hreads.
    destruct (Generate.try_block pf (skip_of formData) wordTmp excelTmp outTmp w1)
      as [c' w3] eqn:Ht.
    rewrite (GenerateFacts.generate_POST_staged pf _ _ _ _ _ _ _ _ _ _ Hw He Hs Ht).
    cbn in Hreads |- *. subst w3.
    apply GenerateFacts.generate_stage_Normal in Hs as (_ & _ & _ & _ & Hev1).
    destruct (runPython_spawns _ _ _ _ _ Hrun) as (spawns & Hev2 & Hshape).
    exists spawns. split; [|exact Hshape].
    destruct (class_of_run pf c); cbn; rewrite Hev2, Hev1, <- !app_assoc; reflexivity.
Qed.

End EffectOrder.

(** Only [py] exists: generate starts [python], then [py], reads the
    output file and removes its three files. *)
Lemma staged_request_effects_in_order_witness :
  events (snd (Generate.POST (Samples.platform (Samples.only_py Samples.ok_text))
                 (Samples.form "true") Samples.world0)) =
  [EvCreate "/tmp/tmp-0.docx"; EvWriteFile "/tmp/tmp-0.docx";
   EvCreate "/tmp/tmp-1.xlsx"; EvWriteFile "/tmp/tmp-1.xlsx";
   EvCreate "/tmp/tmp-2.xlsx";
   EvSpawn "python"
     ["/srv/reporter/processor/main.py"; "generate"; "--word"; "/tmp/tmp-0.docx";
      "--excel"; "/tmp/tmp-1.xlsx"; "--out"; "/tmp/tmp-2.xlsx"; "--skip-validation"]
     (Some "/srv/reporter");
   EvSpawn "py"
     ["/srv/reporter/processor/main.py"; "generate"; "--word"; "/tmp/tmp-0.docx";
      "--excel"; "/tmp/tmp-1.xlsx"; "--out"; "/tmp/tmp-2.xlsx"; "--skip-validation"]
     (Some "/srv/reporter");
   EvReadFile "/tmp/tmp-2.xlsx";
   EvRemove "/tmp/tmp-0.docx"; EvRemove "/tmp/tmp-1.xlsx"; EvRemove "/tmp/tmp-2.xlsx"]
  ∧ ∃ spawns,
      events (snd (Analyze.POST (Samples.platform (Samples.only_py Samples.ok_text))
                     (Samples.form "true") Samples.world0)) =
      [EvCreate "/tmp/tmp-0.docx"; EvWriteFile "/tmp/tmp-0.docx";
       EvCreate "/tmp/tmp-1.xlsx"; EvWriteFile "/tmp/tmp-1.xlsx"]
      ++ spawns ++ [EvRemove "/tmp/tmp-0.docx"; EvRemove "/tmp/tmp-1.xlsx"].
Proof.
  set (pf := Samples.platform (Samples.only_py Samples.ok_text)).
  destruct (staged_request_effects_in_order pf (Samples.form "true")
              Samples.docx Samples.xlsx Samples.world0 eq_refl eq_refl) as [Ha Hg].
  split.
  - set (w1 := snd (Generate.stage pf Samples.docx Samples.xlsx Samples.world0)).
    set (run := Python.runPython pf
                  (Generate.args pf true "/tmp/tmp-0.docx" "/tmp/tmp-1.xlsx" "/tmp/tmp-2.xlsx")
                  (Some (process_cwd pf)) w1).
    destruct (Hg "/tmp/tmp-0.docx" "/tmp/tmp-1.xlsx" "/tmp/tmp-2.xlsx" w1
                (fst run) (snd run)) as (spawns & Hev & [-> | ->]);
      [vm_compute; reflexivity | vm_compute; reflexivity | |].
    + exfalso. vm_compute in Hev. discriminate Hev.
    + rewrite Hev. vm_compute. reflexivity.
  - set (w1 := snd (Analyze.stage pf Samples.docx Samples.xlsx Samples.world0)).
    set (run := Python.runPython pf
                  (Analyze.args pf true "/tmp/tmp-0.docx" "/tmp/tmp-1.xlsx")
                  (Some (process_cwd pf)) w1).
    destruct (Ha "/tmp/tmp-0.docx" "/tmp/tmp-1.xlsx" w1 (fst run) (snd run))
      as (spawns & Hev & _);
      [vm_compute; reflexivity | vm_compute; reflexivity |].
    exists spawns. exact Hev.
Defined.

(** ** What the answers say about the subprocess *)

Section Answers.
Import Python PythonFacts.
Context (pf : Platform).

Lemma String_of_wrapped (details : string) :
  String_of_error (Error ("Failed to start Python: " +:+ details))
  = "Error: Failed to start Python: " +:+ details.
Proof. reflexivity. Qed.

(** X5.  When the interpreter cannot be started, and the failure is not
    one that is retried (it is not ENOENT, or the command already is
    [py]), both endpoints answer 500 and the details of the answer are
    [Error: Failed to start Python: ] followed by the message of the
    failure. *)
Theorem start_failure_is_answered_with_prefix (formData : FormData)
    (word excel : File) (w : World) (e : JsError) :
  formData_get formData "word" = Some (FormFile word) →
  formData_get formData "excel" = Some (FormFile excel) →
  ¬ (error_code e = Some "ENOENT" ∧ configured pf ≠ "py") →
  (∀ wordTmp excelTmp w1 fs,
     Analyze.stage pf word excel w = (Normal (wordTmp, excelTmp), w1) →
     child_process pf (configured pf)
       (Analyze.args pf (skip_of formData) wordTmp excelTmp)
       (Some (process_cwd pf)) (child_env pf) (files w1) = (ChildError e, fs) →
     fst (Analyze.POST pf formData w) =
       Normal (NextResponse_json
                 (JObj [("error", JStr "Failed to analyze report.");
                        ("details",
                         JStr ("Error: Failed to start Python: " +:+ error_message e))])
                 500))
  ∧ (∀ wordTmp excelTmp outTmp w1 fs,
       Generate.stage pf word excel w = (Normal (wordTmp, excelTmp, outTmp), w1) →
       child_process pf (configured pf)
         (Generate.args pf (skip_of formData) wordTmp excelTmp outTmp)
         (Some (process_cwd pf)) (child_env pf) (files w1) = (ChildError e, fs) →
       fst (Generate.POST pf formData w) =
         Normal (NextResponse_json
                   (JObj [("error", JStr "Failed to generate report.");
                          ("details",
                           JStr ("Error: Failed to start Python: " +:+ error_message e))])
                   500)).
Proof.
  intros Hw He Hno.
  assert (Hr : isEnoent e && negb (String.eqb (configured pf) "py") = false).
  { destruct (isEnoent e && negb (String.eqb (configured pf) "py")) eqn:Hr;
      [|reflexivity].
    apply retry_condition in Hr. contradiction. }
  split.
  - intros wordTmp excelTmp w1 fs Hs Hc.
    pose proof (runPython_wrap pf _ _ _ _ _ Hc Hr) as Hrun.
    pose proof (AnalyzeFacts.analyze_try_block_Throw pf _ _ _ _ _ _ Hrun) as Ht.
    now rewrite (AnalyzeFacts.analyze_POST_staged pf _ _ _ _ _ _ _ _ _ Hw He Hs Ht).
  - intros wordTmp excelTmp outTmp w1 fs Hs Hc.
    pose proof (runPython_wrap pf _ _ _ _ _ Hc Hr) as Hrun.
    pose proof (GenerateFacts.generate_try_block_Throw pf _ _ _ _ _ _ _ Hrun) as Ht.
    now rewrite (GenerateFacts.generate_POST_staged pf _ _ _ _ _ _ _ _ _ _ Hw He Hs Ht).
Qed.

(** X6.  When the first start fails with ENOENT, the command is not [py],
    and the start of [py] fails too, the failure of [py] is thrown as it
    is: both endpoints answer 500 with the text of that error as details,
    without the prefix [Failed to start Python: ]. *)
Theorem retry_failure_is_answered_as_it_is (formData : FormData)
    (word excel : File) (w : World) (e e2 : JsError) :
  formData_get formData "word" = Some (FormFile word) →
  formData_get formData "excel" = Some (FormFile excel) →
  error_code e = Some "ENOENT" → configured pf ≠ "py" →
  (∀ wordTmp excelTmp w1 fs fs2,
     Analyze.stage pf word excel w = (Normal (wordTmp, excelTmp), w1) →
     child_process pf (configured pf)
       (Analyze.args pf (skip_of formData) wordTmp excelTmp)
       (Some (process_cwd pf)) (child_env pf) (files w1) = (ChildError e, fs) →
     child_process pf "py"
       (Analyze.args pf (skip_of formData) wordTmp excelTmp)
       (Some (process_cwd pf)) (child_env pf) fs = (ChildError e2, fs2) →
     fst (Analyze.POST pf formData w) =
       Normal (NextResponse_json
                 (JObj [("error", JStr "Failed to analyze report.");
                        ("details", JStr (String_of_error e2))])
                 500))
  ∧ (∀ wordTmp excelTmp outTmp w1 fs fs2,
       Generate.stage pf word excel w = (Normal (wordTmp, excelTmp, outTmp), w1) →
       child_process pf (configured pf)
         (Generate.args pf (skip_of formData) wordTmp excelTmp outTmp)
         (Some (process_cwd pf)) (child_env pf) (files w1) = (ChildError e, fs) →
       child_process pf "py"
         (Generate.args pf (skip_of formData) wordTmp excelTmp outTmp)
         (Some (process_cwd pf)) (child_env pf) fs = (ChildError e2, fs2) →
       fst (Generate.POST pf formData w) =
         Normal (NextResponse_json
                   (JObj [("error", JStr "Failed to generate report.");
                          ("details", JStr (String_of_error e2))])
                   500)).
Proof.
  intros Hw He Hcode Hpy.
  assert (Hr : isEnoent e && negb (String.eqb (configured pf) "py") = true)
    by now apply retry_condition.
  split.
  - intros wordTmp excelTmp w1 fs fs2 Hs Hc Hc2.
    pose proof (runPython_retry pf _ _ _ _ _ Hc Hr) as Hrun.
    rewrite spawnPython_eq in Hrun. cbn [files spawned] in Hrun. rewrite Hc2 in Hrun.
    pose proof (AnalyzeFacts.analyze_try_block_Throw pf _ _ _ _ _ _ Hrun) as Ht.
    now rewrite (AnalyzeFacts.analyze_POST_staged pf _ _ _ _ _ _ _ _ _ Hw He Hs Ht).
  - intros wordTmp excelTmp outTmp w1 fs fs2 Hs Hc Hc2.
    pose proof (runPython_retry pf _ _ _ _ _ Hc Hr) as Hrun.
    rewrite spawnPython_eq in Hrun. cbn [files spawned] in Hrun. rewrite Hc2 in Hrun.
    pose proof (GenerateFacts.generate_try_block_Throw pf _ _ _ _ _ _ _ Hrun) as Ht.
    now rewrite (GenerateFacts.generate_POST_staged pf _ _ _ _ _ _ _ _ _ _ Hw He Hs Ht).
Qed.

(** X7.  Analyze answers with the payload of the subprocess unchanged,
    200 when its status is the string [ok] and 422 otherwise. *)
Theorem analyze_answers_with_the_payload (formData : FormData) (word excel : File)
    (w w1 w2 : World) (wordTmp excelTmp : string) (result : PythonResult)
    (payload : JSON) (st : option JSON) :
  formData_get formData "word" = Some (FormFile word) →
  formData_get formData "excel" = Some (FormFile excel) →
  Analyze.stage pf word excel w = (Normal (wordTmp, excelTmp), w1) →
  runPython pf (Analyze.args pf (skip_of formData) wordTmp excelTmp)
    (Some (process_cwd pf)) w1 = (Normal result, w2) →
  truthy (trim (stdout result)) = true →
  JSON_parse pf (stdout result) = inr payload →
  get payload "status" = Normal st →
  (st = Some (JStr "ok") →
   fst (Analyze.POST pf formData w) = Normal (NextResponse_json payload 200))
  ∧ (st ≠ Some (JStr "ok") →
     fst (Analyze.POST pf formData w) = Normal (NextResponse_json payload 422)).
Proof.
  intros Hw He Hs Hrun Hb Hp Hg.
  pose proof (AnalyzeFacts.analyze_try_block_payload pf _ _ _ _ _ _ _ _ Hrun Hb Hp Hg) as Ht.
  rewrite (AnalyzeFacts.analyze_POST_staged pf _ _ _ _ _ _ _ _ _ Hw He Hs Ht). cbn.
  split.
  - intros ->. reflexivity.
  - intros Hne. destruct st as [[| | |s| |]|]; try reflexivity.
    cbn. destruct (String.eqb s "ok") eqn:E; [|reflexivity].
    apply String.eqb_eq in E. subst. contradiction.
Qed.

End Answers.

(** The interpreter may not be executed: EACCES is not retried. *)
Lemma start_failure_is_answered_with_prefix_witness :
  fst (Analyze.POST (Samples.platform Samples.not_executable)
         (Samples.form "false") Samples.world0) =
    Normal (NextResponse_json
              (JObj [("error", JStr "Failed to analyze report.");
                     ("details",
                      JStr "Error: Failed to start Python: spawn python EACCES")])
              500)
  ∧ fst (Generate.POST (Samples.platform Samples.not_executable)
           (Samples.form "false") Samples.world0) =
    Normal (NextResponse_json
              (JObj [("error", JStr "Failed to generate report.");
                     ("details",
                      JStr "Error: Failed to start Python: spawn python EACCES")])
              500).
Proof.
  set (pf := Samples.platform Samples.not_executable).
  destruct (start_failure_is_answered_with_prefix pf (Samples.form "false")
              Samples.docx Samples.xlsx Samples.world0
              (mkError "Error" "spawn python EACCES" (Some "EACCES")) eq_refl eq_refl)
    as [Ha Hg]; [intros [Hcode _]; discriminate Hcode|].
  split.
  - apply (Ha "/tmp/tmp-0.docx" "/tmp/tmp-1.xlsx"
             (snd (Analyze.stage pf Samples.docx Samples.xlsx Samples.world0))
             (files (snd (Analyze.stage pf Samples.docx Samples.xlsx Samples.world0))));
      vm_compute; reflexivity.
  - apply (Hg "/tmp/tmp-0.docx" "/tmp/tmp-1.xlsx" "/tmp/tmp-2.xlsx"
             (snd (Generate.stage pf Samples.docx Samples.xlsx Samples.world0))
             (files (snd (Generate.stage pf Samples.docx Samples.xlsx Samples.world0))));
      vm_compute; reflexivity.
Defined.

(** No interpreter of any name: the answer names [py], the command of the
    retry, and has no prefix. *)
Lemma retry_failure_is_answered_as_it_is_witness :
  fst (Analyze.POST (Samples.platform Samples.no_interpreter)
         (Samples.form "false") Samples.world0) =
    Normal (NextResponse_json
              (JObj [("error", JStr "Failed to analyze report.");
                     ("details", JStr "Error: spawn py ENOENT")])
              500)
  ∧ fst (Generate.POST (Samples.platform Samples.no_interpreter)
           (Samples.form "false") Samples.world0) =
    Normal (NextResponse_json
              (JObj [("error", JStr "Failed to generate report.");
                     ("details", JStr "Error: spawn py ENOENT")])
              500).
Proof.
  set (pf := Samples.platform Samples.no_interpreter).
  destruct (retry_failure_is_answered_as_it_is pf (Samples.form "false")
              Samples.docx Samples.xlsx Samples.world0
              (mkError "Error" "spawn python ENOENT" (Some "ENOENT"))
              (mkError "Error" "spawn py ENOENT" (Some "ENOENT"))
              eq_refl eq_refl eq_refl)
    as [Ha Hg]; [discriminate|].
  split.
  - apply (Ha "/tmp/tmp-0.docx" "/tmp/tmp-1.xlsx"
             (snd (Analyze.stage pf Samples.docx Samples.xlsx Samples.world0))
             (files (snd (Analyze.stage pf Samples.docx Samples.xlsx Samples.world0)))
             (files (snd (Analyze.stage pf Samples.docx Samples.xlsx Samples.world0))));
      vm_compute; reflexivity.
  - apply (Hg "/tmp/tmp-0.docx" "/tmp/tmp-1.xlsx" "/tmp/tmp-2.xlsx"
             (snd (Generate.stage pf Samples.docx Samples.xlsx Samples.world0))
             (files (snd (Generate.stage pf Samples.docx Samples.xlsx Samples.world0)))
             (files (snd (Generate.stage pf Samples.docx Samples.xlsx Samples.world0))));
      vm_compute; reflexivity.
Defined.

(** A blocked gate and a passed one, both answered with the payload. *)
Lemma analyze_answers_with_the_payload_witness :
  fst (Analyze.POST (Samples.platform (Samples.printing_worker Samples.blocked_text "" 1))
         (Samples.form "false") Samples.world0)
    = Normal (NextResponse_json Samples.blocked_payload 422)
  ∧ fst (Analyze.POST (Samples.platform (Samples.printing_worker Samples.ok_text "" 0))
           (Samples.form "false") Samples.world0)
    = Normal (NextResponse_json Samples.ok_payload 200).
Proof.
  split.
  - set (pf := Samples.platform (Samples.printing_worker Samples.blocked_text "" 1)).
    set (w1 := snd (Analyze.stage pf Samples.docx Samples.xlsx Samples.world0)).
    set (run := Python.runPython pf
                  (Analyze.args pf false "/tmp/tmp-0.docx" "/tmp/tmp-1.xlsx")
                  (Some (process_cwd pf)) w1).
    destruct (analyze_answers_with_the_payload pf (Samples.form "false")
                Samples.docx Samples.xlsx Samples.world0 w1 (snd run)
                "/tmp/tmp-0.docx" "/tmp/tmp-1.xlsx"
                (mkPythonResult Samples.blocked_text "" (Some 1%Z))
                Samples.blocked_payload (Some (JStr "validation_error")))
      as [_ H]; [vm_compute; reflexivity .. |].
    apply H. discriminate.
  - set (pf := Samples.platform (Samples.printing_worker Samples.ok_text "" 0)).
    set (w1 := snd (Analyze.stage pf Samples.docx Samples.xlsx Samples.world0)).
    set (run := Python.runPython pf
                  (Analyze.args pf false "/tmp/tmp-0.docx" "/tmp/tmp-1.xlsx")
                  (Some (process_cwd pf)) w1).
    destruct (analyze_answers_with_the_payload pf (Samples.form "false")
                Samples.docx Samples.xlsx Samples.world0 w1 (snd run)
                "/tmp/tmp-0.docx" "/tmp/tmp-1.xlsx"
                (mkPythonResult Samples.ok_text "" (Some 0%Z))
                Samples.ok_payload (Some (JStr "ok")))
      as [H _]; [vm_compute; reflexivity .. |].
    apply H. reflexivity.
Defined.

(** ** Output that is only white space *)

Lemma append_empty_r (s : string) : s +:+ "" = s.
Proof.
  induction s as [|c s IH]; [reflexivity|].
  change (String c s +:+ "") with (String c (s +:+ "")). now rewrite IH.
Qed.

Lemma encode_app (a b : list N) : encode (a ++ b) = encode a +:+ encode b.
Proof.
  induction a as [|cp a IH]; [reflexivity|].
  cbn [app encode fold_right]. fold (encode (a ++ b)) (encode a).
  now rewrite IH, append_assoc.
Qed.

(** Bytes that are one white space character are the encoding of one. *)
Lemma white_cases (bytes : string) :
  white bytes = true → ∃ cp, cp ∈ white_space ∧ bytes = utf8 cp.
Proof.
  unfold white. rewrite existsb_exists. intros (w & Hin & Heq).
  apply String.eqb_eq in Heq. subst w.
  apply in_map_iff in Hin as (cp & <- & Hin). exists cp. split; [|reflexivity].
  now apply list_elem_of_In.
Qed.

(** [trimStart] steps over the encoding of a white space character. *)
Lemma trimStart_utf8 (cp : N) (rest : string) :
  cp ∈ white_space → trimStart (utf8 cp +:+ rest) = trimStart rest.
Proof.
  unfold white_space. rewrite !elem_of_cons, elem_of_nil.
  intros H. repeat (destruct H as [-> | H]; [vm_compute; reflexivity|]). destruct H.
Qed.

Lemma trimStart_encode (chars : list N) (rest : string) :
  Forall (fun cp => cp ∈ white_space) chars →
  trimStart (encode chars +:+ rest) = trimStart rest.
Proof.
  induction 1 as [|cp chars Hcp _ IH]; [reflexivity|].
  cbn [encode fold_right]. fold (encode chars).
  now rewrite append_assoc, trimStart_utf8.
Qed.

(** What [trimStart] removes is white space, character by character. *)
Lemma trimStart_removes (s : string) :
  ∃ chars, Forall (fun cp => cp ∈ white_space) chars
           ∧ s = encode chars +:+ trimStart s.
Proof.
  enough (H : ∀ n s, (String.length s ≤ n)%nat →
                ∃ chars, Forall (fun cp => cp ∈ white_space) chars
                         ∧ s = encode chars +:+ trimStart s)
    by exact (H _ s (le_n _)).
  clear s. induction n as [|n IH]; intros s Hlen.
  { destruct s; [|cbn in Hlen; lia]. now exists []. }
  assert (Hstep : ∀ bytes rest,
            white bytes = true → (String.length rest ≤ n)%nat →
            ∃ chars, Forall (fun cp => cp ∈ white_space) chars
                     ∧ bytes +:+ rest = encode chars +:+ trimStart rest).
  { intros bytes rest (cp & Hcp & ->)%white_cases Hrest.
    destruct (IH rest Hrest) as (chars & Hall & Heq).
    exists (cp :: chars). split; [now constructor|].
    cbn [encode fold_right]. fold (encode chars).
    now rewrite append_assoc, <- Heq. }
  destruct s as [|a [|b [|c r3]]]; cbn [trimStart].
  - now exists [].
  - destruct (white (String a "")) eqn:E1;
      [apply (Hstep (String a "") ""); [assumption | cbn; lia] | now exists []].
  - destruct (white (String a "")) eqn:E1;
      [apply (Hstep (String a "") (String b "")); [assumption | cbn in *; lia]|].
    destruct (white (String a (String b ""))) eqn:E2;
      [apply (Hstep (String a (String b "")) ""); [assumption | cbn; lia]
      | now exists []].
  - destruct (white (String a "")) eqn:E1;
      [apply (Hstep (String a "") (String b (String c r3))); [assumption | cbn in *; lia]|].
    destruct (white (String a (String b ""))) eqn:E2;
      [apply (Hstep (String a (String b "")) (String c r3)); [assumption | cbn in *; lia]|].
    destruct (white (String a (String b (String c "")))) eqn:E3;
      [apply (Hstep (String a (String b (String c ""))) r3); [assumption | cbn in *; lia]
      | now exists []].
Qed.

Lemma trimStart_empty (s : string) :
  trimStart s = EmptyString ↔ white_space_only s.
Proof.
  split.
  - intros H. destruct (trimStart_removes s) as (chars & Hall & Heq).
    rewrite H, append_empty_r in Heq. now exists chars.
  - intros (chars & Hall & ->).
    rewrite <- (append_empty_r (encode chars)). now rewrite trimStart_encode.
Qed.

Lemma trimEnd_empty (s : string) :
  trimEnd s = EmptyString ↔ trimStart s = EmptyString.
Proof.
  destruct s as [|c s]; [easy|].
  cbn [trimEnd]. unfold blank.
  destruct (trimStart (String c s)); split; (reflexivity || discriminate).
Qed.

Lemma trim_empty (s : string) :
  trim s = EmptyString ↔ white_space_only s.
Proof.
  unfold trim. rewrite trimEnd_empty. split.
  - intros (chars2 & Hall2 & Heq2)%trimStart_empty.
    destruct (trimStart_removes s) as (chars1 & Hall1 & Heq1).
    exists (chars1 ++ chars2). split; [now apply Forall_app|].
    now rewrite encode_app, <- Heq2.
  - intros H. apply trimStart_empty in H. now rewrite H.
Qed.

Section BlankOutput.
Import Python PythonFacts.
Context (pf : Platform).

(** X8.  The output of the subprocess counts as missing exactly when it
    consists of white space only: of the characters [trim] strips, those
    above U+00FF such as the byte order mark included, and the empty
    output too.  Both endpoints then answer 500 with the error [Python
    worker did not return output.] and stderr as details, whatever
    [JSON.parse] would make of the output. *)
Theorem blank_output_is_answered_with_stderr (formData : FormData)
    (word excel : File) (w : World) (result : PythonResult) :
  formData_get formData "word" = Some (FormFile word) →
  formData_get formData "excel" = Some (FormFile excel) →
  (truthy (trim (stdout result)) = false ↔ white_space_only (stdout result))
  ∧ (white_space_only (stdout result) →
     (∀ wordTmp excelTmp w1 w2,
        Analyze.stage pf word excel w = (Normal (wordTmp, excelTmp), w1) →
        runPython pf (Analyze.args pf (skip_of formData) wordTmp excelTmp)
          (Some (process_cwd pf)) w1 = (Normal result, w2) →
        fst (Analyze.POST pf formData w) =
          Normal (NextResponse_json
                    (JObj [("error", JStr "Python worker did not return output.");
                           ("details", JStr (stderr result))])
                    500))
     ∧ (∀ wordTmp excelTmp outTmp w1 w2,
          Generate.stage pf word excel w = (Normal (wordTmp, excelTmp, outTmp), w1) →
          runPython pf (Generate.args pf (skip_of formData) wordTmp excelTmp outTmp)
            (Some (process_cwd pf)) w1 = (Normal result, w2) →
          fst (Generate.POST pf formData w) =
            Normal (NextResponse_json
                      (JObj [("error", JStr "Python worker did not return output.");
                             ("details", JStr (stderr result))])
                      500))).
Proof.
  intros Hw He.
  assert (Hiff : truthy (trim (stdout result)) = false
                 ↔ white_space_only (stdout result)).
  { rewrite <- trim_empty. destruct (trim (stdout result)); cbn; split; congruence. }
  split; [exact Hiff|]. intros Hws. apply Hiff in Hws. split.
  - intros wordTmp excelTmp w1 w2 Hs Hrun.
    pose proof (AnalyzeFacts.analyze_try_block_blank pf _ _ _ _ _ _ Hrun Hws) as Ht.
    now rewrite (AnalyzeFacts.analyze_POST_staged pf _ _ _ _ _ _ _ _ _ Hw He Hs Ht).
  - intros wordTmp excelTmp outTmp w1 w2 Hs Hrun.
    pose proof (GenerateFacts.generate_try_block_blank pf _ _ _ _ _ _ _ Hrun Hws) as Ht.
    now rewrite (GenerateFacts.generate_POST_staged pf _ _ _ _ _ _ _ _ _ _ Hw He Hs Ht).
Qed.

End BlankOutput.

(** The worker prints a byte order mark and a line feed, and a traceback
    on stderr. *)
Lemma blank_output_is_answered_with_stderr_witness :
  fst (Analyze.POST (Samples.platform
                       (Samples.printing_worker Samples.bom_text "Traceback" 1))
         (Samples.form "false") Samples.world0) =
    Normal (NextResponse_json
              (JObj [("error", JStr "Python worker did not return output.");
                     ("details", JStr "Traceback")])
              500).
Proof.
  set (pf := Samples.platform (Samples.printing_worker Samples.bom_text "Traceback" 1)).
  destruct (blank_output_is_answered_with_stderr pf (Samples.form "false")
              Samples.docx Samples.xlsx Samples.world0
              (mkPythonResult Samples.bom_text "Traceback" (Some 1%Z))
              eq_refl eq_refl) as [_ H].
  destruct H as [Ha _].
  { exists [0xFEFF; 0xA]%N. split; [|reflexivity].
    repeat constructor; unfold white_space; rewrite !elem_of_cons; tauto. }
  set (w1 := snd (Analyze.stage pf Samples.docx Samples.xlsx Samples.world0)).
  set (run := Python.runPython pf
                (Analyze.args pf false "/tmp/tmp-0.docx" "/tmp/tmp-1.xlsx")
                (Some (process_cwd pf)) w1).
  apply (Ha "/tmp/tmp-0.docx" "/tmp/tmp-1.xlsx" w1 (snd run)); vm_compute; reflexivity.
Defined.

(** * Properties of the page *)

(** ** The calls of the two handlers *)

Ltac ui_step fetch :=
  match goal with
  | |- context [fetch ?u ?f] => destruct (fetch u f) as [?|?] eqn:?
  | |- context [Client.json ?r] => destruct (Client.json r) as [?|?] eqn:?
  | |- context [Client.truthy_field ?d ?k] =>
      destruct (Client.truthy_field d k) as [[?|]|?] eqn:?
  | |- context [Client.ok ?r] => destruct (Client.ok r) eqn:?
  | |- context [Client.blob ?r] => destruct (Client.blob r) as [?|?] eqn:?
  | |- context [Client.headers_get ?h ?n] => destruct (Client.headers_get h n) eqn:?
  | |- context [Client.match_filename ?t] => destruct (Client.match_filename t) eqn:?
  | |- context [ToString ?v] => destruct (ToString v) eqn:?
  end; cbn [fst snd app negb ToString].

Ltac ui_unfold :=
  unfold Client.do_fetch, Client.read_data, Client.take_report,
    Client.error_message_of, Client.template;
  unfold Client.try_catch_finally, Client.try_catch, Client.bind, Client.call,
    Client.lift, Client.ret;
  cbn [fst snd app negb ToString].

Section HandlerCalls.
Import Client.
Context (fetch : string → FormData → Completion FetchResponse).

(** X9.  [handleAnalyze] with both files selected: it sets the status to
    analyzing, clears the banner and the analysis, posts one form to
    [/api/analyze], then stores at most one report and shows at most one
    message, and last sets the status to idle.  When [fetch] rejects the
    message is the general one and no report is stored; a response that
    is not ok always gives a message; an ok response gives none, or the
    general one.  Without one of the files it does nothing. *)
Theorem handleAnalyze_calls (s : State) :
  ((wordFile s = None ∨ excelFile s = None) → handleAnalyze fetch s = [])
  ∧ ∀ word excel,
      wordFile s = Some word → excelFile s = Some excel →
      let formData := Page.formData_of word excel (skipValidation s) in
      ∃ report banner,
        handleAnalyze fetch s =
          [SetStatus Page.analyzing; SetApiError None; SetAnalysis None;
           Fetch "/api/analyze" formData]
          ++ match report with Some r => [SetAnalysis (Some r)] | None => [] end
          ++ match banner with Some m => [SetApiError (Some m)] | None => [] end
          ++ [SetStatus Page.idle]
        ∧ after (handleAnalyze fetch s) s =
            mkState (wordFile s) (excelFile s) report Page.idle banner (skipValidation s)
        ∧ (∀ e, fetch "/api/analyze" formData = Throw e →
             report = None
             ∧ banner = Some "Analyze failed. Please check the server logs.")
        ∧ (∀ response, fetch "/api/analyze" formData = Normal response →
             ok response = false → banner ≠ None)
        ∧ (∀ response, fetch "/api/analyze" formData = Normal response →
             ok response = true →
             banner = None
             ∨ banner = Some "Analyze failed. Please check the server logs.").
Proof.
  split.
  - unfold handleAnalyze. intros [-> | ->]; [reflexivity|].
    now destruct (wordFile s).
  - intros word excel Hw He formData. unfold handleAnalyze. rewrite Hw, He.
    fold formData. ui_unfold.
    repeat ui_step fetch;
      match goal with
      | |- ∃ _ _, [_; _; _; _; SetAnalysis (Some ?r); SetApiError (Some ?m); _] = _ ∧ _ =>
          exists (Some r), (Some m)
      | |- ∃ _ _, [_; _; _; _; SetAnalysis (Some ?r); _] = _ ∧ _ =>
          exists (Some r), None
      | |- ∃ _ _, [_; _; _; _; SetApiError (Some ?m); _] = _ ∧ _ =>
          exists None, (Some m)
      | |- ∃ _ _, [_; _; _; _; _] = _ ∧ _ =>
          exists None, None
      end;
      (split; [reflexivity|]);
      (split; [unfold after; cbn [fold_left apply wordFile excelFile analysis status
                                  apiError skipValidation];
               now rewrite ?Hw, ?He|]);
      repeat split; intros; try congruence; try discriminate; auto.
Qed.

(** X10.  [handleGenerate] with both files selected: it sets the status
    to generating, clears the banner, posts one form to [/api/generate],
    and then either downloads one file, leaving banner and analysis as
    they are, or shows one message, after storing at most one report; last
    it sets the status to idle.  It downloads exactly when the response is
    ok and its blob can be read: an ok response whose blob cannot be read
    gives the general message and no download, a response that is not ok
    gives no download either.  It never clears the analysis.  Without one
    of the files it does nothing. *)
Theorem handleGenerate_calls (s : State) :
  ((wordFile s = None ∨ excelFile s = None) → handleGenerate fetch s = [])
  ∧ ∀ word excel,
      wordFile s = Some word → excelFile s = Some excel →
      let formData := Page.formData_of word excel (skipValidation s) in
      ∃ rest,
        handleGenerate fetch s =
          [SetStatus Page.generating; SetApiError None; Fetch "/api/generate" formData]
          ++ rest ++ [SetStatus Page.idle]
        ∧ ((∃ filename bytes,
              rest = [Download filename bytes]
              ∧ after (handleGenerate fetch s) s =
                  mkState (wordFile s) (excelFile s) (analysis s) Page.idle None
                    (skipValidation s))
           ∨ (∃ report m,
                rest = match report with Some r => [SetAnalysis (Some r)] | None => [] end
                       ++ [SetApiError (Some m)]
                ∧ after (handleGenerate fetch s) s =
                    mkState (wordFile s) (excelFile s)
                      (match report with Some r => Some r | None => analysis s end)
                      Page.idle (Some m) (skipValidation s)))
        ∧ (∀ response bytes, fetch "/api/generate" formData = Normal response →
             ok response = true → blob response = Normal bytes →
             ∃ filename, rest = [Download filename bytes])
        ∧ (∀ response e, fetch "/api/generate" formData = Normal response →
             ok response = true → blob response = Throw e →
             rest = [SetApiError (Some "Generate failed. Please check the server logs.")])
        ∧ (∀ response, fetch "/api/generate" formData = Normal response →
             ok response = false → ∀ filename bytes, rest ≠ [Download filename bytes])
        ∧ (∀ e, fetch "/api/generate" formData = Throw e →
             rest = [SetApiError (Some "Generate failed. Please check the server logs.")]).
Proof.
  split.
  - unfold handleGenerate. intros [-> | ->]; [reflexivity|].
    now destruct (wordFile s).
  - intros word excel Hw He formData. unfold handleGenerate. rewrite Hw, He.
    fold formData. ui_unfold.
    repeat ui_step fetch;
      match goal with
      | |- ∃ _, [_; _; _; Download ?f ?b; _] = _ ∧ _ =>
          exists [Download f b]; split; [reflexivity|]; split;
          [left; exists f, b | ]
      | |- ∃ _, [_; _; _; SetAnalysis (Some ?r); SetApiError (Some ?m); _] = _ ∧ _ =>
          exists [SetAnalysis (Some r); SetApiError (Some m)];
          split; [reflexivity|]; split; [right; exists (Some r), m | ]
      | |- ∃ _, [_; _; _; SetApiError (Some ?m); _] = _ ∧ _ =>
          exists [SetApiError (Some m)];
          split; [reflexivity|]; split; [right; exists None, m | ]
      end;
      try (split; [reflexivity|]; unfold after;
           cbn [fold_left apply wordFile excelFile analysis status apiError
                skipValidation];
           now rewrite ?Hw, ?He);
      repeat split; intros; try congruence; try discriminate; eauto;
      try (simplify_eq;
           match goal with
           | H1 : blob ?r = _, H2 : blob ?r = _ |- _ =>
               rewrite H1 in H2; injection H2 as ->
           end; eexists; reflexivity);
      try (simplify_eq; reflexivity || congruence).
Qed.

End HandlerCalls.

(** The gate is blocked: the page ends idle, with the report of the answer
    as its analysis and the message for a blocked analysis. *)
Lemma handleAnalyze_calls_witness :
  Client.after
    (Client.handleAnalyze
       (PageSamples.server
          (Samples.platform (Samples.printing_worker Samples.blocked_text "" 1))
          Samples.world0)
       PageSamples.page)
    PageSamples.page
  = Client.mkState (Some Samples.docx) (Some Samples.xlsx)
      (Some (JObj [("reportMonth", JStr "2024-05")])) Page.idle
      (Some "Validation issues detected. Review the report below.") false.
Proof.
  destruct (handleAnalyze_calls
              (PageSamples.server
                 (Samples.platform (Samples.printing_worker Samples.blocked_text "" 1))
                 Samples.world0)
              PageSamples.page) as [_ H].
  destruct (H Samples.docx Samples.xlsx eq_refl eq_refl)
    as (report & banner & Hcalls & Hafter & _).
  rewrite Hafter. vm_compute in Hcalls.
  destruct report as [r|], banner as [m|]; try discriminate Hcalls.
  now injection Hcalls as -> ->.
Defined.

(** The worker writes the spreadsheet: the page downloads it and leaves
    its analysis as it was, the old banner cleared. *)
Lemma handleGenerate_calls_witness :
  Client.after
    (Client.handleGenerate
       (PageSamples.server
          (Samples.platform (Samples.writing_worker Samples.ok_text 0))
          Samples.world0)
       PageSamples.page_after_analysis)
    PageSamples.page_after_analysis
  = Client.mkState (Some Samples.docx) (Some Samples.xlsx)
      (Some (JObj [("reportMonth", JStr "2024-04")])) Page.idle None false.
Proof.
  destruct (handleGenerate_calls
              (PageSamples.server
                 (Samples.platform (Samples.writing_worker Samples.ok_text 0))
                 Samples.world0)
              PageSamples.page_after_analysis) as [_ H].
  destruct (H Samples.docx Samples.xlsx eq_refl eq_refl)
    as (rest & Hcalls & [(f & b & _ & Hafter) | (report & m & Hrest & _)] & _).
  - exact Hafter.
  - exfalso. subst rest. vm_compute in Hcalls.
    destruct report; discriminate Hcalls.
Defined.

(** ** The name of the download *)

Section DownloadName.
Import Client.

Lemma match_filename_eq (text : string) :
  match_filename text =
  match (match strip_prefix ("filename=" +:+ dq) text with
         | Some rest => group rest
         | None => None
         end) with
  | Some g => Some g
  | None =>
      match text with
      | EmptyString => None
      | String _ rest => match_filename rest
      end
  end.
Proof. destruct text; reflexivity. Qed.

Lemma strip_prefix_append (p rest : string) : strip_prefix p (p +:+ rest) = Some rest.
Proof.
  induction p as [|c p IH]; [now destruct rest|].
  change (String c p +:+ rest) with (String c (p +:+ rest)). cbn [strip_prefix].
  now rewrite Ascii.eqb_refl.
Qed.

Lemma strip_prefix_Some (p text rest : string) :
  strip_prefix p text = Some rest → text = p +:+ rest.
Proof.
  revert text. induction p as [|c p IH]; intros text; cbn [strip_prefix].
  - now intros [= ->].
  - destruct text as [|b text]; [discriminate|].
    destruct (Ascii.eqb c b) eqn:E; [|discriminate].
    apply Ascii.eqb_eq in E as ->. intros H. apply IH in H as ->. reflexivity.
Qed.

Lemma append_cons (c : ascii) (p x : string) :
  String c p +:+ x = String c (p +:+ x).
Proof. reflexivity. Qed.

Lemma match_filename_skip (c : ascii) (rest : string) :
  strip_prefix ("filename=" +:+ dq) (String c rest) = None →
  match_filename (String c rest) = match_filename rest.
Proof. intros H. rewrite match_filename_eq. now rewrite H. Qed.

Lemma lazy_to_quote_plain (g tail : string) :
  string_forallb plain g = true →
  lazy_to_quote (g +:+ String "034" tail) = Some g.
Proof.
  induction g as [|c g IH]; [reflexivity|].
  change (String c g +:+ String "034" tail) with (String c (g +:+ String "034" tail)).
  cbn [string_forallb lazy_to_quote]. unfold plain at 1.
  rewrite !andb_true_iff, !negb_true_iff. intros [[-> ->] Hg].
  now rewrite (IH Hg).
Qed.

Lemma lazy_to_quote_Some (s g : string) :
  lazy_to_quote s = Some g →
  string_forallb plain g = true ∧ ∃ tail, s = g +:+ String "034" tail.
Proof.
  revert g. induction s as [|c s IH]; intros g; cbn [lazy_to_quote]; [discriminate|].
  destruct (Ascii.eqb c "034") eqn:Eq.
  - intros [= <-]. apply Ascii.eqb_eq in Eq as ->. split; [reflexivity|].
    now exists s.
  - destruct (isLineTerminator c) eqn:El; [discriminate|].
    destruct (lazy_to_quote s) as [g'|]; [|discriminate].
    intros [= <-]. destruct (IH g' eq_refl) as (Hg & tail & ->).
    split; [|now exists tail].
    cbn [string_forallb]. unfold plain at 1. now rewrite Eq, El, Hg.
Qed.

(** X11.  The page finds the file name the generate handler sends: for a
    name that is not empty and has no double quote and no line break in
    it, matching the [Content-Disposition] value the handler builds gives
    the name back. *)
Theorem download_name_round_trip (filename : string) :
  filename ≠ EmptyString →
  string_forallb plain filename = true →
  match_filename (Generate.content_disposition filename) = Some filename.
Proof.
  intros Hne Hplain. unfold Generate.content_disposition.
  repeat (rewrite append_cons, match_filename_skip by reflexivity).
  rewrite <- append_assoc, match_filename_eq, strip_prefix_append.
  destruct filename as [|c rest]; [contradiction|].
  change (String c rest +:+ dq) with (String c (rest +:+ String "034" EmptyString)).
  cbn [string_forallb] in Hplain. unfold plain at 1 in Hplain.
  rewrite !andb_true_iff, !negb_true_iff in Hplain. destruct Hplain as [[_ Hl] Hrest].
  cbn [group]. now rewrite Hl, (lazy_to_quote_plain _ _ Hrest).
Qed.

(** X12.  Whatever the header is, a name the page finds in it is not
    empty, has no line break in it, and does stand in the header, between
    double quotes, after [filename=]. *)
Theorem matched_name_stands_in_header (text name : string) :
  match_filename text = Some name →
  name ≠ EmptyString
  ∧ string_forallb (fun c => negb (isLineTerminator c)) name = true
  ∧ ∃ before after,
      text = before +:+ "filename=" +:+ dq +:+ name +:+ dq +:+ after.
Proof.
  induction text as [|c text IH].
  - rewrite match_filename_eq. cbn. discriminate.
  - rewrite match_filename_eq.
    destruct (strip_prefix ("filename=" +:+ dq) (String c text)) as [rest|] eqn:Hp.
    + destruct (group rest) as [g|] eqn:Hg.
      * intros [= <-]. apply strip_prefix_Some in Hp. unfold group in Hg.
        destruct rest as [|b rest]; [discriminate|].
        destruct (isLineTerminator b) eqn:Hb; [discriminate|].
        destruct (lazy_to_quote rest) as [g'|] eqn:Hl; [|discriminate].
        injection Hg as <-. apply lazy_to_quote_Some in Hl as (Hplain & after & ->).
        split; [discriminate|]. split.
        -- cbn [string_forallb]. rewrite Hb. cbn [negb andb].
           clear -Hplain. induction g' as [|x g' IH]; [reflexivity|].
           cbn [string_forallb] in *. unfold plain at 1 in Hplain.
           rewrite !andb_true_iff, !negb_true_iff in Hplain.
           destruct Hplain as [[_ ->] Hrest]. cbn [negb andb]. now apply IH.
        -- exists EmptyString, after. rewrite Hp.
           change (EmptyString +:+ ?x) with x.
           rewrite append_assoc. do 2 f_equal.
      * intros H. destruct (IH H) as (Hne & Hlt & before & after & ->).
        split; [exact Hne|]. split; [exact Hlt|].
        now exists (String c before), after.
    + intros H. destruct (IH H) as (Hne & Hlt & before & after & ->).
      split; [exact Hne|]. split; [exact Hlt|].
      now exists (String c before), after.
Qed.

End DownloadName.

Lemma download_name_round_trip_witness :
  Client.match_filename (Generate.content_disposition "report_updated_2024-05.xlsx")
  = Some "report_updated_2024-05.xlsx".
Proof.
  apply download_name_round_trip; [discriminate | reflexivity].
Defined.

(** A month with a double quote in it: the page finds the part before the
    quote. *)
Lemma matched_name_stands_in_header_witness :
  ∃ before after,
    Generate.content_disposition ("report_updated_May" +:+ dq +:+ "24.xlsx")
    = before +:+ "filename=" +:+ dq +:+ "report_updated_May" +:+ dq +:+ after.
Proof.
  apply (matched_name_stands_in_header
           (Generate.content_disposition ("report_updated_May" +:+ dq +:+ "24.xlsx"))
           "report_updated_May").
  vm_compute. reflexivity.
Defined.

(** ** The page in front of the handlers *)

Section PageAndHandlers.
Import Client.
Context (fetch : string → FormData → Completion FetchResponse).

Lemma headers_get_download filename bytes :
  headers_get (headers (Generate.download filename bytes)) "Content-Disposition"
  = Some (Generate.content_disposition filename).
Proof.
  unfold headers_get, Generate.download. cbn [headers].
  rewrite !filter_cons, filter_nil. cbn [fst].
  repeat case_decide; try reflexivity;
    match goal with H : _ = _ |- _ => vm_compute in H; congruence
                  | H : _ ≠ _ |- _ => exfalso; apply H; vm_compute; reflexivity end.
Qed.

Lemma plain_download_name (text : string) :
  string_forallb plain text = true →
  string_forallb plain ("report_updated_" +:+ text +:+ ".xlsx") = true.
Proof.
  intros H. rewrite !string_forallb_append, H. reflexivity.
Qed.

(** X13.  The page downloads what the generate handler sends: when the
    response is the download of the handler, named after a month without
    double quote and line break, the page saves the bytes of the
    spreadsheet under the very name [report_updated_<month>.xlsx], shows
    no message and touches no analysis. *)
Theorem page_downloads_what_generate_sends (s : State) (word excel : File)
    (response : FetchResponse) (text : string) (bytes : Buffer) :
  wordFile s = Some word → excelFile s = Some excel →
  fetch "/api/generate" (Page.formData_of word excel (skipValidation s))
    = Normal response →
  received (Generate.download ("report_updated_" +:+ text +:+ ".xlsx") bytes) response →
  string_forallb plain text = true →
  handleGenerate fetch s =
    [SetStatus Page.generating; SetApiError None;
     Fetch "/api/generate" (Page.formData_of word excel (skipValidation s));
     Download ("report_updated_" +:+ text +:+ ".xlsx") bytes;
     SetStatus Page.idle].
Proof.
  intros Hw He Hfetch (Hok & Hheaders & _ & Hblob) Hplain.
  unfold handleGenerate. rewrite Hw, He. ui_unfold. rewrite Hfetch.
  cbn [fst snd app negb]. rewrite Hok. cbn [status Generate.download Z.leb andb negb].
  change ((200 <=? 200)%Z && (200 <=? 299)%Z) with true. cbn [negb].
  rewrite (Hblob bytes eq_refl). cbn [fst snd app].
  rewrite Hheaders, headers_get_download.
  rewrite download_name_round_trip;
    [reflexivity | now destruct text | now apply plain_download_name].
Qed.

End PageAndHandlers.

(** ** What the page shows of an answer *)

Lemma received_json (value : JSON) (st : Z) (c : Client.FetchResponse) :
  received (NextResponse_json value st) c →
  Client.ok c = ((200 <=? st) && (st <=? 299))%Z ∧ Client.json c = Normal value.
Proof. intros (Hok & _ & Hjson & _). split; [exact Hok | now apply Hjson]. Qed.

Section PageMessages.
Import Client.
Context (fetch : string → FormData → Completion FetchResponse).

(** X14.  A report in the answer of the analyze route reaches the page:
    when the answer is a JSON object with a truthy [report] and neither
    [error] nor [details], [handleAnalyze] stores that report; with a
    status from 200 to 299 it shows no message, with any other status the
    message that validation issues were detected. *)
Theorem analysis_report_reaches_the_page (s : State) (word excel : File)
    (response : FetchResponse) (fields : list (string * JSON)) (report : JSON)
    (st : Z) :
  wordFile s = Some word → excelFile s = Some excel →
  fetch "/api/analyze" (Page.formData_of word excel (skipValidation s))
    = Normal response →
  received (NextResponse_json (JObj fields) st) response →
  own_property "report" fields = Some report → truthy_json report = true →
  own_property "error" fields = None → own_property "details" fields = None →
  handleAnalyze fetch s =
    [SetStatus Page.analyzing; SetApiError None; SetAnalysis None;
     Fetch "/api/analyze" (Page.formData_of word excel (skipValidation s));
     SetAnalysis (Some report)]
    ++ (if ((200 <=? st) && (st <=? 299))%Z then []
        else [SetApiError
                (Some "Validation issues detected. Review the report below.")])
    ++ [SetStatus Page.idle].
Proof.
  intros Hw He Hfetch Hrec Hreport Htruthy Herror Hdetails.
  apply received_json in Hrec as [Hok Hjson].
  unfold handleAnalyze. rewrite Hw, He. ui_unfold. rewrite Hfetch.
  cbn [fst snd app]. rewrite Hjson, Hok. cbn [fst snd app].
  unfold truthy_field. cbn [truthy_json]. rewrite Hreport, Htruthy, Herror, Hdetails.
  cbn [fst snd app].
  destruct ((200 <=? st) && (st <=? 299))%Z; reflexivity.
Qed.

(** X15.  A blocked generation reaches the page: when the answer of the
    generate route has a status outside 200 to 299 and is a JSON object
    with a truthy [report] and neither [error] nor [details],
    [handleGenerate] stores that report, shows the message that the
    generation was blocked, and downloads nothing. *)
Theorem blocked_report_reaches_the_page (s : State) (word excel : File)
    (response : FetchResponse) (fields : list (string * JSON)) (report : JSON)
    (st : Z) :
  wordFile s = Some word → excelFile s = Some excel →
  fetch "/api/generate" (Page.formData_of word excel (skipValidation s))
    = Normal response →
  received (NextResponse_json (JObj fields) st) response →
  ((200 <=? st) && (st <=? 299))%Z = false →
  own_property "report" fields = Some report → truthy_json report = true →
  own_property "error" fields = None → own_property "details" fields = None →
  handleGenerate fetch s =
    [SetStatus Page.generating; SetApiError None;
     Fetch "/api/generate" (Page.formData_of word excel (skipValidation s));
     SetAnalysis (Some report);
     SetApiError (Some "Generation blocked. Review the validation report.");
     SetStatus Page.idle].
Proof.
  intros Hw He Hfetch Hrec Hst Hreport Htruthy Herror Hdetails.
  unfold handleGenerate. rewrite Hw, He.
  apply received_json in Hrec as [Hok Hjson].
  ui_unfold. rewrite Hfetch. cbn [fst snd app].
  rewrite Hok, Hst. cbn [negb].
  rewrite Hjson. cbn [fst snd app].
  unfold truthy_field. cbn [truthy_json]. rewrite Hreport, Htruthy, Herror, Hdetails.
  reflexivity.
Qed.

(** X16.  An answer [{error, details}] with a status outside 200 to 299,
    as the handlers send it for a failure: both page handlers show the
    error text, followed by [ Details: ] and the details unless these
    are empty, and store no report. *)
Theorem failure_answer_is_shown (s : State) (word excel : File)
    (response : FetchResponse) (message details : string) (st : Z) :
  wordFile s = Some word → excelFile s = Some excel →
  received (NextResponse_json
              (JObj [("error", JStr message); ("details", JStr details)]) st)
           response →
  ((200 <=? st) && (st <=? 299))%Z = false →
  message ≠ EmptyString →
  let banner :=
    message +:+ (if truthy details then " Details: " +:+ details else "") in
  (fetch "/api/analyze" (Page.formData_of word excel (skipValidation s))
     = Normal response →
   handleAnalyze fetch s =
     [SetStatus Page.analyzing; SetApiError None; SetAnalysis None;
      Fetch "/api/analyze" (Page.formData_of word excel (skipValidation s));
      SetApiError (Some banner); SetStatus Page.idle])
  ∧ (fetch "/api/generate" (Page.formData_of word excel (skipValidation s))
       = Normal response →
     handleGenerate fetch s =
       [SetStatus Page.generating; SetApiError None;
        Fetch "/api/generate" (Page.formData_of word excel (skipValidation s));
        SetApiError (Some banner); SetStatus Page.idle]).
Proof.
  intros Hw He [Hok Hjson]%received_json Hst Hmessage banner.
  rewrite Hst in Hok.
  assert (Hm : truthy message = true) by now destruct message.
  split; intros Hfetch.
  - unfold handleAnalyze. rewrite Hw, He. ui_unfold. rewrite Hfetch.
    cbn [fst snd app]. rewrite Hjson, Hok. cbn [fst snd app negb].
    unfold truthy_field.
    cbn [truthy_json own_property String.eqb Ascii.eqb Bool.eqb fst snd app].
    rewrite Hm. subst banner.
    destruct (truthy details); cbn [fst snd app ToString]; reflexivity.
  - unfold handleGenerate. rewrite Hw, He. ui_unfold. rewrite Hfetch.
    cbn [fst snd app]. rewrite Hok. cbn [fst snd app negb]. rewrite Hjson.
    cbn [fst snd app].
    unfold truthy_field.
    cbn [truthy_json own_property String.eqb Ascii.eqb Bool.eqb fst snd app].
    rewrite Hm. subst banner.
    destruct (truthy details); cbn [fst snd app ToString]; reflexivity.
Qed.

(** X17.  An answer that is not ok and whose body is no JSON object (JSON
    text of another kind, or text that is no JSON at all): both page
    handlers show their general message and store no report. *)
Theorem unreadable_answer_gives_general_message (s : State) (word excel : File)
    (response : FetchResponse) :
  wordFile s = Some word → excelFile s = Some excel →
  ok response = false →
  match json response with Normal (JObj _) => False | _ => True end →
  (fetch "/api/analyze" (Page.formData_of word excel (skipValidation s))
     = Normal response →
   handleAnalyze fetch s =
     [SetStatus Page.analyzing; SetApiError None; SetAnalysis None;
      Fetch "/api/analyze" (Page.formData_of word excel (skipValidation s));
      SetApiError (Some "Analyze failed. Please check the server logs.");
      SetStatus Page.idle])
  ∧ (fetch "/api/generate" (Page.formData_of word excel (skipValidation s))
       = Normal response →
     handleGenerate fetch s =
       [SetStatus Page.generating; SetApiError None;
        Fetch "/api/generate" (Page.formData_of word excel (skipValidation s));
        SetApiError (Some "Generate failed. Please check the server logs.");
        SetStatus Page.idle]).
Proof.
  intros Hw He Hok Hjson.
  split; intros Hfetch.
  - unfold handleAnalyze. rewrite Hw, He. ui_unfold. rewrite Hfetch.
    cbn [fst snd app]. rewrite Hok.
    destruct (json response) as [[| [|] | lit | text | xs | fields] | e];
      try contradiction; cbn [fst snd app negb truthy_field truthy_json];
      try reflexivity.
    + unfold truthy_field. cbn [truthy_json].
      destruct (negb (lit =? "0")%string); reflexivity.
    + unfold truthy_field. cbn [truthy_json].
      destruct (truthy text); reflexivity.
  - unfold handleGenerate. rewrite Hw, He. ui_unfold. rewrite Hfetch.
    cbn [fst snd app]. rewrite Hok.
    destruct (json response) as [[| [|] | lit | text | xs | fields] | e];
      try contradiction; cbn [fst snd app negb truthy_field truthy_json];
      try reflexivity.
    + unfold truthy_field. cbn [truthy_json].
      destruct (negb (lit =? "0")%string); reflexivity.
    + unfold truthy_field. cbn [truthy_json].
      destruct (truthy text); reflexivity.
Qed.

End PageMessages.

(** ** The sample hosts seen from the page *)

Lemma received_view (r : Response) : received r (PageSamples.view r).
Proof.
  unfold received, PageSamples.view. cbn.
  repeat split; intros ? H; rewrite H; reflexivity.
Qed.

(** The worker writes the spreadsheet and reports May 2024: the page
    saves it as [report_updated_2024-05.xlsx]. *)
Lemma page_downloads_what_generate_sends_witness :
  Client.handleGenerate
    (PageSamples.server (Samples.platform (Samples.writing_worker Samples.ok_text 0))
       Samples.world0)
    PageSamples.page
  = [Client.SetStatus Page.generating; Client.SetApiError None;
     Client.Fetch "/api/generate" (Page.formData_of Samples.docx Samples.xlsx false);
     Client.Download "report_updated_2024-05.xlsx" Samples.updated_xlsx;
     Client.SetStatus Page.idle].
Proof.
  apply (page_downloads_what_generate_sends
           (PageSamples.server
              (Samples.platform (Samples.writing_worker Samples.ok_text 0))
              Samples.world0)
           PageSamples.page Samples.docx Samples.xlsx
           (PageSamples.view
              (Generate.download "report_updated_2024-05.xlsx" Samples.updated_xlsx))
           "2024-05" Samples.updated_xlsx);
    [reflexivity | reflexivity | vm_compute; reflexivity
    | apply received_view | reflexivity].
Defined.

(** The worker reports a validation error: the analyze route answers 422
    with the payload, and the page stores its report and says so. *)
Lemma analysis_report_reaches_the_page_witness :
  Client.handleAnalyze
    (PageSamples.server
       (Samples.platform (Samples.printing_worker Samples.blocked_text "" 1))
       Samples.world0)
    PageSamples.page
  = [Client.SetStatus Page.analyzing; Client.SetApiError None;
     Client.SetAnalysis None;
     Client.Fetch "/api/analyze" (Page.formData_of Samples.docx Samples.xlsx false);
     Client.SetAnalysis (Some (JObj [("reportMonth", JStr "2024-05")]));
     Client.SetApiError
       (Some "Validation issues detected. Review the report below.");
     Client.SetStatus Page.idle].
Proof.
  apply (analysis_report_reaches_the_page
           (PageSamples.server
              (Samples.platform (Samples.printing_worker Samples.blocked_text "" 1))
              Samples.world0)
           PageSamples.page Samples.docx Samples.xlsx
           (PageSamples.view (NextResponse_json Samples.blocked_payload 422))
           [("status", JStr "validation_error");
            ("report", JObj [("reportMonth", JStr "2024-05")])]
           (JObj [("reportMonth", JStr "2024-05")]) 422);
    [reflexivity | reflexivity | vm_compute; reflexivity
    | apply received_view | reflexivity ..].
Defined.

(** The same worker behind the generate route: the page stores the report,
    says that the generation was blocked, and downloads nothing. *)
Lemma blocked_report_reaches_the_page_witness :
  Client.handleGenerate
    (PageSamples.server
       (Samples.platform (Samples.printing_worker Samples.blocked_text "" 1))
       Samples.world0)
    PageSamples.page
  = [Client.SetStatus Page.generating; Client.SetApiError None;
     Client.Fetch "/api/generate" (Page.formData_of Samples.docx Samples.xlsx false);
     Client.SetAnalysis (Some (JObj [("reportMonth", JStr "2024-05")]));
     Client.SetApiError (Some "Generation blocked. Review the validation report.");
     Client.SetStatus Page.idle].
Proof.
  apply (blocked_report_reaches_the_page
           (PageSamples.server
              (Samples.platform (Samples.printing_worker Samples.blocked_text "" 1))
              Samples.world0)
           PageSamples.page Samples.docx Samples.xlsx
           (PageSamples.view (NextResponse_json Samples.blocked_payload 422))
           [("status", JStr "validation_error");
            ("report", JObj [("reportMonth", JStr "2024-05")])]
           (JObj [("reportMonth", JStr "2024-05")]) 422);
    [reflexivity | reflexivity | vm_compute; reflexivity
    | apply received_view | reflexivity ..].
Defined.

(** No interpreter can be started: the page shows the text of the analyze
    route followed by the error of the last attempt. *)
Lemma failure_answer_is_shown_witness :
  Client.handleAnalyze
    (PageSamples.server (Samples.platform Samples.no_interpreter) Samples.world0)
    PageSamples.page
  = [Client.SetStatus Page.analyzing; Client.SetApiError None;
     Client.SetAnalysis None;
     Client.Fetch "/api/analyze" (Page.formData_of Samples.docx Samples.xlsx false);
     Client.SetApiError
       (Some "Failed to analyze report. Details: Error: spawn py ENOENT");
     Client.SetStatus Page.idle].
Proof.
  apply (proj1
           (failure_answer_is_shown
              (PageSamples.server (Samples.platform Samples.no_interpreter)
                 Samples.world0)
              PageSamples.page Samples.docx Samples.xlsx
              (PageSamples.view
                 (NextResponse_json
                    (JObj [("error", JStr "Failed to analyze report.");
                           ("details", JStr "Error: spawn py ENOENT")]) 500))
              "Failed to analyze report." "Error: spawn py ENOENT" 500
              eq_refl eq_refl (received_view _) eq_refl
              ltac:(discriminate))).
  vm_compute. reflexivity.
Defined.

(** The disk is full and the handler throws: the answer is no JSON, and
    the page shows its general message. *)
Lemma unreadable_answer_gives_general_message_witness :
  Client.handleAnalyze (PageSamples.server Samples.full_host Samples.world0)
    PageSamples.page
  = [Client.SetStatus Page.analyzing; Client.SetApiError None;
     Client.SetAnalysis None;
     Client.Fetch "/api/analyze" (Page.formData_of Samples.docx Samples.xlsx false);
     Client.SetApiError (Some "Analyze failed. Please check the server logs.");
     Client.SetStatus Page.idle].
Proof.
  apply (proj1
           (unreadable_answer_gives_general_message
              (PageSamples.server Samples.full_host Samples.world0)
              PageSamples.page Samples.docx Samples.xlsx
              (Client.mkFetchResponse false []
                 (Throw (Samples.SyntaxError "Internal Server Error")) (Normal []))
              eq_refl eq_refl eq_refl I)).
  vm_compute. reflexivity.
Defined.

(** ** The table of validation issues and the keys of the rows *)

Section Tables.
Import Client.

Lemma retyped_rows (t t' : Page.IssueType) (rows : list Page.Issue) :
  Forall (fun issue => Page.type issue = t') (map (retype t) rows)
  ↔ rows = [] ∨ t = t'.
Proof.
  rewrite Forall_map. destruct rows as [|issue rows].
  - split; [now left | constructor].
  - split.
    + intros H. inversion H; subst. now right.
    + intros [?| ->]; [discriminate|]. apply Forall_forall. reflexivity.
Qed.

(** X18.  The Generate button and the table of validation issues: the
    button is enabled exactly when both files are selected, nothing is
    running, and either the skip box is checked or an analysis is there
    whose table has no row of type error.  The rows typed error are as
    many as the errors of the analysis, whatever type each of them
    carried, and the table lists the messages of the errors followed by
    those of the warnings. *)
Theorem generate_button_and_issue_table (s : Page.State) :
  (Page.canGenerate s = true ↔
   Page.wordFile s ≠ None ∧ Page.excelFile s ≠ None ∧ Page.status s = Page.idle
   ∧ (Page.skipValidation s = true
      ∨ (Page.analysis s ≠ None
         ∧ Forall (fun issue => Page.type issue = Page.warning)
             (validationIssues (Page.analysis s)))))
  ∧ (∀ a, Page.analysis s = Some a →
       length (filter (fun issue => Page.type issue = Page.error)
                 (validationIssues (Page.analysis s)))
       = length (Page.errors a)
       ∧ map Page.message (validationIssues (Page.analysis s))
         = map Page.message (Page.errors a) ++ map Page.message (Page.warnings a)).
Proof.
  split.
  - rewrite canGenerate_iff.
    assert (Hrows :
      (∃ a, Page.analysis s = Some a ∧ Page.errors a = [])
      ↔ Page.analysis s ≠ None
        ∧ Forall (fun issue => Page.type issue = Page.warning)
            (validationIssues (Page.analysis s))).
    { destruct (Page.analysis s) as [a|]; cbn [validationIssues].
      - rewrite Forall_app, !retyped_rows. split.
        + intros (? & [= <-] & ->). split; [discriminate|]. split; [now left | now right].
        + intros (_ & [H|H] & _); [|discriminate]. now exists a.
      - split; [intros (? & ? & _); discriminate | intros [H _]; now destruct H]. }
    rewrite Hrows. reflexivity.
  - intros a ->. cbn [validationIssues]. split.
    + rewrite filter_app, length_app.
      assert (He : ∀ rows, filter (fun issue => Page.type issue = Page.error)
                             (map (retype Page.error) rows)
                           = map (retype Page.error) rows).
      { induction rows as [|r rows IH]; [reflexivity|].
        cbn [map]. rewrite filter_cons, IH. now case_decide. }
      assert (Hw : ∀ rows, filter (fun issue => Page.type issue = Page.error)
                             (map (retype Page.warning) rows) = []).
      { induction rows as [|r rows IH]; [reflexivity|].
        cbn [map]. rewrite filter_cons, IH. case_decide; [discriminate | reflexivity]. }
      rewrite He, Hw, length_map. cbn [length]. lia.
    + rewrite map_app, !map_map. reflexivity.
Qed.

Lemma keys_NoDup {A} (key : A → nat → string) (rows : list A) :
  (∀ a b i j, key a i = key b j → i = j) →
  NoDup (keys key rows).
Proof.
  intros Hkey. apply NoDup_alt. intros i j k Hi Hj.
  unfold keys in Hi, Hj. rewrite list_lookup_imap in Hi, Hj.
  destruct (rows !! i) as [a|]; [|discriminate].
  destruct (rows !! j) as [b|]; [|discriminate].
  cbn in Hi, Hj. apply (Hkey a b). congruence.
Qed.

(** X19.  The rows of the table of validation issues have pairwise
    different React keys, whatever the analysis holds. *)
Theorem issue_row_keys_distinct (analysis : option Page.AnalysisReport) :
  NoDup (keys issue_key (validationIssues analysis)).
Proof.
  apply keys_NoDup. intros a b i j. unfold issue_key.
  destruct (Page.type a), (Page.type b);
    cbv [IssueType_text String.append]; intros H; try discriminate H;
    injection H as H; now apply (inj pretty).
Qed.

Lemma pretty_N_go_no_hyphen (x : N) (s : string) :
  no_hyphen s = true → no_hyphen (pretty_N_go x s) = true.
Proof.
  revert s. induction (N.lt_wf_0 x) as [x _ IH]; intros s Hs.
  assert (x = 0 ∨ 0 < x)%N as [->|?] by lia.
  - now rewrite pretty_N_go_0.
  - rewrite pretty_N_go_step by assumption. apply IH.
    + now apply N.div_lt.
    + unfold no_hyphen. cbn [string_forallb]. fold (no_hyphen s). rewrite Hs.
      unfold pretty_N_char. now repeat case_match.
Qed.

Lemma pretty_nat_no_hyphen (n : nat) : no_hyphen (pretty n) = true.
Proof.
  unfold pretty, pretty_nat, pretty, pretty_N.
  case_decide; [reflexivity|]. now apply pretty_N_go_no_hyphen.
Qed.

(** What follows the last hyphen of a text is determined by the text. *)
Lemma after_last_hyphen (a b c d : string) :
  no_hyphen c = true → no_hyphen d = true →
  a +:+ "-" +:+ c = b +:+ "-" +:+ d → c = d.
Proof.
  intros Hc Hd. revert b.
  induction a as [|x a IH]; intros [|y b] H; cbv [String.append] in H;
    fold String.append in H.
  - now injection H.
  - injection H as <- ->. exfalso.
    unfold no_hyphen in Hc. rewrite string_forallb_append in Hc.
    apply andb_true_iff in Hc as [_ Hc]. discriminate Hc.
  - injection H as -> <-. exfalso.
    unfold no_hyphen in Hd. rewrite string_forallb_append in Hd.
    apply andb_true_iff in Hd as [_ Hd]. discriminate Hd.
  - injection H as _ H. now apply (IH b).
Qed.

(** X20.  The rows of the update preview have pairwise different React
    keys, whatever their sheets and cells are called: the index after the
    last hyphen tells two rows apart even when a sheet or a cell has
    hyphens in its name. *)
Theorem preview_row_keys_distinct (rows : list Page.UpdatePreview) :
  NoDup (keys preview_key rows).
Proof.
  apply keys_NoDup. intros a b i j. unfold preview_key. intros H.
  apply (inj pretty).
  apply (after_last_hyphen (Page.sheet a +:+ "-" +:+ Page.cell a)
           (Page.sheet b +:+ "-" +:+ Page.cell b));
    [apply pretty_nat_no_hyphen .. |].
  now rewrite !append_assoc.
Qed.

End Tables.
